(** * The Decentra bot SDK: connection, dispatch and command registry

    A shallow embedding of [sdk/client.py], [sdk/commands.py] and
    [sdk/models.py].  The client is asynchronous Python; here every
    coroutine is a function into a small trace-and-exception monad: the
    trace lists, in order, what the coroutine does to the outside (log
    records, socket traffic, HTTP requests, handler calls, sleeps) and the
    outcome says whether it returned or raised.  What the outside sends
    back (socket frames, HTTP responses, whether [stop] was called) is an
    explicit argument of the function that consumes it.

    Only exceptions derived from Python's [Exception] are modelled; the
    [except Exception] clauses of the client catch exactly those.  An
    exception that derives from [BaseException] alone ([SystemExit],
    [KeyboardInterrupt], [asyncio.CancelledError]) passes every [except]
    clause of the client and ends whatever coroutine it is raised in; no
    value of the model stands for one.  The registries are filled before
    the client starts and do not change while it runs. *)

From Stdlib Require Import ZArith Ascii String List Bool Lia DecimalString.
From stdpp Require Import base strings list gmap.
Import ListNotations.
Local Open Scope string_scope.
Local Open Scope list_scope.
Set Warnings "-register-all".

(** ** Python values

    What [json.loads] produces and what handlers receive.  JSON numbers
    are kept as integers (no claim looks inside a number). *)

Inductive value : Type :=
| VNone
| VBool (b : bool)
| VInt (n : Z)
| VStr (s : string)
| VList (items : list value)
| VDict (entries : list (string * value)).

(** A [dict] with string keys, in insertion order, one entry per key. *)
Definition dict : Type := list (string * value).

Fixpoint dict_lookup (d : dict) (k : string) : option value :=
  match d with
  | [] => None
  | (k', v) :: d' => if String.eqb k' k then Some v else dict_lookup d' k
  end.

(** [d.get(k, default)] *)
Definition dict_get (d : dict) (k : string) (default : value) : value :=
  match dict_lookup d k with
  | Some v => v
  | None => default
  end.

(** [d[k] = v]: replaces the value of an existing key in place, appends a
    new key. *)
Fixpoint dict_set (d : dict) (k : string) (v : value) : dict :=
  match d with
  | [] => [(k, v)]
  | (k', v') :: d' =>
      if String.eqb k' k then (k', v) :: d' else (k', v') :: dict_set d' k v
  end.

(** Python truthiness, as [if x:] and [x and y] test it. *)
Definition truthy (v : value) : bool :=
  match v with
  | VNone => false
  | VBool b => b
  | VInt n => negb (Z.eqb n 0)
  | VStr s => negb (String.eqb s "")
  | VList l => match l with [] => false | _ => true end
  | VDict d => match d with [] => false | _ => true end
  end.

(** [v == 'literal'] for a string literal. *)
Definition eq_str (v : value) (lit : string) : bool :=
  match v with
  | VStr s => String.eqb s lit
  | _ => false
  end.

(** [type(v).__name__], as Python's error messages print it. *)
Definition type_name (v : value) : string :=
  match v with
  | VNone => "NoneType"
  | VBool _ => "bool"
  | VInt _ => "int"
  | VStr _ => "str"
  | VList _ => "list"
  | VDict _ => "dict"
  end.

(** ** Exceptions

    An exception is an object of a class: it carries the name of its
    class, the names of the classes that class derives from -- what
    [type(e).__mro__] lists after the class itself, down to [Exception] --
    and its message.  An [except] clause looks at nothing but that list, so
    an exception of a class the client has never heard of, raised by a
    library or by a handler, is caught by the clauses of its own
    ancestors. *)

Record exn : Type := mkExn {
  exn_class : string;
  exn_bases : list string;
  exn_msg : string
}.

(** [isinstance(e, cls)], which is what an [except cls] clause tests. *)
Definition isinstance (e : exn) (cls : string) : bool :=
  String.eqb (exn_class e) cls || existsb (String.eqb cls) (exn_bases e).

(** The ancestors of the classes that the interpreter and the libraries
    of the client raise by name: the built-in ones, those of [json], of
    [websockets] and of [aiohttp]. *)
Definition class_bases : list (string * list string) :=
  [ ("ConnectionError", ["OSError"; "Exception"]);
    ("ConnectionRefusedError", ["ConnectionError"; "OSError"; "Exception"]);
    ("ConnectionResetError", ["ConnectionError"; "OSError"; "Exception"]);
    ("ConnectionAbortedError", ["ConnectionError"; "OSError"; "Exception"]);
    ("BrokenPipeError", ["ConnectionError"; "OSError"; "Exception"]);
    ("OSError", ["Exception"]);
    ("TimeoutError", ["OSError"; "Exception"]);
    ("ConnectionClosed", ["WebSocketException"; "Exception"]);
    ("ConnectionClosedError",
       ["ConnectionClosed"; "WebSocketException"; "Exception"]);
    ("ConnectionClosedOK",
       ["ConnectionClosed"; "WebSocketException"; "Exception"]);
    ("InvalidHandshake", ["WebSocketException"; "Exception"]);
    ("InvalidURI", ["WebSocketException"; "Exception"]);
    ("WebSocketException", ["Exception"]);
    ("ClientError", ["Exception"]);
    ("ClientConnectionError", ["ClientError"; "Exception"]);
    ("ClientConnectionResetError",
       ["ClientConnectionError"; "ClientError"; "ConnectionResetError";
        "ConnectionError"; "OSError"; "Exception"]);
    ("ClientOSError",
       ["ClientConnectionError"; "ClientError"; "OSError"; "Exception"]);
    ("ClientConnectorError",
       ["ClientOSError"; "ClientConnectionError"; "ClientError"; "OSError";
        "Exception"]);
    ("ClientResponseError", ["ClientError"; "Exception"]);
    ("ContentTypeError",
       ["ClientResponseError"; "ClientError"; "Exception"]);
    ("JSONDecodeError", ["ValueError"; "Exception"]);
    ("UnicodeDecodeError", ["UnicodeError"; "ValueError"; "Exception"]);
    ("UnicodeError", ["ValueError"; "Exception"]);
    ("ValueError", ["Exception"]);
    ("RecursionError", ["RuntimeError"; "Exception"]);
    ("RuntimeError", ["Exception"]);
    ("TypeError", ["Exception"]);
    ("AttributeError", ["Exception"]) ].

(** The ancestors of a class of the table; a name the table does not
    hold reads as a class declared directly under [Exception]. *)
Fixpoint bases_of (table : list (string * list string)) (c : string)
  : list string :=
  match table with
  | [] => ["Exception"]
  | (c', bs) :: table' => if String.eqb c' c then bs else bases_of table' c
  end.

(** [cls(msg)] for a class of the table.  An exception of any other
    ancestry is written with [mkExn] and its own list of bases. *)
Definition Exn (cls msg : string) : exn :=
  mkExn cls (bases_of class_bases cls) msg.

(** ** The data model of [models.py] and [commands.py] *)

(** [models.Message]; a field holds whatever the payload held. *)
Record Message : Type := mkMessage {
  msg_id : value;
  msg_username : value;
  msg_content : value;
  msg_timestamp : value;
  msg_server_id : value;
  msg_channel_id : value;
  msg_context : value;
  msg_context_id : value;
  msg_is_bot : value;
  msg_edited_at : value;
  msg_reactions : value;
  msg_attachments : value;
  msg_mentions : value;
  msg_reply_data : value;
  msg_raw : dict
}.

(** The defaults of the dataclass declaration: [Message()]. *)
Definition Message_default : Message :=
  {| msg_id := VNone;
     msg_username := VStr "";
     msg_content := VStr "";
     msg_timestamp := VStr "";
     msg_server_id := VStr "";
     msg_channel_id := VStr "";
     msg_context := VStr "";
     msg_context_id := VStr "";
     msg_is_bot := VBool false;
     msg_edited_at := VNone;
     msg_reactions := VList [];
     msg_attachments := VList [];
     msg_mentions := VList [];
     msg_reply_data := VNone;
     msg_raw := [] |}.

(** [Message.from_event] *)
Definition from_event (data : dict) : Message :=
  {| msg_id := dict_get data "id" VNone;
     msg_username := dict_get data "username" (VStr "");
     msg_content := dict_get data "content" (VStr "");
     msg_timestamp := dict_get data "timestamp" (VStr "");
     msg_server_id := dict_get data "server_id" (VStr "");
     msg_channel_id := dict_get data "channel_id" (VStr "");
     msg_context := dict_get data "context" (VStr "");
     msg_context_id := dict_get data "context_id" (VStr "");
     msg_is_bot := dict_get data "is_bot" (VBool false);
     msg_edited_at := dict_get data "edited_at" VNone;
     msg_reactions := dict_get data "reactions" (VList []);
     msg_attachments := dict_get data "attachments" (VList []);
     msg_mentions := dict_get data "mentions" (VList []);
     msg_reply_data := dict_get data "reply_data" VNone;
     msg_raw := data |}.

(** The named fields of a [Message]: the payload key each one is read
    from and its projection. *)
Definition message_fields : list (string * (Message -> value)) :=
  [ ("id", msg_id); ("username", msg_username); ("content", msg_content);
    ("timestamp", msg_timestamp); ("server_id", msg_server_id);
    ("channel_id", msg_channel_id); ("context", msg_context);
    ("context_id", msg_context_id); ("is_bot", msg_is_bot);
    ("edited_at", msg_edited_at); ("reactions", msg_reactions);
    ("attachments", msg_attachments); ("mentions", msg_mentions);
    ("reply_data", msg_reply_data) ].

(** The part of [DecentraBot] that the REST helpers read.  It also stands
    for the client wherever the source keeps a reference to it
    ([SlashCommandContext._bot]). *)
Record client : Type := mkClient {
  instance_url : string;
  token : string
}.

(** [commands.SlashCommandParam] *)
Record SlashCommandParam : Type := mkParam {
  param_name : string;
  param_description : string;
  param_type : string;
  param_required : bool;
  param_choices : list value
}.

(** [SlashCommandParam.to_dict] *)
Definition to_dict (p : SlashCommandParam) : value :=
  let d : dict :=
    [ ("name", VStr (param_name p));
      ("description", VStr (param_description p));
      ("type", VStr (param_type p));
      ("required", VBool (param_required p)) ] in
  VDict (match param_choices p with
         | [] => d
         | _ :: _ => dict_set d "choices" (VList (param_choices p))
         end).

(** [commands.SlashCommandContext] *)
Record SlashCommandContext : Type := mkContext {
  command_name : value;
  arguments : value;
  user : value;
  server_id : value;
  channel_id : value;
  _bot : option client
}.

(** What a handler is called with: a command context, a message record or
    the payload mapping itself. *)
Inductive arg : Type :=
| ArgContext (ctx : SlashCommandContext)
| ArgMessage (m : Message)
| ArgRaw (payload : dict).

(** A registered callback: the function's name and what a call does as far
    as the client can tell, which is to return or to raise.  What a
    handler does on its own account (requests it sends, changes to what it
    was given) is not part of the client. *)
Record handler : Type := mkHandler {
  h_name : string;
  h_call : arg -> option exn
}.

(** ** Effects and the monad of coroutines *)

Inductive level : Type := DEBUG | INFO | WARNING | ERROR.

(** An argument of a logging call; [logging] keeps them unformatted. *)
Inductive log_arg : Type :=
| AStr (s : string)
| AInt (n : Z)
| AVal (v : value)
| AExn (e : exn).

(** The ways in which [json.loads] fails on a frame whose text is not
    simply malformed: a binary frame whose bytes are no text in the
    encoding they announce, a document nested beyond the recursion limit,
    and a number with more digits than the interpreter converts. *)
Inductive decoding_failure : Type :=
| BadEncoding
| TooDeep
| TooLong.

(** The class [json.loads] raises for each of them. *)
Definition failure_class (why : decoding_failure) : string :=
  match why with
  | BadEncoding => "UnicodeDecodeError"
  | TooDeep => "RecursionError"
  | TooLong => "ValueError"
  end.

(** A frame read from the socket, by what [json.loads] makes of it: the
    message of the [JSONDecodeError] for a text that is no JSON document,
    the failure and its message for a frame it cannot read otherwise, or
    the value it returns. *)
Inductive raw_message : Type :=
| NotJSON (text : string)
| Unreadable (why : decoding_failure) (text : string)
| JSON (v : value).

(** The URL that [urllib.parse.urljoin(base, url)] returns.  Resolving the
    reference against the base is the library's work; the model keeps a
    joined URL as the two strings the library is given. *)
Record joined_url : Type := urljoin {
  url_base : string;
  url_reference : string
}.

Inductive effect : Type :=
| Log (lvl : level) (fmt : string) (args : list log_arg)
| WsConnect (url : string)
| WsSend (frame : value)
| WsRecv (m : raw_message)
| Request (method : string) (url : joined_url) (headers : dict)
    (body : option value)
| Invoke (h : handler) (a : arg)
| Sleep (seconds : Z).

Inductive outcome (A : Type) : Type :=
| Return (a : A)
| Raise (e : exn).
Arguments Return {A} a.
Arguments Raise {A} e.

Definition M (A : Type) : Type := list effect * outcome A.

Definition ret {A} (a : A) : M A := ([], Return a).
Definition raise {A} (e : exn) : M A := ([], Raise e).
Definition emit (x : effect) : M unit := ([x], Return tt).

Definition bind {A B} (c : M A) (k : A -> M B) : M B :=
  match c with
  | (t, Return a) => let '(t', r) := k a in (t ++ t', r)
  | (t, Raise e) => (t, Raise e)
  end.

Notation "x <- c ;; k" := (bind c (fun x => k))
  (at level 100, c at next level, right associativity).
Notation "c ;;; k" := (bind c (fun _ => k))
  (at level 100, right associativity).

(** [try: c  except Exception as e: h e] *)
Definition try_except {A} (c : M A) (h : exn -> M A) : M A :=
  match c with
  | (t, Return a) => (t, Return a)
  | (t, Raise e) => let '(t', r) := h e in (t ++ t', r)
  end.

Definition trace {A} (c : M A) : list effect := fst c.
Definition result {A} (c : M A) : outcome A := snd c.

(** Calling a handler: the call is recorded, then it returns or raises. *)
Definition call (h : handler) (a : arg) : M unit :=
  emit (Invoke h a) ;;;
  match h_call h a with
  | None => ret tt
  | Some e => raise e
  end.

(** ** The client and its registries ([DecentraBot.__init__]) *)

Record DecentraBot : Type := mkBot {
  bot_client : client;
  _event_handlers : gmap string (list handler);
  _slash_handlers : gmap string handler;
  _slash_definitions : list value;
  _running : bool
}.

(** The registries as the constructor leaves them before discovery. *)
Definition new_bot (c : client) : DecentraBot :=
  {| bot_client := c;
     _event_handlers := ∅;
     _slash_handlers := ∅;
     _slash_definitions := [];
     _running := false |}.

(** [add_event_handler]: [setdefault(event, []).append(handler)] *)
Definition add_event_handler (event : string) (h : handler)
    (bot : DecentraBot) : DecentraBot :=
  {| bot_client := bot_client bot;
     _event_handlers :=
       <[event := default [] (_event_handlers bot !! event) ++ [h]]>
         (_event_handlers bot);
     _slash_handlers := _slash_handlers bot;
     _slash_definitions := _slash_definitions bot;
     _running := _running bot |}.

(** [on_message()(func)] and [on_event(event_name)(func)] *)
Definition on_message (func : handler) (bot : DecentraBot) : DecentraBot :=
  add_event_handler "message_create" func bot.

Definition on_event (event_name : string) (func : handler)
    (bot : DecentraBot) : DecentraBot :=
  add_event_handler event_name func bot.

(** An element of the [parameters] argument: an object that has [to_dict]
    or anything else, which is passed through. *)
Inductive parameter : Type :=
| ParamObject (p : SlashCommandParam)
| ParamPlain (v : value).

Definition parameter_dict (p : parameter) : value :=
  match p with
  | ParamObject p => to_dict p
  | ParamPlain v => v
  end.

(** The definition a registration adds to [_slash_definitions]. *)
Definition definition (name description : string)
    (parameters : list parameter) : value :=
  VDict [ ("name", VStr name);
          ("description", VStr description);
          ("parameters", VList (map parameter_dict parameters)) ].

(** [slash_command(name, description, parameters)(func)] on an instance;
    [parameters=None] is the empty list. *)
Definition slash_command (name description : string)
    (parameters : list parameter) (func : handler)
    (bot : DecentraBot) : DecentraBot :=
  {| bot_client := bot_client bot;
     _event_handlers := _event_handlers bot;
     _slash_handlers := <[name := func]> (_slash_handlers bot);
     _slash_definitions :=
       _slash_definitions bot ++ [definition name description parameters];
     _running := _running bot |}.

(** A method of a subclass as [_discover_handlers] sees it: the bound
    method and the markers the decorators of [events.py] and
    [commands.py] left on it. *)
Record method : Type := mkMethod {
  m_func : handler;
  _decentra_event : option string;
  _decentra_slash_command : option (string * string * list SlashCommandParam)
}.

Definition discover (m : method) (bot : DecentraBot) : DecentraBot :=
  let bot1 :=
    match _decentra_event m with
    | Some event =>
        if truthy (VStr event) then add_event_handler event (m_func m) bot
        else bot
    | None => bot
    end in
  match _decentra_slash_command m with
  | Some (name, description, parameters) =>
      slash_command name description (map ParamObject parameters)
        (m_func m) bot1
  | None => bot1
  end.

(** [_discover_handlers], over the callable attributes in [dir] order. *)
Definition _discover_handlers (methods : list method)
    (bot : DecentraBot) : DecentraBot :=
  fold_left (fun b m => discover m b) methods bot.

(** ** The action client *)

(** An HTTP response: its status and what [resp.json()] yields. *)
Record response : Type := mkResponse {
  status : Z;
  json_body : exn + value
}.

(** [_headers] *)
Definition _headers (c : client) : dict :=
  [ ("Authorization", VStr ("Bot " +:+ token c));
    ("Content-Type", VStr "application/json") ].

(** [path.lstrip('/')] *)
Fixpoint lstrip_slash (path : string) : string :=
  match path with
  | EmptyString => EmptyString
  | String c rest =>
      if Ascii.eqb c "/"%char then lstrip_slash rest else String c rest
  end.

(** [_api_url] *)
Definition _api_url (c : client) (path : string) : joined_url :=
  urljoin (instance_url c +:+ "/") (lstrip_slash path).

(** [_api_request].  [net] is what [session.request] does: it raises or
    delivers a response.  The request goes to the URL of [_api_url]; the
    error record names the path as the caller gave it. *)
Definition _api_request (c : client) (method path : string)
    (json : option value) (net : exn + response) : M value :=
  emit (Request method (_api_url c path) (_headers c) json) ;;;
  match net with
  | inl e => raise e
  | inr resp =>
      match json_body resp with
      | inl e => raise e
      | inr data =>
          (if (400 <=? status resp)%Z
           then emit (Log ERROR "API %s %s → %s: %s"
                        [AStr method; AStr path; AInt (status resp); AVal data])
           else ret tt) ;;;
          ret data
      end
  end.

(** [send_message] *)
Definition send_message (c : client) (server channel content : value)
    (net : exn + response) : M value :=
  _api_request c "POST" "/api/bot/messages"
    (Some (VDict [ ("server_id", server);
                   ("channel_id", channel);
                   ("content", content) ])) net.

(** [register_commands] *)
Definition register_commands (bot : DecentraBot) (net : exn + response)
  : M value :=
  match _slash_definitions bot with
  | [] => ret (VDict [ ("success", VBool true);
                       ("message", VStr "No commands to register") ])
  | _ :: _ =>
      _api_request (bot_client bot) "POST" "/api/bot/commands"
        (Some (VDict [ ("commands", VList (_slash_definitions bot)) ])) net
  end.

(** [SlashCommandContext.reply]; Python's [None] result is [VNone]. *)
Definition reply (ctx : SlashCommandContext) (content : value)
    (net : exn + response) : M value :=
  match _bot ctx with
  | Some c =>
      if truthy (server_id ctx) && truthy (channel_id ctx)
      then send_message c (server_id ctx) (channel_id ctx) content net
      else ret VNone
  | None => ret VNone
  end.

(** ** The dispatcher ([_dispatch_event]) *)

(** Using [v] as the key of a [dict.get] on a table keyed by strings: a
    list or a dict cannot be hashed, any other non-string is no key. *)
Definition hash_key (v : value) : M (option string) :=
  match v with
  | VStr s => ret (Some s)
  | VList _ | VDict _ =>
      raise (Exn "TypeError" ("unhashable type: '" +:+ type_name v +:+ "'"))
  | _ => ret None
  end.

(** The two item assignments at the top of the [bot_event] branch. *)
Definition inject (envelope payload : dict) : dict :=
  dict_set
    (dict_set payload "server_id" (dict_get envelope "server_id" (VStr "")))
    "channel_id" (dict_get envelope "channel_id" (VStr "")).

(** What an event handler is called with. *)
Definition event_arg (event_name : value) (event_data : dict) : arg :=
  if eq_str event_name "message_create"
  then ArgMessage (from_event event_data)
  else ArgRaw event_data.

(** The [for handler in handlers] loop with its [try]/[except]. *)
Fixpoint call_handlers (event_name : value) (event_data : dict)
    (handlers : list handler) : M unit :=
  match handlers with
  | [] => ret tt
  | h :: rest =>
      try_except
        (call h (event_arg event_name event_data))
        (fun e => emit (Log ERROR "Handler error for %s: %s"
                          [AVal event_name; AExn e])) ;;;
      call_handlers event_name event_data rest
  end.

(** The context built for a command handler. *)
Definition make_context (bot : DecentraBot) (cmd_name : value)
    (event_data : dict) : SlashCommandContext :=
  {| command_name := cmd_name;
     arguments := dict_get event_data "arguments" (VDict []);
     user := dict_get event_data "user" (VStr "");
     server_id := dict_get event_data "server_id" (VStr "");
     channel_id := dict_get event_data "channel_id" (VStr "");
     _bot := Some (bot_client bot) |}.

(** The [slash_command] branch. *)
Definition dispatch_slash_command (bot : DecentraBot) (event_data : dict)
  : M unit :=
  let cmd_name := dict_get event_data "command" (VStr "") in
  key <- hash_key cmd_name ;;
  match key ≫= (λ k, _slash_handlers bot !! k) with
  | Some handler => call handler (ArgContext (make_context bot cmd_name event_data))
  | None => ret tt
  end.

Definition _dispatch_event (bot : DecentraBot) (data : value) : M unit :=
  match data with
  | VDict envelope =>
      let event_type := dict_get envelope "type" (VStr "") in
      if eq_str event_type "bot_event" then
        let event_name := dict_get envelope "event" (VStr "") in
        match dict_get envelope "data" (VDict []) with
        | VDict payload =>
            let event_data := inject envelope payload in
            if eq_str event_name "slash_command" then
              dispatch_slash_command bot event_data
            else
              key <- hash_key event_name ;;
              call_handlers event_name event_data
                (default [] (key ≫= (λ k, _event_handlers bot !! k)))
        | VList _ =>
            raise (Exn "TypeError"
                     "list indices must be integers or slices, not str")
        | other =>
            raise (Exn "TypeError"
                     ("'" +:+ type_name other
                      +:+ "' object does not support item assignment"))
        end
      else if eq_str event_type "pong" then ret tt
      else emit (Log DEBUG "Unhandled WS message type: %s" [AVal event_type])
  | other =>
      raise (Exn "AttributeError"
               ("'" +:+ type_name other +:+ "' object has no attribute 'get'"))
  end.

(** ** Connecting and authenticating ([_connect_ws]) *)

(** [s.replace(old, new)] for a non-empty [old]: [skip] counts the
    characters of a match still to be dropped. *)
Fixpoint replace_from (old new : string) (skip : nat) (s : string) : string :=
  match s with
  | EmptyString => EmptyString
  | String c s' =>
      match skip with
      | S n => replace_from old new n s'
      | O =>
          if String.prefix old s
          then new +:+ replace_from old new (String.length old - 1) s'
          else String c (replace_from old new 0 s')
      end
  end.

Definition replace (old new s : string) : string := replace_from old new 0 s.

(** [_ws_url] *)
Definition _ws_url (c : client) : string :=
  replace "https://" "wss://" (replace "http://" "ws://" (instance_url c))
  +:+ "/ws".

(** What the server side does during one connection: whether
    [websockets.connect] and the sending of the authentication frame
    raise, what [recv] yields, the HTTP exchange of the command
    registration, the frames the stream then yields, and how the stream
    ends ([None]: the iteration finishes, which is what [websockets] does
    on a normal close; [Some e]: it raises [e]). *)
Record connection : Type := mkConnection {
  connect : option exn;
  send_auth : option exn;
  auth_recv : exn + raw_message;
  commands_reply : exn + response;
  incoming : list raw_message;
  closing : option exn
}.

Definition raise_if (e : option exn) : M unit :=
  match e with
  | Some e => raise e
  | None => ret tt
  end.

(** [json.loads] *)
Definition json_loads (m : raw_message) : M value :=
  match m with
  | JSON v => ret v
  | NotJSON text => raise (Exn "JSONDecodeError" text)
  | Unreadable why text => raise (Exn (failure_class why) text)
  end.

Section Connection.

(** Python's [repr] of a list or a dict, which the client only ever
    reaches through [str]. *)
Variable py_repr : value -> string.

(** [str(v)], as an f-string formats [v]. *)
Definition py_str (v : value) : string :=
  match v with
  | VNone => "None"
  | VBool true => "True"
  | VBool false => "False"
  | VInt n => NilEmpty.string_of_int (Z.to_int n)
  | VStr s => s
  | VList _ | VDict _ => py_repr v
  end.

Definition _connect_ws (bot : DecentraBot) (conn : connection) : M unit :=
  let ws_url := _ws_url (bot_client bot) in
  emit (Log INFO "Connecting to %s ..." [AStr ws_url]) ;;;
  emit (WsConnect ws_url) ;;;
  raise_if (connect conn) ;;;
  emit (WsSend (VDict [ ("type", VStr "bot_auth");
                        ("token", VStr (token (bot_client bot))) ])) ;;;
  raise_if (send_auth conn) ;;;
  auth_response <-
    match auth_recv conn with
    | inl e => raise e
    | inr m => emit (WsRecv m) ;;; ret m
    end ;;
  auth_data <- json_loads auth_response ;;
  match auth_data with
  | VDict d =>
      if eq_str (dict_get d "type" VNone) "bot_auth_success" then
        emit (Log INFO "✓ Authenticated as %s (bot_id=%s)"
                [AVal (dict_get d "username" VNone);
                 AVal (dict_get d "bot_id" VNone)])
      else if eq_str (dict_get d "type" VNone) "error" then
        raise (Exn "ConnectionError"
                 ("Authentication failed: "
                  +:+ py_str (dict_get d "message" VNone)))
      else
        emit (Log WARNING "Unexpected auth response: %s" [AVal auth_data])
  | other =>
      raise (Exn "AttributeError"
               ("'" +:+ type_name other +:+ "' object has no attribute 'get'"))
  end.

(** ** Streaming and reconnecting ([_ws_loop]) *)

(** The [async for raw_message in self._ws] loop over the frames that
    arrive before the stream ends. *)
Fixpoint stream (bot : DecentraBot) (frames : list raw_message) : M unit :=
  match frames with
  | [] => ret tt
  | raw :: rest =>
      emit (WsRecv raw) ;;;
      try_except
        (data <- json_loads raw ;; _dispatch_event bot data)
        (fun e =>
           if isinstance e "JSONDecodeError"
           then emit (Log WARNING "Received non-JSON message" [])
           else emit (Log ERROR "Error handling event: %s" [AExn e])) ;;;
      stream bot rest
  end.

(** The body of the [try] of [_ws_loop]: one connection attempt. *)
Definition attempt (bot : DecentraBot) (conn : connection) : M unit :=
  _connect_ws bot conn ;;;
  match _slash_definitions bot with
  | [] => ret tt
  | _ :: _ =>
      result <- register_commands bot (commands_reply conn) ;;
      emit (Log INFO "Registered %d slash commands: %s"
              [AInt (Z.of_nat (length (_slash_definitions bot)));
               AVal result])
  end ;;;
  stream bot (incoming conn) ;;;
  raise_if (closing conn).

(** The [except] clauses of [_ws_loop] and the sleep after them.
    [running] is [self._running] when the attempt is over. *)
Definition recover (r : outcome unit) (running : bool) : list effect :=
  match r with
  | Return _ => if running then [Sleep 5] else []
  | Raise e =>
      if isinstance e "ConnectionClosed" then
        Log WARNING "WebSocket closed: %s — reconnecting in 5s" [AExn e]
        :: (if running then [Sleep 5] else [])
      else if isinstance e "ConnectionError" then
        [ Log ERROR "Connection error: %s — retrying in 10s" [AExn e];
          Sleep 10 ]
      else
        Log ERROR "Unexpected error: %s — reconnecting in 5s" [AExn e]
        :: (if running then [Sleep 5] else [])
  end.

(** One turn of the [while]: the connection the client gets, and whether
    [stop] is called while the attempt lasts or during the sleep that
    follows it. *)
Record round : Type := mkRound {
  rd_connection : connection;
  stop_during_attempt : bool;
  stop_during_sleep : bool
}.

(** How the model of the loop ends: the [while] condition failed, or the
    script ran out with the client about to connect again. *)
Inductive loop_end : Type := Exited | Reconnecting.

Definition set_running (b : bool) (bot : DecentraBot) : DecentraBot :=
  {| bot_client := bot_client bot;
     _event_handlers := _event_handlers bot;
     _slash_handlers := _slash_handlers bot;
     _slash_definitions := _slash_definitions bot;
     _running := b |}.

(** [_ws_loop]: [while self._running], one round of the script per turn. *)
Fixpoint _ws_loop (bot : DecentraBot) (script : list round)
  : list effect * loop_end :=
  if _running bot then
    match script with
    | [] => ([], Reconnecting)
    | r :: rest =>
        let c := attempt bot (rd_connection r) in
        let running := negb (stop_during_attempt r) in
        let back := recover (result c) running in
        let running' := running && negb (stop_during_sleep r) in
        let '(t, e) := _ws_loop (set_running running' bot) rest in
        (trace c ++ back ++ t, e)
    end
  else ([], Exited).

(** [start] *)
Definition start (bot : DecentraBot) (script : list round)
  : list effect * loop_end :=
  let '(t, e) := _ws_loop (set_running true bot) script in
  (Log INFO "Starting Decentra bot..." [] :: t, e).

End Connection.

(** ** The other records of [models.py] *)

(** [models.Server] *)
Record Server : Type := mkServer {
  srv_server_id : value;
  srv_name : value;
  srv_raw : dict
}.

(** [Server.from_dict] *)
Definition Server_from_dict (data : dict) : Server :=
  {| srv_server_id := dict_get data "server_id" (VStr "");
     srv_name := dict_get data "name" (VStr "");
     srv_raw := data |}.

(** [models.Channel] *)
Record Channel : Type := mkChannel {
  ch_channel_id : value;
  ch_name : value;
  ch_channel_type : value;
  ch_server_id : value;
  ch_raw : dict
}.

(** [Channel.from_dict] *)
Definition Channel_from_dict (data : dict) : Channel :=
  {| ch_channel_id :=
       dict_get data "channel_id" (dict_get data "id" (VStr ""));
     ch_name := dict_get data "name" (VStr "");
     ch_channel_type :=
       dict_get data "channel_type" (dict_get data "type" (VStr "text"));
     ch_server_id := dict_get data "server_id" (VStr "");
     ch_raw := data |}.

(** [models.Member] *)
Record Member : Type := mkMember {
  mem_username : value;
  mem_is_owner : value;
  mem_is_bot : value;
  mem_user_status : value;
  mem_raw : dict
}.

(** [Member.from_dict] *)
Definition Member_from_dict (data : dict) : Member :=
  {| mem_username := dict_get data "username" (VStr "");
     mem_is_owner := dict_get data "is_owner" (VBool false);
     mem_is_bot := dict_get data "is_bot" (VBool false);
     mem_user_status := dict_get data "user_status" (VStr "offline");
     mem_raw := data |}.

(** ** The other public REST methods *)

(** [str(n)] for an [int], as an f-string puts it into a path. *)
Definition decimal (n : Z) : string := NilEmpty.string_of_int (Z.to_int n).




(** [x.get(...)] on a value: only a dict has the method. *)
Definition as_dict (v : value) : M dict :=
  match v with
  | VDict d => ret d
  | other =>
      raise (Exn "AttributeError"
               ("'" +:+ type_name other +:+ "' object has no attribute 'get'"))
  end.

(** The elements a [for] takes from a value: the items of a list, the keys
    of a dict, the characters of a string (here: its bytes); nothing else
    that JSON yields can be iterated. *)
Definition iterate (v : value) : M (list value) :=
  match v with
  | VList items => ret items
  | VDict d => ret (map (fun kv => VStr (fst kv)) d)
  | VStr s => ret (map (fun ch => VStr (String ch EmptyString))
                     (list_ascii_of_string s))
  | other =>
      raise (Exn "TypeError"
               ("'" +:+ type_name other +:+ "' object is not iterable"))
  end.

(** The comprehension [[cls.from_dict(x) for x in items]]: [from_dict]
    calls [x.get], which the first element that is no dict lacks. *)
Fixpoint from_dicts {A : Type} (from_dict : dict -> A) (items : list value)
  : M (list A) :=
  match items with
  | [] => ret []
  | x :: rest =>
      d <- as_dict x ;;
      records <- from_dicts from_dict rest ;;
      ret (from_dict d :: records)
  end.

(** The common shape of the four list fetchers: the request, then
    [data.get(key, [])] and the comprehension. *)
Definition fetch {A : Type} (c : client) (path key : string)
    (from_dict : dict -> A) (net : exn + response) : M (list A) :=
  data <- _api_request c "GET" path None net ;;
  d <- as_dict data ;;
  items <- iterate (dict_get d key (VList [])) ;;
  from_dicts from_dict items.

(** [get_servers] *)
Definition get_servers (c : client) (net : exn + response)
  : M (list Server) :=
  fetch c "/api/bot/servers" "servers" Server_from_dict net.

(** [get_channels] *)
Definition get_channels (c : client) (server : string)
    (net : exn + response) : M (list Channel) :=
  fetch c ("/api/bot/servers/" +:+ server +:+ "/channels") "channels"
    Channel_from_dict net.

(** [get_members] *)
Definition get_members (c : client) (server : string)
    (net : exn + response) : M (list Member) :=
  fetch c ("/api/bot/servers/" +:+ server +:+ "/members") "members"
    Member_from_dict net.

(** [get_messages]; [limit] defaults to 50 in the source. *)
Definition get_messages (c : client) (server channel : string) (limit : Z)
    (net : exn + response) : M (list Message) :=
  fetch c
    ("/api/bot/servers/" +:+ server +:+ "/channels/" +:+ channel
     +:+ "/messages?limit=" +:+ decimal limit)
    "messages" from_event net.

(** ** The decorators of [events.py] and [commands.py]

    A decorator sets a marker attribute on the function and returns the
    function; setting a marker again replaces it. *)

Module events.

Definition MESSAGE_CREATE : string := "message_create".
Definition MEMBER_JOIN : string := "member_join".
Definition MEMBER_LEAVE : string := "member_leave".
Definition REACTION_ADD : string := "reaction_add".
Definition SLASH_COMMAND : string := "slash_command".

(** [f._decentra_event = event; return f], the inner [decorator] of every
    function of the module. *)
Definition mark (event : string) (f : method) : method :=
  {| m_func := m_func f;
     _decentra_event := Some event;
     _decentra_slash_command := _decentra_slash_command f |}.

(** [@on_message] and [@on_message()] both apply the same decorator;
    likewise for the next three. *)
Definition on_message : method -> method := mark MESSAGE_CREATE.
Definition on_member_join : method -> method := mark MEMBER_JOIN.
Definition on_member_leave : method -> method := mark MEMBER_LEAVE.
Definition on_reaction : method -> method := mark REACTION_ADD.

(** [@on_event(event_name)] *)
Definition on_event (event_name : string) : method -> method :=
  mark event_name.

End events.

Module commands.

(** [@slash_command(name, description, parameters)] of [commands.py];
    [parameters=None] is the empty list. *)
Definition slash_command (name description : string)
    (parameters : list SlashCommandParam) (f : method) : method :=
  {| m_func := m_func f;
     _decentra_event := _decentra_event f;
     _decentra_slash_command := Some (name, description, parameters) |}.

End commands.

(** A method that carries no marker. *)
Definition unmarked (f : handler) : method :=
  {| m_func := f; _decentra_event := None; _decentra_slash_command := None |}.

(** ** The constructor ([DecentraBot.__init__]) *)

(** What the constructor finds outside: the three variables it reads
    with [os.getenv], and what its call of [logging.basicConfig] does for
    a level name -- the call is
    [basicConfig(level=getattr(logging, name.upper(), logging.INFO), ...)],
    which returns ([None]) or raises, as it does with a [ValueError] when
    the attribute of [logging] under that name is a string that names no
    level. *)
Record environment : Type := mkEnvironment {
  DECENTRA_INSTANCE_URL : option string;
  DECENTRA_BOT_TOKEN : option string;
  LOG_LEVEL : option string;
  logging_basicConfig : string -> option exn
}.

(** [argument or os.getenv(NAME, fallback)] *)
Definition or_getenv (argument variable : option string)
    (fallback : string) : string :=
  match argument with
  | Some (String c s) => String c s
  | _ => default fallback variable
  end.

(** [s.rstrip('/')] *)
Fixpoint rstrip_slash (s : string) : string :=
  match s with
  | EmptyString => EmptyString
  | String c s' =>
      match rstrip_slash s' with
      | EmptyString =>
          if Ascii.eqb c "/"%char then EmptyString else String c EmptyString
      | r => String c r
      end
  end.

(** [DecentraBot(instance_url, token, log_level)] for a class whose
    decorated methods are [methods].  The logging set-up comes before the
    two checks. *)
Definition DecentraBot_init (instance_url token log_level : option string)
    (env : environment) (methods : list method) : outcome DecentraBot :=
  let url :=
    rstrip_slash (or_getenv instance_url (DECENTRA_INSTANCE_URL env) "") in
  let tok := or_getenv token (DECENTRA_BOT_TOKEN env) "" in
  let _log_level := or_getenv log_level (LOG_LEVEL env) "INFO" in
  match logging_basicConfig env _log_level with
  | Some e => Raise e
  | None =>
      if String.eqb url "" then
        Raise (Exn "ValueError" "DECENTRA_INSTANCE_URL is required")
      else if String.eqb tok "" then
        Raise (Exn "ValueError" "DECENTRA_BOT_TOKEN is required")
      else
        Return (_discover_handlers methods (new_bot (mkClient url tok)))
  end.

(** ** Sessions and shutdown ([_ensure_session], [stop])

    The socket and the HTTP session of a client: absent, open or closed.
    [_connect_ws] stores the socket and nothing ever clears it; [close]
    leaves a handle stored and closed, which is what aiohttp's [closed]
    reports afterwards, and is taken not to raise. *)

Inductive handle : Type := Open | Closed.

Record resources : Type := mkResources {
  res_running : bool;
  res_ws : option handle;
  res_session : option handle
}.

Inductive lifecycle_effect : Type :=
| NewSession
| CloseSocket
| CloseSession
| LogStopped.

(** [_ensure_session]: a session is made when there is none or the one
    there is closed. *)
Definition _ensure_session (r : resources)
  : list lifecycle_effect * resources :=
  match res_session r with
  | Some Open => ([], r)
  | _ =>
      ([NewSession],
       {| res_running := res_running r;
          res_ws := res_ws r;
          res_session := Some Open |})
  end.

(** [stop]: the flag is cleared, [close] is called on the socket if one
    was ever stored, and on the session if there is one that is open. *)
Definition stop (r : resources) : list lifecycle_effect * resources :=
  let ws_part :=
    match res_ws r with
    | Some _ => [CloseSocket]
    | None => []
    end in
  let session_part :=
    match res_session r with
    | Some Open => [CloseSession]
    | _ => []
    end in
  (ws_part ++ session_part ++ [LogStopped],
   {| res_running := false;
      res_ws := match res_ws r with Some _ => Some Closed | None => None end;
      res_session :=
        match res_session r with Some _ => Some Closed | None => None end |}).

(** ** Observations on a trace *)

(** The handler calls of a trace, in order. *)
Definition calls (t : list effect) : list (handler * arg) :=
  flat_map (fun x => match x with Invoke h a => [(h, a)] | _ => [] end) t.

(** The error records of a trace, in order. *)
Definition errors (t : list effect) : list (string * list log_arg) :=
  flat_map (fun x => match x with
                     | Log ERROR fmt args => [(fmt, args)]
                     | _ => []
                     end) t.

(** The requests of a trace, in order. *)
Definition requests (t : list effect)
  : list (string * joined_url * option value) :=
  flat_map (fun x => match x with
                     | Request m p _ b => [(m, p, b)]
                     | _ => []
                     end) t.

(** The frames read from the socket, in order. *)
Definition received (t : list effect) : list raw_message :=
  flat_map (fun x => match x with WsRecv m => [m] | _ => [] end) t.

(** Connection attempts and sleeps, in order: [inl url] for an attempt,
    [inr n] for a sleep of [n] seconds. *)
Definition timeline (t : list effect) : list (string + Z) :=
  flat_map (fun x => match x with
                     | WsConnect url => [inl url]
                     | Sleep n => [inr n]
                     | _ => []
                     end) t.

(** What one turn of the handler loop does: the call, and the error record
    when the call raises. *)
Definition handler_effects (event_name : value) (a : arg) (h : handler)
  : list effect :=
  Invoke h a
  :: match h_call h a with
     | Some e => [Log ERROR "Handler error for %s: %s" [AVal event_name; AExn e]]
     | None => []
     end.

(** Whether a call of [h] with [a] raises. *)
Definition raises (a : arg) (h : handler) : bool :=
  match h_call h a with Some _ => true | None => false end.

(** The sleep that follows an attempt which ended with [r] while the
    client keeps running. *)
Definition backoff (r : outcome unit) : Z :=
  match r with
  | Return _ => 5
  | Raise e =>
      if isinstance e "ConnectionClosed" then 5
      else if isinstance e "ConnectionError" then 10
      else 5
  end%Z.

(** A slash-command registration: the arguments of the decorator and the
    decorated function. *)
Record registration : Type := mkRegistration {
  reg_name : string;
  reg_description : string;
  reg_parameters : list parameter;
  reg_func : handler
}.

Definition register (r : registration) (bot : DecentraBot) : DecentraBot :=
  slash_command (reg_name r) (reg_description r) (reg_parameters r)
    (reg_func r) bot.

Definition register_all (regs : list registration) (bot : DecentraBot)
  : DecentraBot :=
  fold_left (fun b r => register r b) regs bot.

(** The function of the last registration under [name], if there is one. *)
Fixpoint last_registered (name : string) (regs : list registration)
  : option handler :=
  match regs with
  | [] => None
  | r :: rest =>
      match last_registered name rest with
      | Some h => Some h
      | None => if String.eqb (reg_name r) name then Some (reg_func r) else None
      end
  end.

(** Whether a transmitted definition carries [name]. *)
Definition named (name : string) (def : value) : bool :=
  match def with
  | VDict d => eq_str (dict_get d "name" VNone) name
  | _ => false
  end.

(** What the frame loop does with one frame: the frame is read, decoded
    and dispatched; an exception of the dispatch is logged. *)
Definition frame_effects (bot : DecentraBot) (raw : raw_message)
  : list effect :=
  WsRecv raw
  :: match raw with
     | NotJSON _ => [Log WARNING "Received non-JSON message" []]
     | Unreadable why text =>
         [Log ERROR "Error handling event: %s"
            [AExn (Exn (failure_class why) text)]]
     | JSON v =>
         let c := _dispatch_event bot v in
         trace c
         ++ match result c with
            | Return _ => []
            | Raise e =>
                if isinstance e "JSONDecodeError"
                then [Log WARNING "Received non-JSON message" []]
                else [Log ERROR "Error handling event: %s" [AExn e]]
            end
     end.

(** What a handler argument was built from: the mapping itself, the
    message record of the mapping, or a command context read from it. *)
Definition built_from (bot : DecentraBot) (event_data : dict) (a : arg)
  : Prop :=
  match a with
  | ArgRaw d => d = event_data
  | ArgMessage m => m = from_event event_data
  | ArgContext ctx =>
      ctx = make_context bot (dict_get event_data "command" (VStr ""))
              event_data
  end.

(** The server and channel identifiers a handler sees in its argument. *)
Definition seen_ids (a : arg) : option value * option value :=
  match a with
  | ArgRaw d => (dict_lookup d "server_id", dict_lookup d "channel_id")
  | ArgMessage m => (Some (msg_server_id m), Some (msg_channel_id m))
  | ArgContext ctx => (Some (server_id ctx), Some (channel_id ctx))
  end.

(** The definition a registration contributes. *)
Definition reg_definition (r : registration) : value :=
  definition (reg_name r) (reg_description r) (reg_parameters r).

(** The effects the dispatcher may have: handler calls and log records. *)
Definition dispatch_effect (x : effect) : bool :=
  match x with
  | Invoke _ _ | Log _ _ _ => true
  | _ => false
  end.

(** The effects the frame loop may have: those of the dispatcher and the
    reading of a frame. *)
Definition loop_effect (x : effect) : bool :=
  match x with
  | WsRecv _ => true
  | other => dispatch_effect other
  end.

(** A value that cannot be a dict key. *)
Definition unhashable (v : value) : bool :=
  match v with
  | VList _ | VDict _ => true
  | _ => false
  end.

(** Decoded frames the dispatcher cannot take apart: anything that is no
    object, and a [bot_event] whose [data] is no object or whose event
    name (for a [slash_command]: whose command name) cannot be a key. *)
Definition malformed (data : value) : bool :=
  match data with
  | VDict envelope =>
      eq_str (dict_get envelope "type" (VStr "")) "bot_event"
      && match dict_get envelope "data" (VDict []) with
         | VDict payload =>
             if eq_str (dict_get envelope "event" (VStr "")) "slash_command"
             then unhashable (dict_get payload "command" (VStr ""))
             else unhashable (dict_get envelope "event" (VStr ""))
         | _ => true
         end
  | _ => true
  end.

(** What [_connect_ws] does up to the reading of the answer [raw]. *)
Definition handshake_trace (bot : DecentraBot) (raw : raw_message)
  : list effect :=
  [ Log INFO "Connecting to %s ..." [AStr (_ws_url (bot_client bot))];
    WsConnect (_ws_url (bot_client bot));
    WsSend (VDict [ ("type", VStr "bot_auth");
                    ("token", VStr (token (bot_client bot))) ]);
    WsRecv raw ].

(** The connection is made, the authentication frame is sent, and the
    answer is an object [d] whose [type] is not [error]. *)
Definition accepted (conn : connection) (d : dict) : Prop :=
  connect conn = None
  /\ send_auth conn = None
  /\ auth_recv conn = inr (JSON (VDict d))
  /\ eq_str (dict_get d "type" VNone) "error" = false.

(** The connection is made, the authentication frame is sent, and the
    answer [raw] cannot be decoded or is no object. *)
Definition garbled (conn : connection) (raw : raw_message) : Prop :=
  connect conn = None
  /\ send_auth conn = None
  /\ auth_recv conn = inr raw
  /\ match raw with JSON (VDict _) => False | _ => True end.

(** The class of the exception that ends the handshake on an answer
    that is no JSON object. *)
Definition garbled_class (raw : raw_message) : string :=
  match raw with
  | NotJSON _ => "JSONDecodeError"
  | Unreadable why _ => failure_class why
  | JSON _ => "AttributeError"
  end.

(** How the stream of a connection ends. *)
Definition ending (conn : connection) : outcome unit :=
  match closing conn with
  | None => Return tt
  | Some e => Raise e
  end.

(** Whether [old] occurs in [s]. *)
Fixpoint occurs (old s : string) : bool :=
  match s with
  | EmptyString => String.prefix old EmptyString
  | String c s' => String.prefix old s || occurs old s'
  end.

(** Whether [stop] is called in the course of a round. *)
Definition stopping (r : round) : bool :=
  stop_during_attempt r || stop_during_sleep r.

(** The rounds of a script that a running client goes through: those up to
    and including the first one in which it is stopped. *)
Fixpoint rounds_run (script : list round) : list round :=
  match script with
  | [] => []
  | r :: rest => r :: if stopping r then [] else rounds_run rest
  end.

(** Everything one round adds to the trace of the loop. *)
Definition round_effects (py_repr : value -> string) (bot : DecentraBot)
    (r : round) : list effect :=
  trace (attempt py_repr bot (rd_connection r))
  ++ recover (result (attempt py_repr bot (rd_connection r)))
       (negb (stop_during_attempt r)).

(** A sequence of [add_event_handler] calls. *)
Definition subscribe_all (subs : list (string * handler))
    (bot : DecentraBot) : DecentraBot :=
  fold_left (fun b s => add_event_handler (fst s) (snd s) b) subs bot.

(** The handlers a sequence of calls subscribes to [kind], in order. *)
Definition subscribed (kind : string) (subs : list (string * handler))
  : list handler :=
  map snd (List.filter (fun s => String.eqb (fst s) kind) subs).

(** The methods that discovery subscribes to [kind], in order: those whose
    event marker is [kind], unless [kind] is the empty string. *)
Definition marked_for (kind : string) (methods : list method)
  : list handler :=
  map m_func
    (List.filter
       (fun m => match _decentra_event m with
                 | Some event => truthy (VStr event) && String.eqb event kind
                 | None => false
                 end) methods).

(** The definitions discovery takes from the command markers, in order. *)
Definition marked_definitions (methods : list method) : list value :=
  flat_map
    (fun m => match _decentra_slash_command m with
              | Some (name, description, parameters) =>
                  [definition name description (map ParamObject parameters)]
              | None => []
              end) methods.

(** Whether a decoded frame is a [slash_command] event. *)
Definition is_command_event (data : value) : bool :=
  match data with
  | VDict envelope =>
      eq_str (dict_get envelope "type" (VStr "")) "bot_event"
      && eq_str (dict_get envelope "event" (VStr "")) "slash_command"
  | _ => false
  end.

(** Whether a decoded frame is a [bot_event] of the kind [kind]. *)
Definition is_event_of (kind : string) (data : value) : bool :=
  match data with
  | VDict envelope =>
      eq_str (dict_get envelope "type" (VStr "")) "bot_event"
      && eq_str (dict_get envelope "event" (VStr "")) kind
  | _ => false
  end.

(** The function of the last method marked as the command [name]. *)
Fixpoint last_marked (name : string) (methods : list method)
  : option handler :=
  match methods with
  | [] => None
  | m :: rest =>
      match last_marked name rest with
      | Some h => Some h
      | None =>
          match _decentra_slash_command m with
          | Some (name', _, _) =>
              if String.eqb name' name then Some (m_func m) else None
          | None => None
          end
      end
  end.

(** The requests of a trace with their headers, in order. *)
Definition sent (t : list effect)
  : list (string * joined_url * dict * option value) :=
  flat_map (fun x => match x with
                     | Request m p hd b => [(m, p, hd, b)]
                     | _ => []
                     end) t.

(** The dicts of a list all of whose elements are dicts. *)
Fixpoint dicts_of (items : list value) : option (list dict) :=
  match items with
  | [] => Some []
  | VDict d :: rest =>
      match dicts_of rest with
      | Some ds => Some (d :: ds)
      | None => None
      end
  | _ :: _ => None
  end.

(** The entries a list fetcher can make records of: the elements of a
    list of objects; an empty object or an empty string, which yield
    nothing when iterated, count as no entries. *)
Definition entries (v : value) : option (list dict) :=
  match v with
  | VList items => dicts_of items
  | VDict [] => Some []
  | VStr EmptyString => Some []
  | _ => None
  end.

(** Whether a string ends in a slash. *)
Fixpoint ends_with_slash (s : string) : bool :=
  match s with
  | EmptyString => false
  | String c EmptyString => Ascii.eqb c "/"%char
  | String _ s' => ends_with_slash s'
  end.

(** A string of [n] slashes. *)
Fixpoint slashes (n : nat) : string :=
  match n with
  | O => EmptyString
  | S n' => String "/"%char (slashes n')
  end.

(** ** Concrete inputs used by the examples *)

Definition demo_client : client := mkClient "https://chat.example" "secret".

Definition quiet (name : string) : handler :=
  mkHandler name (fun _ => None).

Definition failing (name : string) (e : exn) : handler :=
  mkHandler name (fun _ => Some e).

Definition boom : exn := Exn "RuntimeError" "boom".

Definition demo_repr (v : value) : string := "[...]".

(** The envelope of the specification's command example. *)
Definition ping_envelope : dict :=
  [ ("type", VStr "bot_event");
    ("event", VStr "slash_command");
    ("data", VDict [ ("command", VStr "ping");
                     ("arguments", VDict []);
                     ("user", VStr "alice") ]);
    ("server_id", VStr "s1");
    ("channel_id", VStr "c1") ].

(** A message event whose payload carries a [server_id] of its own. *)
Definition message_envelope : dict :=
  [ ("type", VStr "bot_event");
    ("event", VStr "message_create");
    ("data", VDict [ ("content", VStr "!ping");
                     ("username", VStr "bob");
                     ("is_bot", VBool false);
                     ("server_id", VStr "spoofed") ]);
    ("server_id", VStr "s1") ].

Definition join_envelope : dict :=
  [ ("type", VStr "bot_event");
    ("event", VStr "member_join");
    ("data", VDict [ ("username", VStr "carol") ]);
    ("server_id", VStr "s1");
    ("channel_id", VStr "c1") ].

Definition auth_ok : raw_message :=
  JSON (VDict [ ("type", VStr "bot_auth_success");
                ("username", VStr "demo");
                ("bot_id", VStr "7") ]).

Definition auth_rejected : raw_message :=
  JSON (VDict [ ("type", VStr "error"); ("message", VStr "bad token") ]).

Definition http_ok : exn + response :=
  inr (mkResponse 200 (inr (VDict [ ("success", VBool true) ]))).

Definition http_forbidden : exn + response :=
  inr (mkResponse 403 (inr (VDict [ ("error", VStr "forbidden") ]))).

(** What [resp.json()] raises on the HTML page of a gateway. *)
Definition not_json_body : exn :=
  Exn "ContentTypeError"
    "502, message='Attempt to decode JSON with unexpected mimetype: text/html'".

(** A 502 whose body is an HTML page. *)
Definition http_bad_gateway : exn + response :=
  inr (mkResponse 502 (inl not_json_body)).

(** A connection that authenticates, delivers [frames] and closes
    normally. *)
Definition healthy (frames : list raw_message) : connection :=
  mkConnection None None (inr auth_ok) http_ok frames None.

(** A connection whose handshake the server rejects. *)
Definition rejected (frames : list raw_message) : connection :=
  mkConnection None None (inr auth_rejected) http_ok frames None.

(** A connection that the server refuses at the transport level. *)
Definition refused : connection :=
  mkConnection (Some (Exn "ConnectionRefusedError" "[Errno 111] Connect call failed"))
    None (inr auth_ok) http_ok [] None.

(** A bot with one listener for [slash_command] events and one for
    [member_join] events, the first of which raises. *)
Definition listeners_bot : DecentraBot :=
  on_event "member_join" (quiet "second")
    (on_event "member_join" (failing "first" boom)
       (on_event "slash_command" (quiet "listener")
          (new_bot demo_client))).

Definition message_bot : DecentraBot :=
  on_message (quiet "on_message") (new_bot demo_client).

Definition message_bot_join : DecentraBot :=
  on_event "member_join" (quiet "on_join") message_bot.

(** The payload of [message_envelope] after the two assignments. *)
Definition message_event_data : dict :=
  [ ("content", VStr "!ping");
    ("username", VStr "bob");
    ("is_bot", VBool false);
    ("server_id", VStr "s1");
    ("channel_id", VStr "") ].

Definition ping_bot : DecentraBot :=
  slash_command "ping" "Replies with pong" [] (quiet "ping")
    (new_bot demo_client).

(** The payload of [ping_envelope] after the two assignments. *)
Definition ping_event_data : dict :=
  [ ("command", VStr "ping");
    ("arguments", VDict []);
    ("user", VStr "alice");
    ("server_id", VStr "s1");
    ("channel_id", VStr "c1") ].

Definition unknown_envelope : dict :=
  [ ("type", VStr "bot_event");
    ("event", VStr "slash_command");
    ("data", VDict [ ("command", VStr "unknown");
                     ("arguments", VDict []);
                     ("user", VStr "alice") ]);
    ("server_id", VStr "s1");
    ("channel_id", VStr "c1") ].

Definition twice_bot : DecentraBot :=
  slash_command "ping" "second" [] (quiet "second")
    (slash_command "ping" "first" [] (quiet "first") (new_bot demo_client)).

Definition ping_context : SlashCommandContext :=
  make_context ping_bot (VStr "ping") ping_event_data.

Definition no_channel_context : SlashCommandContext :=
  {| command_name := VStr "ping";
     arguments := VDict [];
     user := VStr "alice";
     server_id := VStr "s1";
     channel_id := VStr "";
     _bot := Some demo_client |}.

Definition crashing_bot : DecentraBot :=
  on_event "member_join" (failing "greet" boom)
    (slash_command "ping" "Replies with pong" [] (failing "ping" boom)
       (new_bot demo_client)).

Definition running_bot : DecentraBot := set_running true ping_bot.

(** Three connections in a row that the server closes normally. *)
Definition three_closures : list round :=
  [ mkRound (healthy []) false false;
    mkRound (healthy [JSON (VDict ping_envelope)]) false false;
    mkRound (healthy []) false false ].

Definition decode_error : exn := Exn "JSONDecodeError" "Expecting value".

(** A bot whose [ping] command and whose [member_join] listener both
    raise a [JSONDecodeError] of their own. *)
Definition parsing_bot : DecentraBot :=
  on_event "member_join" (failing "greet" decode_error)
    (slash_command "ping" "Replies with pong" [] (failing "ping" decode_error)
       (new_bot demo_client)).

(** A connection whose handshake gets an answer of a type the client
    does not know. *)
Definition greeted (frames : list raw_message) : connection :=
  mkConnection None None (inr (JSON (VDict [ ("type", VStr "welcome") ])))
    http_ok frames None.

(** A binary frame that is no UTF-8 text. *)
Definition binary_frame : raw_message :=
  Unreadable BadEncoding
    "'utf-8' codec can't decode byte 0xff in position 0: invalid start byte".

(** A connection whose handshake gets [binary_frame] for an answer. *)
Definition binary (frames : list raw_message) : connection :=
  mkConnection None None (inr binary_frame) http_ok frames None.

(** A connection on which the registration of the commands fails in the
    network. *)
Definition unregistered (frames : list raw_message) : connection :=
  mkConnection None None (inr auth_ok)
    (inl (Exn "ClientConnectorError" "Cannot connect to host"))
    frames None.

(** A connection that is reset while the commands are being registered,
    which [aiohttp] reports with a class of its own that derives from
    [ConnectionResetError]. *)
Definition reset_on_registration : connection :=
  mkConnection None None (inr auth_ok)
    (inl (Exn "ClientConnectionResetError" "Cannot write to closing transport"))
    [] None.

(** A script in whose second round the client is stopped. *)
Definition stopped_in_second : list round :=
  [ mkRound (healthy []) false false;
    mkRound (healthy []) true false;
    mkRound (healthy []) false false ].

(** A sequence of subscriptions to two kinds, interleaved. *)
Definition interleaved : list (string * handler) :=
  [ ("member_join", quiet "first");
    ("member_leave", quiet "other");
    ("member_join", quiet "second") ].

(** The methods of a subclass in the style of the examples: a message
    listener, a method decorated twice, a command, and an undecorated
    helper. *)
Definition subclass_methods : list method :=
  [ events.on_message (unmarked (quiet "handle"));
    events.on_member_join (events.on_message (unmarked (quiet "greet")));
    commands.slash_command "ping" "Replies with pong" []
      (unmarked (quiet "ping"));
    unmarked (quiet "helper") ].

(** The body of an answer that lists two channels, the second in the
    older format with [id] and [type]. *)
Definition channels_body : dict :=
  [ ("channels",
     VList [ VDict [ ("channel_id", VStr "c1"); ("name", VStr "general") ];
             VDict [ ("id", VStr "c2"); ("name", VStr "voice");
                     ("type", VStr "voice") ] ]) ].

(** The environment of the examples: only the token is set. *)
Definition token_only : environment :=
  mkEnvironment None (Some "secret") None (fun _ => None).

(** A logging set-up that fails for the name [BASIC_FORMAT], which in
    the [logging] module is a format string and no level. *)
Definition no_such_level (name : string) : option exn :=
  if String.eqb name "BASIC_FORMAT"
  then Some (Exn "ValueError"
               "Unknown level: '%(levelname)s:%(name)s:%(message)s'")
  else None.

(** * Properties *)

(** ** The model on small inputs *)

Example ws_url_of_https :
  _ws_url demo_client = "wss://chat.example/ws".
Proof. reflexivity. Qed.

Example ws_url_of_http :
  _ws_url (mkClient "http://localhost:8000" "t") = "ws://localhost:8000/ws".
Proof. reflexivity. Qed.

Example py_str_of_scalars :
  py_str demo_repr (VStr "bad token") = "bad token"
  /\ py_str demo_repr VNone = "None"
  /\ py_str demo_repr (VInt 0) = "0"
  /\ py_str demo_repr (VInt (-42)) = "-42"
  /\ py_str demo_repr (VBool true) = "True".
Proof. repeat split. Qed.

Example refused_is_a_connection_error :
  isinstance (Exn "ConnectionRefusedError" "") "ConnectionError" = true
  /\ isinstance (Exn "ConnectionClosedError" "") "ConnectionClosed" = true
  /\ isinstance (Exn "ConnectionClosedError" "") "ConnectionError" = false
  /\ isinstance (Exn "JSONDecodeError" "") "ValueError" = true.
Proof. repeat split. Qed.

Example to_dict_without_choices :
  to_dict (mkParam "count" "How many" "integer" true [])
  = VDict [ ("name", VStr "count");
            ("description", VStr "How many");
            ("type", VStr "integer");
            ("required", VBool true) ].
Proof. reflexivity. Qed.

Example dict_set_replaces_in_place :
  dict_set [("a", VInt 1); ("b", VInt 2)] "a" (VInt 3)
  = [("a", VInt 3); ("b", VInt 2)].
Proof. reflexivity. Qed.

(** A frame that is no JSON, a frame that is no object and an envelope of
    an unknown type are logged and skipped; the frame after them is
    dispatched. *)
Example stream_skips_bad_frames :
  stream ping_bot
    [ NotJSON "Expecting value"; JSON (VList []);
      JSON (VDict [("type", VStr "hello")]); JSON (VDict ping_envelope) ]
  = ([ WsRecv (NotJSON "Expecting value");
       Log WARNING "Received non-JSON message" [];
       WsRecv (JSON (VList []));
       Log ERROR "Error handling event: %s"
         [AExn (Exn "AttributeError" "'list' object has no attribute 'get'")];
       WsRecv (JSON (VDict [("type", VStr "hello")]));
       Log DEBUG "Unhandled WS message type: %s" [AVal (VStr "hello")];
       WsRecv (JSON (VDict ping_envelope));
       Invoke (quiet "ping") (ArgContext ping_context) ],
     Return tt).
Proof. reflexivity. Qed.

(** ** Dictionaries *)

Lemma dict_lookup_set_eq (d : dict) k v :
  dict_lookup (dict_set d k v) k = Some v.
Proof.
  induction d as [|[k' v'] d IH]; simpl.
  - by rewrite String.eqb_refl.
  - destruct (String.eqb k' k) eqn:E; simpl; rewrite E; [done | exact IH].
Qed.

Lemma dict_lookup_set_ne (d : dict) k k' v :
  k <> k' -> dict_lookup (dict_set d k v) k' = dict_lookup d k'.
Proof.
  intros Hne. induction d as [|[k0 v0] d IH]; simpl.
  - destruct (String.eqb k k') eqn:E; [|done].
    apply String.eqb_eq in E. contradiction.
  - destruct (String.eqb k0 k) eqn:E; simpl.
    + apply String.eqb_eq in E. subst k0.
      destruct (String.eqb k k') eqn:E'; [|done].
      apply String.eqb_eq in E'. contradiction.
    + by rewrite IH.
Qed.

Lemma dict_get_set_eq (d : dict) k v dflt :
  dict_get (dict_set d k v) k dflt = v.
Proof. unfold dict_get. by rewrite dict_lookup_set_eq. Qed.

Lemma dict_get_set_ne (d : dict) k k' v dflt :
  k <> k' -> dict_get (dict_set d k v) k' dflt = dict_get d k' dflt.
Proof. intros. unfold dict_get. by rewrite dict_lookup_set_ne. Qed.

Lemma inject_server_id envelope payload :
  dict_lookup (inject envelope payload) "server_id"
  = Some (dict_get envelope "server_id" (VStr "")).
Proof.
  unfold inject. rewrite dict_lookup_set_ne by discriminate.
  apply dict_lookup_set_eq.
Qed.

Lemma inject_channel_id envelope payload :
  dict_lookup (inject envelope payload) "channel_id"
  = Some (dict_get envelope "channel_id" (VStr "")).
Proof. unfold inject. apply dict_lookup_set_eq. Qed.

Lemma inject_other envelope payload k :
  k <> "server_id" -> k <> "channel_id" ->
  dict_lookup (inject envelope payload) k = dict_lookup payload k.
Proof.
  intros H1 H2. unfold inject.
  rewrite !dict_lookup_set_ne by congruence. reflexivity.
Qed.

Lemma inject_get_other envelope payload k dflt :
  k <> "server_id" -> k <> "channel_id" ->
  dict_get (inject envelope payload) k dflt = dict_get payload k dflt.
Proof. intros. unfold dict_get. by rewrite inject_other. Qed.

(** ** The handler loop and the dispatcher *)

Lemma call_eq h a :
  call h a
  = ([Invoke h a],
     match h_call h a with None => Return tt | Some e => Raise e end).
Proof. unfold call, bind, emit, ret, raise. by destruct (h_call h a). Qed.

Lemma call_handlers_eq event_name event_data handlers :
  call_handlers event_name event_data handlers
  = (flat_map (handler_effects event_name (event_arg event_name event_data))
       handlers,
     Return tt).
Proof.
  induction handlers as [|h rest IH]; [reflexivity|].
  cbn [call_handlers flat_map]. rewrite call_eq, IH.
  unfold handler_effects, try_except, bind, emit.
  by destruct (h_call h _).
Qed.

Lemma calls_app t1 t2 : calls (t1 ++ t2) = calls t1 ++ calls t2.
Proof. apply flat_map_app. Qed.

Lemma errors_app t1 t2 : errors (t1 ++ t2) = errors t1 ++ errors t2.
Proof. apply flat_map_app. Qed.

Lemma calls_handler_loop event_name a handlers :
  calls (flat_map (handler_effects event_name a) handlers)
  = map (fun h => (h, a)) handlers.
Proof.
  induction handlers as [|h rest IH]; [reflexivity|].
  cbn [flat_map map]. rewrite calls_app, IH.
  unfold handler_effects. by destruct (h_call h a).
Qed.

Lemma errors_handler_loop event_name a handlers :
  errors (flat_map (handler_effects event_name a) handlers)
  = flat_map
      (fun h =>
         match h_call h a with
         | Some e => [("Handler error for %s: %s", [AVal event_name; AExn e])]
         | None => []
         end) handlers.
Proof.
  induction handlers as [|h rest IH]; [reflexivity|].
  cbn [flat_map]. rewrite errors_app, IH.
  unfold handler_effects. by destruct (h_call h a).
Qed.

Lemma invoke_in_handler_loop event_name a handlers h' a' :
  In (Invoke h' a') (flat_map (handler_effects event_name a) handlers) ->
  In h' handlers /\ a' = a.
Proof.
  rewrite in_flat_map. intros (h & Hin & Hh).
  unfold handler_effects in Hh. destruct Hh as [Hh | Hh].
  - inversion Hh. by subst.
  - destruct (h_call h a); [destruct Hh as [Hh | []]; discriminate | destruct Hh].
Qed.

(** The dispatcher on an event of a kind other than [slash_command]. *)
Lemma dispatch_event_kind bot kind envelope payload :
  kind <> "slash_command" ->
  dict_get envelope "type" (VStr "") = VStr "bot_event" ->
  dict_get envelope "event" (VStr "") = VStr kind ->
  dict_get envelope "data" (VDict []) = VDict payload ->
  _dispatch_event bot (VDict envelope)
  = (flat_map
       (handler_effects (VStr kind)
          (event_arg (VStr kind) (inject envelope payload)))
       (default [] (_event_handlers bot !! kind)),
     Return tt).
Proof.
  intros Hkind Htype Hevent Hdata. unfold _dispatch_event.
  rewrite Htype, Hevent, Hdata. cbn [eq_str]. rewrite String.eqb_refl.
  apply String.eqb_neq in Hkind. rewrite Hkind.
  unfold hash_key, bind, ret. rewrite call_handlers_eq. reflexivity.
Qed.

(** The dispatcher on a [slash_command] event that names a command. *)
Lemma dispatch_command bot envelope payload name :
  dict_get envelope "type" (VStr "") = VStr "bot_event" ->
  dict_get envelope "event" (VStr "") = VStr "slash_command" ->
  dict_get envelope "data" (VDict []) = VDict payload ->
  dict_get payload "command" (VStr "") = VStr name ->
  _dispatch_event bot (VDict envelope)
  = match _slash_handlers bot !! name with
    | Some h =>
        call h (ArgContext
                  (make_context bot (VStr name) (inject envelope payload)))
    | None => ([], Return tt)
    end.
Proof.
  intros Htype Hevent Hdata Hcmd. unfold _dispatch_event.
  rewrite Htype, Hevent, Hdata. cbn [eq_str]. rewrite !String.eqb_refl.
  unfold dispatch_slash_command.
  rewrite inject_get_other by discriminate. rewrite Hcmd.
  unfold hash_key, ret. cbn [bind mbind option_bind].
  destruct (_slash_handlers bot !! name) as [h|]; [|reflexivity].
  by destruct (call h _) as [t [[]|e]].
Qed.

(** ** The frame loop *)

Lemma stream_eq bot frames :
  stream bot frames = (flat_map (frame_effects bot) frames, Return tt).
Proof.
  induction frames as [|raw rest IH]; [reflexivity|].
  cbn [stream flat_map]. rewrite IH. unfold frame_effects.
  destruct raw as [text | why text | v]; cbn.
  - reflexivity.
  - by destruct why.
  - destruct (_dispatch_event bot v) as [t [[] | e]]; cbn.
    + by rewrite app_nil_r.
    + destruct (isinstance e "JSONDecodeError"); cbn;
        by rewrite <- app_assoc.
Qed.

(** ** Event handlers (claims C5, C7, C9) *)

(** C5, as the code has it: for every event kind other than
    [slash_command], dispatching one event of that kind calls every handler
    registered for the kind, in registration order and with the same
    argument; a handler that raises does not keep the later ones from being
    called, it adds exactly one error record, carrying its exception, right
    after its call; the dispatcher returns normally and the frame loop goes
    on with the frames that follow.  Registration appends at the end of the
    kind's list. *)
Theorem event_handlers_all_run (bot : DecentraBot) (kind : string)
    (envelope payload : dict) :
  kind <> "slash_command" ->
  dict_get envelope "type" (VStr "") = VStr "bot_event" ->
  dict_get envelope "event" (VStr "") = VStr kind ->
  dict_get envelope "data" (VDict []) = VDict payload ->
  let handlers := default [] (_event_handlers bot !! kind) in
  let a := event_arg (VStr kind) (inject envelope payload) in
  let c := _dispatch_event bot (VDict envelope) in
  trace c = flat_map (handler_effects (VStr kind) a) handlers
  /\ calls (trace c) = map (fun h => (h, a)) handlers
  /\ errors (trace c)
     = flat_map
         (fun h =>
            match h_call h a with
            | Some e =>
                [("Handler error for %s: %s", [AVal (VStr kind); AExn e])]
            | None => []
            end) handlers
  /\ length (errors (trace c)) = length (List.filter (raises a) handlers)
  /\ result c = Return tt
  /\ (forall rest,
        stream bot (JSON (VDict envelope) :: rest)
        = (WsRecv (JSON (VDict envelope)) :: trace c
             ++ trace (stream bot rest),
           Return tt))
  /\ (forall h,
        default [] (_event_handlers (add_event_handler kind h bot) !! kind)
        = handlers ++ [h]).
Proof.
  intros Hkind Htype Hevent Hdata handlers a c.
  assert (Hc : c = (flat_map (handler_effects (VStr kind) a) handlers,
                    Return tt))
    by (apply dispatch_event_kind; assumption).
  repeat split.
  - by rewrite Hc.
  - rewrite Hc. apply calls_handler_loop.
  - rewrite Hc. apply errors_handler_loop.
  - rewrite Hc. cbn [trace fst]. rewrite errors_handler_loop.
    clear. induction handlers as [|h rest IH]; [reflexivity|].
    cbn [flat_map List.filter]. rewrite length_app, IH.
    unfold raises. by destruct (h_call h a).
  - by rewrite Hc.
  - intros rest. rewrite !stream_eq. cbn [flat_map trace fst].
    unfold frame_effects. fold c. rewrite Hc. cbn [trace result fst snd].
    by rewrite app_nil_r.
  - intros h. unfold add_event_handler. cbn [_event_handlers].
    by rewrite lookup_insert_eq.
Qed.

(** The theorem at a [member_join] event with two listeners, the first of
    which raises. *)
Lemma event_handlers_all_run_witness :
  "member_join" <> "slash_command"
  /\ dict_get join_envelope "type" (VStr "") = VStr "bot_event"
  /\ dict_get join_envelope "event" (VStr "") = VStr "member_join"
  /\ dict_get join_envelope "data" (VDict [])
     = VDict [ ("username", VStr "carol") ]
  /\ calls (trace (_dispatch_event listeners_bot (VDict join_envelope)))
     = [ (failing "first" boom,
          ArgRaw [ ("username", VStr "carol");
                   ("server_id", VStr "s1");
                   ("channel_id", VStr "c1") ]);
         (quiet "second",
          ArgRaw [ ("username", VStr "carol");
                   ("server_id", VStr "s1");
                   ("channel_id", VStr "c1") ]) ]
  /\ errors (trace (_dispatch_event listeners_bot (VDict join_envelope)))
     = [ ("Handler error for %s: %s", [AVal (VStr "member_join"); AExn boom]) ].
Proof.
  assert (Hkind : "member_join" <> "slash_command") by discriminate.
  destruct (event_handlers_all_run listeners_bot "member_join" join_envelope
              [ ("username", VStr "carol") ] Hkind eq_refl eq_refl eq_refl)
    as (_ & Hcalls & Herrors & _).
  split; [exact Hkind|]. do 3 (split; [reflexivity|]).
  split; [rewrite Hcalls | rewrite Herrors]; reflexivity.
Defined.

(** C5, as the claim states it, fails at the kind [slash_command]: a
    handler registered for that kind is in the handler list, and
    dispatching a [slash_command] event calls nobody. *)
Lemma slash_command_listeners_not_called :
  default [] (_event_handlers listeners_bot !! "slash_command")
  = [quiet "listener"]
  /\ dict_get ping_envelope "event" (VStr "") = VStr "slash_command"
  /\ _dispatch_event listeners_bot (VDict ping_envelope) = ([], Return tt).
Proof. repeat split; vm_compute; reflexivity. Qed.

Lemma seen_ids_built_from bot envelope payload a :
  built_from bot (inject envelope payload) a ->
  seen_ids a
  = (Some (dict_get envelope "server_id" (VStr "")),
     Some (dict_get envelope "channel_id" (VStr ""))).
Proof.
  destruct a as [ctx | m | d]; cbn [built_from seen_ids]; intros ->.
  - cbn. unfold dict_get.
    by rewrite inject_server_id, inject_channel_id.
  - cbn. unfold dict_get.
    by rewrite inject_server_id, inject_channel_id.
  - by rewrite inject_server_id, inject_channel_id.
Qed.

(** Closes a goal whose hypothesis [H] puts a call in a trace that is an
    explicit list without calls. *)
Ltac no_call H :=
  cbn in H; repeat (destruct H as [H | H]; [discriminate H|]); destruct H.

(** The argument of every call the dispatcher makes: a command context on
    the [slash_command] branch, [event_arg] in the handler loop; either is
    made from the payload after the two assignments. *)
Lemma dispatch_call_arg bot envelope h a :
  In (Invoke h a) (trace (_dispatch_event bot (VDict envelope))) ->
  exists payload,
    dict_get envelope "data" (VDict []) = VDict payload
    /\ a = if eq_str (dict_get envelope "event" (VStr "")) "slash_command"
           then ArgContext
                  (make_context bot
                     (dict_get (inject envelope payload) "command" (VStr ""))
                     (inject envelope payload))
           else event_arg (dict_get envelope "event" (VStr ""))
                  (inject envelope payload).
Proof.
  unfold _dispatch_event.
  destruct (eq_str (dict_get envelope "type" (VStr "")) "bot_event");
    [| destruct (eq_str _ "pong"); intros Hin; no_call Hin].
  destruct (dict_get envelope "data" (VDict [])) as [| | | | |payload];
    try (intros Hin; no_call Hin).
  intros Hin. exists payload. split; [reflexivity|].
  destruct (eq_str (dict_get envelope "event" (VStr "")) "slash_command").
  - unfold dispatch_slash_command in Hin.
    destruct (dict_get (inject envelope payload) "command" (VStr ""))
      as [| | |name| |]; try no_call Hin.
    unfold hash_key, ret in Hin. cbn [bind mbind option_bind] in Hin.
    destruct (_slash_handlers bot !! name) as [h'|]; [| no_call Hin].
    rewrite call_eq in Hin. cbn in Hin.
    destruct Hin as [Hin | []]. by inversion Hin.
  - set (event_name := dict_get envelope "event" (VStr "")) in *.
    assert (Hloop : forall hs,
               In (Invoke h a)
                 (trace (call_handlers event_name (inject envelope payload) hs)) ->
               a = event_arg event_name (inject envelope payload)).
    { intros hs. rewrite call_handlers_eq. cbn [trace fst].
      intros Hhs. by apply invoke_in_handler_loop in Hhs as [_ ->]. }
    destruct event_name as [| | |kind| |]; cbn in Hin;
      try (destruct Hin); try (eapply Hloop; rewrite call_handlers_eq; exact Hin).
    eapply (Hloop (default [] (_event_handlers bot !! kind))).
    destruct (call_handlers _ _ _) as [t [[]|e]]; cbn in *;
      by rewrite ?app_nil_r in Hin.
Qed.

Lemma dispatch_calls_built_from bot envelope h a :
  In (Invoke h a) (trace (_dispatch_event bot (VDict envelope))) ->
  exists payload,
    dict_get envelope "data" (VDict []) = VDict payload
    /\ built_from bot (inject envelope payload) a.
Proof.
  intros Hin. apply dispatch_call_arg in Hin as (payload & Hdata & ->).
  exists payload. split; [exact Hdata|].
  destruct (eq_str _ "slash_command"); [reflexivity|].
  unfold event_arg. by destruct (eq_str _ "message_create").
Qed.

(** C9: whatever a handler is called with -- the mapping, the message
    record or a command context -- is read from the payload after its
    [server_id] and [channel_id] were set to the envelope's values: the two
    keys hold the envelope's values whatever the payload held under them,
    the empty string when the envelope lacks the key, and no other key is
    touched. *)
Theorem ids_overwritten_before_handlers (bot : DecentraBot)
    (envelope : dict) (h : handler) (a : arg) :
  In (Invoke h a) (trace (_dispatch_event bot (VDict envelope))) ->
  exists payload,
    dict_get envelope "data" (VDict []) = VDict payload
    /\ built_from bot (inject envelope payload) a
    /\ dict_lookup (inject envelope payload) "server_id"
       = Some (dict_get envelope "server_id" (VStr ""))
    /\ dict_lookup (inject envelope payload) "channel_id"
       = Some (dict_get envelope "channel_id" (VStr ""))
    /\ seen_ids a
       = (Some (dict_get envelope "server_id" (VStr "")),
          Some (dict_get envelope "channel_id" (VStr "")))
    /\ (dict_lookup envelope "server_id" = None ->
        dict_lookup (inject envelope payload) "server_id" = Some (VStr ""))
    /\ (dict_lookup envelope "channel_id" = None ->
        dict_lookup (inject envelope payload) "channel_id" = Some (VStr ""))
    /\ (forall k, k <> "server_id" -> k <> "channel_id" ->
        dict_lookup (inject envelope payload) k = dict_lookup payload k).
Proof.
  intros Hin.
  apply dispatch_calls_built_from in Hin as (payload & Hdata & Hbuilt).
  exists payload. split; [exact Hdata|]. split; [exact Hbuilt|].
  split; [apply inject_server_id|]. split; [apply inject_channel_id|].
  split; [by eapply seen_ids_built_from|].
  split; [| split].
  - intros Hnone. rewrite inject_server_id. unfold dict_get. by rewrite Hnone.
  - intros Hnone. rewrite inject_channel_id. unfold dict_get. by rewrite Hnone.
  - intros k. apply inject_other.
Qed.

(** The theorem at a message whose payload carries a [server_id] of its
    own and whose envelope has no [channel_id]. *)
Lemma ids_overwritten_before_handlers_witness :
  In (Invoke (quiet "on_message") (ArgMessage (from_event message_event_data)))
    (trace (_dispatch_event message_bot (VDict message_envelope)))
  /\ seen_ids (ArgMessage (from_event message_event_data))
     = (Some (VStr "s1"), Some (VStr "")).
Proof.
  assert (Hin : In (Invoke (quiet "on_message")
                      (ArgMessage (from_event message_event_data)))
                  (trace (_dispatch_event message_bot (VDict message_envelope))))
    by (left; reflexivity).
  destruct (ids_overwritten_before_handlers message_bot message_envelope _ _ Hin)
    as (payload & _ & _ & _ & _ & Hseen & _).
  split; [exact Hin | exact Hseen].
Defined.

Lemma from_event_fields (data : dict) :
  Forall
    (fun '(key, field) =>
       match dict_lookup data key with
       | Some v => field (from_event data) = v
       | None => field (from_event data) = field Message_default
       end)
    message_fields.
Proof.
  unfold message_fields.
  repeat (apply List.Forall_cons;
          [ cbn; unfold dict_get; by destruct (dict_lookup data _) |]).
  apply List.Forall_nil.
Qed.

(** C7, as the code has it: on a [message_create] event every handler
    called receives the message record of the payload, whose [raw] is the
    payload itself, whose every named field holds the payload's value when
    the key is present and the dataclass default when it is absent, and
    whose [server_id] and [channel_id] are the envelope's; on an event of
    any kind other than [message_create] and [slash_command] every handler
    called receives the payload mapping itself.  The payload is the
    envelope's [data] with the two identifiers set and nothing else
    changed. *)
Theorem handler_argument_by_kind (bot : DecentraBot) (envelope : dict)
    (h : handler) (a : arg) :
  In (Invoke h a) (trace (_dispatch_event bot (VDict envelope))) ->
  let event_name := dict_get envelope "event" (VStr "") in
  exists payload,
    let event_data := inject envelope payload in
    dict_get envelope "data" (VDict []) = VDict payload
    /\ (forall k, k <> "server_id" -> k <> "channel_id" ->
        dict_lookup event_data k = dict_lookup payload k)
    /\ (event_name = VStr "message_create" ->
        a = ArgMessage (from_event event_data)
        /\ msg_raw (from_event event_data) = event_data
        /\ Forall
             (fun '(key, field) =>
                match dict_lookup event_data key with
                | Some v => field (from_event event_data) = v
                | None => field (from_event event_data) = field Message_default
                end)
             message_fields
        /\ msg_server_id (from_event event_data)
           = dict_get envelope "server_id" (VStr "")
        /\ msg_channel_id (from_event event_data)
           = dict_get envelope "channel_id" (VStr ""))
    /\ (eq_str event_name "message_create" = false ->
        eq_str event_name "slash_command" = false ->
        a = ArgRaw event_data).
Proof.
  intros Hin event_name.
  apply dispatch_call_arg in Hin as (payload & Hdata & Ha).
  fold event_name in Ha.
  exists payload. cbv zeta.
  split; [exact Hdata|]. split; [intros k; apply inject_other|]. split.
  - intros Hname. rewrite Hname in Ha. cbn in Ha.
    split; [exact Ha|]. split; [reflexivity|].
    split; [apply from_event_fields|].
    cbn. unfold dict_get. by rewrite inject_server_id, inject_channel_id.
  - intros Hmsg Hslash. rewrite Hslash in Ha. unfold event_arg in Ha.
    by rewrite Hmsg in Ha.
Qed.

(** The theorem at the specification's message example. *)
Lemma handler_argument_by_kind_witness :
  In (Invoke (quiet "on_message") (ArgMessage (from_event message_event_data)))
    (trace (_dispatch_event message_bot (VDict message_envelope)))
  /\ msg_content (from_event message_event_data) = VStr "!ping"
  /\ msg_server_id (from_event message_event_data) = VStr "s1"
  /\ msg_edited_at (from_event message_event_data) = VNone
  /\ msg_reactions (from_event message_event_data) = VList [].
Proof.
  assert (Hin : In (Invoke (quiet "on_message")
                      (ArgMessage (from_event message_event_data)))
                  (trace (_dispatch_event message_bot (VDict message_envelope))))
    by (left; reflexivity).
  destruct (handler_argument_by_kind message_bot message_envelope _ _ Hin)
    as (payload & Hdata & _ & Hmessage & _).
  destruct (Hmessage eq_refl) as (_ & _ & Hfields & Hserver & _).
  injection Hdata as <-.
  split; [exact Hin|]. split; [reflexivity|]. split; [exact Hserver|].
  split; reflexivity.
Defined.

(** C7, as the claim states it, fails at the kind [slash_command], which is
    a kind other than [message_create]: the one handler called for such an
    event receives a command context, and handlers registered for the kind
    receive nothing.  For the kinds that reach the handler loop the mapping
    handed over is the payload after the two assignments: here it has three
    keys where the payload received had one. *)
Lemma slash_command_handler_gets_context :
  eq_str (dict_get ping_envelope "event" (VStr "")) "message_create" = false
  /\ calls (trace (_dispatch_event ping_bot (VDict ping_envelope)))
     = [ (quiet "ping",
          ArgContext (make_context ping_bot (VStr "ping") ping_event_data)) ]
  /\ calls (trace (_dispatch_event listeners_bot (VDict ping_envelope))) = []
  /\ dict_get join_envelope "data" (VDict [])
     = VDict [ ("username", VStr "carol") ]
  /\ map snd (calls (trace (_dispatch_event message_bot_join
                              (VDict join_envelope))))
     = [ ArgRaw [ ("username", VStr "carol");
                  ("server_id", VStr "s1");
                  ("channel_id", VStr "c1") ] ].
Proof. repeat split; vm_compute; reflexivity. Qed.

(** ** Command dispatch (claim C6) *)

(** C6: a [bot_event] envelope of kind [slash_command] whose payload names
    the command [name] makes exactly one call when [name] is registered --
    to the registered handler, with a context that carries the command
    name, the payload's [user] and [arguments], the envelope's [server_id]
    and [channel_id], and the client -- and makes no call, logs nothing and
    returns normally when [name] is not registered.  A handler registered
    with [slash_command] is the one found under its name. *)
Theorem command_dispatch (bot : DecentraBot) (envelope payload : dict)
    (name : string) :
  dict_get envelope "type" (VStr "") = VStr "bot_event" ->
  dict_get envelope "event" (VStr "") = VStr "slash_command" ->
  dict_get envelope "data" (VDict []) = VDict payload ->
  dict_get payload "command" (VStr "") = VStr name ->
  let c := _dispatch_event bot (VDict envelope) in
  (forall h, _slash_handlers bot !! name = Some h ->
     exists ctx,
       trace c = [Invoke h (ArgContext ctx)]
       /\ calls (trace c) = [(h, ArgContext ctx)]
       /\ command_name ctx = VStr name
       /\ user ctx = dict_get payload "user" (VStr "")
       /\ server_id ctx = dict_get envelope "server_id" (VStr "")
       /\ channel_id ctx = dict_get envelope "channel_id" (VStr "")
       /\ arguments ctx = dict_get payload "arguments" (VDict [])
       /\ _bot ctx = Some (bot_client bot)
       /\ result c = match h_call h (ArgContext ctx) with
                     | None => Return tt
                     | Some e => Raise e
                     end)
  /\ (_slash_handlers bot !! name = None -> c = ([], Return tt))
  /\ (forall description parameters h,
        _slash_handlers (slash_command name description parameters h bot)
          !! name = Some h).
Proof.
  intros Htype Hevent Hdata Hcmd c.
  assert (Hc := dispatch_command bot envelope payload name
                  Htype Hevent Hdata Hcmd).
  fold c in Hc. split; [| split].
  - intros h Hh. rewrite Hh, call_eq in Hc.
    exists (make_context bot (VStr name) (inject envelope payload)).
    rewrite Hc. cbn [trace result fst snd calls flat_map app].
    repeat split; cbn; unfold dict_get;
      rewrite ?inject_server_id, ?inject_channel_id,
        ?inject_other by discriminate; reflexivity.
  - intros Hnone. by rewrite Hnone in Hc.
  - intros. cbn [slash_command _slash_handlers]. apply lookup_insert_eq.
Qed.

(** The theorem at the specification's [ping] example and at an unknown
    command. *)
Lemma command_dispatch_witness :
  _slash_handlers ping_bot !! "ping" = Some (quiet "ping")
  /\ (exists ctx,
        calls (trace (_dispatch_event ping_bot (VDict ping_envelope)))
        = [(quiet "ping", ArgContext ctx)]
        /\ user ctx = VStr "alice"
        /\ server_id ctx = VStr "s1"
        /\ channel_id ctx = VStr "c1")
  /\ _slash_handlers ping_bot !! "unknown" = None
  /\ _dispatch_event ping_bot (VDict unknown_envelope) = ([], Return tt).
Proof.
  assert (Hping : _slash_handlers ping_bot !! "ping" = Some (quiet "ping"))
    by reflexivity.
  assert (Hunknown : _slash_handlers ping_bot !! "unknown" = None)
    by reflexivity.
  split; [exact Hping|]. split.
  - destruct (command_dispatch ping_bot ping_envelope _ "ping"
                eq_refl eq_refl eq_refl eq_refl) as (Hfound & _).
    destruct (Hfound _ Hping)
      as (ctx & _ & Hcalls & _ & Huser & Hserver & Hchannel & _).
    exists ctx. repeat split; assumption.
  - split; [exact Hunknown|].
    destruct (command_dispatch ping_bot unknown_envelope _ "unknown"
                eq_refl eq_refl eq_refl eq_refl) as (_ & Hmissing & _).
    exact (Hmissing Hunknown).
Defined.

(** ** The command registry (claim C3) *)

Lemma register_all_handlers regs bot name :
  _slash_handlers (register_all regs bot) !! name
  = match last_registered name regs with
    | Some h => Some h
    | None => _slash_handlers bot !! name
    end.
Proof.
  revert bot. induction regs as [|r rest IH]; intros bot; [reflexivity|].
  change (register_all (r :: rest) bot)
    with (register_all rest (register r bot)).
  rewrite IH. cbn [last_registered].
  destruct (last_registered name rest); [reflexivity|].
  cbn [register slash_command _slash_handlers].
  destruct (String.eqb (reg_name r) name) eqn:E.
  - apply String.eqb_eq in E. subst name. apply lookup_insert_eq.
  - apply String.eqb_neq in E. by apply lookup_insert_ne.
Qed.

Lemma register_all_definitions regs bot :
  _slash_definitions (register_all regs bot)
  = _slash_definitions bot ++ map reg_definition regs.
Proof.
  revert bot. induction regs as [|r rest IH]; intros bot.
  - cbn. by rewrite app_nil_r.
  - change (register_all (r :: rest) bot)
      with (register_all rest (register r bot)).
    rewrite IH. cbn [register slash_command _slash_definitions map].
    by rewrite <- app_assoc.
Qed.

(** Discovery registers a marked method the way the decorator on an
    instance does: the handler is stored under the name and the definition
    is appended. *)
Lemma discover_appends_definition m bot :
  _slash_definitions (discover m bot)
  = _slash_definitions bot
    ++ match _decentra_slash_command m with
       | Some (name, description, parameters) =>
           [definition name description (map ParamObject parameters)]
       | None => []
       end.
Proof.
  unfold discover.
  destruct (_decentra_slash_command m) as [[[name description] parameters]|];
    destruct (_decentra_event m) as [event|];
    try destruct (truthy (VStr event));
    cbn [slash_command add_event_handler _slash_definitions];
    by rewrite ?app_nil_r.
Qed.

Lemma named_reg_definition name r :
  named name (reg_definition r) = String.eqb (reg_name r) name.
Proof. reflexivity. Qed.

(** C3, as the code has it: after any sequence of registrations the
    handler table maps a name to the function of the last registration
    under that name, while the definitions list has grown by one definition
    per registration, in registration order, so that it holds as many
    definitions for a name as there were registrations under it;
    [register_commands] transmits that list as it is.  After two
    registrations under one name the table holds the second function and
    the list holds both definitions, the second one last. *)
Theorem registration_keeps_every_definition (bot : DecentraBot)
    (regs : list registration) (name : string) :
  let bot' := register_all regs bot in
  _slash_handlers bot' !! name
  = match last_registered name regs with
    | Some h => Some h
    | None => _slash_handlers bot !! name
    end
  /\ _slash_definitions bot'
     = _slash_definitions bot ++ map reg_definition regs
  /\ length (List.filter (named name) (map reg_definition regs))
     = length (List.filter (fun r => String.eqb (reg_name r) name) regs)
  /\ (forall net,
        requests (trace (register_commands bot' net))
        = match _slash_definitions bot' with
          | [] => []
          | _ :: _ =>
              [("POST", _api_url (bot_client bot') "/api/bot/commands",
                Some (VDict [("commands", VList (_slash_definitions bot'))]))]
          end)
  /\ (forall d1 p1 h1 d2 p2 h2,
        let twice :=
          slash_command name d2 p2 h2 (slash_command name d1 p1 h1 bot) in
        _slash_handlers twice !! name = Some h2
        /\ _slash_definitions twice
           = _slash_definitions bot
             ++ [definition name d1 p1; definition name d2 p2]).
Proof.
  intros bot'. split; [apply register_all_handlers|].
  split; [apply register_all_definitions|]. split; [| split].
  - induction regs as [|r rest IH]; [reflexivity|].
    cbn [map List.filter]. rewrite named_reg_definition.
    destruct (String.eqb (reg_name r) name); cbn [length]; by rewrite IH.
  - intros net. unfold register_commands.
    destruct (_slash_definitions bot') as [|d ds]; [reflexivity|].
    unfold _api_request, bind, emit, raise, ret.
    destruct net as [e | resp]; [reflexivity|].
    destruct (json_body resp) as [e | data]; [reflexivity|].
    by destruct (400 <=? status resp)%Z.
  - intros. subst twice. cbn [slash_command _slash_handlers _slash_definitions].
    split; [apply lookup_insert_eq | by rewrite <- app_assoc].
Qed.

(** C3, as the claim states it, fails: after two registrations of [ping]
    the list sent to the server holds two definitions named [ping]. *)
Lemma duplicate_definitions_transmitted :
  _slash_handlers twice_bot !! "ping" = Some (quiet "second")
  /\ requests (trace (register_commands twice_bot http_ok))
     = [("POST", _api_url demo_client "/api/bot/commands",
         Some (VDict [("commands",
                       VList [definition "ping" "first" [];
                              definition "ping" "second" []])]))]
  /\ length (List.filter (named "ping") (_slash_definitions twice_bot)) = 2.
Proof. repeat split; vm_compute; reflexivity. Qed.

(** ** The action client (claims C8, C10) *)

(** Every outcome of [_api_request] is independent of the status. *)
Lemma api_request_result_ignores_status c method path json resp resp' :
  json_body resp' = json_body resp ->
  result (_api_request c method path json (inr resp'))
  = result (_api_request c method path json (inr resp)).
Proof.
  intros Hbody. unfold _api_request, bind, emit, raise, ret.
  rewrite Hbody. destruct (json_body resp); [reflexivity|].
  by destruct (400 <=? status resp')%Z, (400 <=? status resp)%Z.
Qed.

(** C8, as the code has it: [_api_request] parses the body before it looks
    at the status.  When the response has a status of 400 or more and a
    body that parses to [data], the request does not raise: it logs one
    error record, with the method, the path, the status and the body, and
    returns [data] -- what it returns for a response with the same body
    and any other status, where it logs nothing when the status is below
    400.  When the body does not parse, the request raises the exception
    of the parsing and logs nothing, whatever the status; a response with
    the same body and any other status has the same outcome. *)
Theorem api_error_status_returns_body (c : client) (method path : string)
    (json : option value) (resp : response) :
  (400 <= status resp)%Z ->
  (forall data,
     json_body resp = inr data ->
     _api_request c method path json (inr resp)
     = ([ Request method (_api_url c path) (_headers c) json;
          Log ERROR "API %s %s → %s: %s"
            [AStr method; AStr path; AInt (status resp); AVal data] ],
        Return data)
     /\ errors (trace (_api_request c method path json (inr resp)))
        = [("API %s %s → %s: %s",
            [AStr method; AStr path; AInt (status resp); AVal data])]
     /\ (forall resp',
           json_body resp' = inr data ->
           result (_api_request c method path json (inr resp')) = Return data)
     /\ (forall resp',
           (status resp' < 400)%Z ->
           json_body resp' = inr data ->
           _api_request c method path json (inr resp')
           = ([Request method (_api_url c path) (_headers c) json],
              Return data)))
  /\ (forall e,
        json_body resp = inl e ->
        _api_request c method path json (inr resp)
        = ([Request method (_api_url c path) (_headers c) json], Raise e)
        /\ errors (trace (_api_request c method path json (inr resp))) = [])
  /\ (forall resp',
        json_body resp' = json_body resp ->
        result (_api_request c method path json (inr resp'))
        = result (_api_request c method path json (inr resp))).
Proof.
  intros Hstatus. apply Z.leb_le in Hstatus. split; [| split].
  - intros data Hbody.
    assert (Heq : _api_request c method path json (inr resp)
                  = ([ Request method (_api_url c path) (_headers c) json;
                       Log ERROR "API %s %s → %s: %s"
                         [AStr method; AStr path; AInt (status resp);
                          AVal data] ],
                     Return data)).
    { unfold _api_request, bind, emit, raise, ret.
      by rewrite Hbody, Hstatus. }
    split; [exact Heq|]. split; [by rewrite Heq|]. split.
    + intros resp' Hbody'. unfold _api_request, bind, emit, raise, ret.
      rewrite Hbody'. by destruct (400 <=? status resp')%Z.
    + intros resp' Hstatus' Hbody'. apply Z.leb_gt in Hstatus'.
      unfold _api_request, bind, emit, raise, ret.
      by rewrite Hbody', Hstatus'.
  - intros e Hbody.
    assert (Heq : _api_request c method path json (inr resp)
                  = ([Request method (_api_url c path) (_headers c) json],
                     Raise e)).
    { unfold _api_request, bind, emit, raise, ret. by rewrite Hbody. }
    split; [exact Heq | by rewrite Heq].
  - apply api_request_result_ignores_status.
Qed.

(** The theorem at a response with status 403 and a body that parses. *)
Lemma api_error_status_returns_body_witness :
  (400 <= 403)%Z
  /\ _api_request demo_client "DELETE" "/api/bot/messages/7" None http_forbidden
     = ([ Request "DELETE" (_api_url demo_client "/api/bot/messages/7")
            (_headers demo_client) None;
          Log ERROR "API %s %s → %s: %s"
            [AStr "DELETE"; AStr "/api/bot/messages/7"; AInt 403;
             AVal (VDict [("error", VStr "forbidden")])] ],
        Return (VDict [("error", VStr "forbidden")])).
Proof.
  assert (H : (400 <= 403)%Z) by lia.
  split; [exact H|].
  exact (proj1 (proj1 (api_error_status_returns_body demo_client "DELETE"
                         "/api/bot/messages/7" None
                         (mkResponse 403
                            (inr (VDict [("error", VStr "forbidden")])))
                         H)
                  (VDict [("error", VStr "forbidden")]) eq_refl)).
Defined.

(** C8, as the claim states it, fails for an error response whose body is
    no JSON: on a 502 that carries the HTML page of a gateway the request
    raises what [resp.json()] raises, no API error is logged and nothing
    is returned. *)
Lemma bad_gateway_page_raises :
  _api_request demo_client "GET" "/api/bot/servers" None http_bad_gateway
  = ([ Request "GET" (_api_url demo_client "/api/bot/servers")
         (_headers demo_client) None ],
     Raise not_json_body)
  /\ errors (trace (_api_request demo_client "GET" "/api/bot/servers" None
                      http_bad_gateway)) = []
  /\ (400 <=? 502)%Z = true.
Proof. repeat split; vm_compute; reflexivity. Qed.

Lemma send_message_requests c server channel content net :
  requests (trace (send_message c server channel content net))
  = [("POST", _api_url c "/api/bot/messages",
      Some (VDict [ ("server_id", server);
                    ("channel_id", channel);
                    ("content", content) ]))].
Proof.
  unfold send_message, _api_request, bind, emit, raise, ret.
  destruct net as [e | resp]; [reflexivity|].
  destruct (json_body resp) as [e | data]; [reflexivity|].
  by destruct (400 <=? status resp)%Z.
Qed.

Lemma truthy_str s : truthy (VStr s) = true <-> s <> "".
Proof.
  cbn. rewrite negb_true_iff. apply String.eqb_neq.
Qed.

(** C10: [reply] sends exactly when the context has a client and a truthy
    [server_id] and [channel_id] -- for strings: non-empty ones -- and then
    it is [send_message] to that server and channel; in every other case it
    makes no request, logs nothing and returns [None]. *)
Theorem reply_guard (ctx : SlashCommandContext) (content : value)
    (net : exn + response) :
  (forall c,
     _bot ctx = Some c ->
     truthy (server_id ctx) = true ->
     truthy (channel_id ctx) = true ->
     reply ctx content net
     = send_message c (server_id ctx) (channel_id ctx) content net
     /\ requests (trace (reply ctx content net))
        = [("POST", _api_url c "/api/bot/messages",
            Some (VDict [ ("server_id", server_id ctx);
                          ("channel_id", channel_id ctx);
                          ("content", content) ]))])
  /\ (_bot ctx = None
      \/ truthy (server_id ctx) = false
      \/ truthy (channel_id ctx) = false ->
      reply ctx content net = ([], Return VNone))
  /\ (requests (trace (reply ctx content net)) <> []
      <-> is_Some (_bot ctx)
          /\ truthy (server_id ctx) = true
          /\ truthy (channel_id ctx) = true)
  /\ (forall s, truthy (VStr s) = true <-> s <> "").
Proof.
  assert (Hsend : forall c,
             _bot ctx = Some c ->
             truthy (server_id ctx) = true ->
             truthy (channel_id ctx) = true ->
             reply ctx content net
             = send_message c (server_id ctx) (channel_id ctx) content net).
  { intros c Hc Hs Hch. unfold reply. by rewrite Hc, Hs, Hch. }
  assert (Hskip : _bot ctx = None
                  \/ truthy (server_id ctx) = false
                  \/ truthy (channel_id ctx) = false ->
                  reply ctx content net = ([], Return VNone)).
  { unfold reply. intros [Hc | [Hs | Hch]].
    - by rewrite Hc.
    - rewrite Hs. by destruct (_bot ctx).
    - rewrite Hch, andb_false_r. by destruct (_bot ctx). }
  split; [| split; [exact Hskip | split; [| exact truthy_str]]].
  - intros c Hc Hs Hch. split; [by apply Hsend|].
    rewrite (Hsend c Hc Hs Hch). apply send_message_requests.
  - split.
    + intros Hreq.
      destruct (_bot ctx) as [c|] eqn:Hc;
        [| exfalso; apply Hreq; rewrite Hskip; [reflexivity | by left]].
      destruct (truthy (server_id ctx)) eqn:Hs;
        [| exfalso; apply Hreq; rewrite Hskip; [reflexivity | right; by left]].
      destruct (truthy (channel_id ctx)) eqn:Hch;
        [| exfalso; apply Hreq; rewrite Hskip; [reflexivity | right; by right]].
      by repeat split.
    + intros ([c Hc] & Hs & Hch).
      rewrite (Hsend c Hc Hs Hch), send_message_requests. discriminate.
Qed.

(** The theorem at the context of the [ping] example and at a context
    whose channel is empty. *)
Lemma reply_guard_witness :
  reply ping_context (VStr "pong") http_ok
  = ([ Request "POST" (_api_url demo_client "/api/bot/messages")
         (_headers demo_client)
         (Some (VDict [ ("server_id", VStr "s1");
                        ("channel_id", VStr "c1");
                        ("content", VStr "pong") ])) ],
     Return (VDict [ ("success", VBool true) ]))
  /\ truthy (channel_id no_channel_context) = false
  /\ reply no_channel_context (VStr "pong") http_ok = ([], Return VNone).
Proof.
  destruct (reply_guard ping_context (VStr "pong") http_ok) as (Hsend & _).
  destruct (Hsend demo_client eq_refl eq_refl eq_refl) as (Hreply & _).
  split; [rewrite Hreply; reflexivity|].
  split; [reflexivity|].
  destruct (reply_guard no_channel_context (VStr "pong") http_ok)
    as (_ & Hskip & _).
  apply Hskip. right. right. reflexivity.
Defined.

(** ** Authentication (claim C1) *)

Lemma trace_bind {A B} (c : M A) (k : A -> M B) :
  trace (bind c k)
  = trace c ++ match result c with
               | Return a => trace (k a)
               | Raise _ => []
               end.
Proof.
  destruct c as [t [a | e]]; cbn.
  - by destruct (k a).
  - by rewrite app_nil_r.
Qed.

Lemma result_bind {A B} (c : M A) (k : A -> M B) :
  result (bind c k)
  = match result c with
    | Return a => result (k a)
    | Raise e => Raise e
    end.
Proof. destruct c as [t [a | e]]; cbn; [by destruct (k a) | reflexivity]. Qed.

Lemma bind_raise {A B} (c : M A) (k : A -> M B) e :
  result c = Raise e -> bind c k = (trace c, Raise e).
Proof. destruct c as [t [a | e']]; cbn; intros H; by inversion H. Qed.

(** C1, as the code has it: when the server answers the authentication
    frame with [{type: error, message: v}], [_connect_ws] raises a
    [ConnectionError] -- the built-in class; the client has no class of its
    own for a rejected handshake -- whose message is
    ["Authentication failed: "] followed by [str(v)], which is [m] itself
    for a string [m].  The attempt ends there: nothing is registered, no
    frame after the authentication response is read, no handler is called,
    whatever frames the connection would have delivered. *)
Theorem auth_error_raises_connection_error (py_repr : value -> string)
    (bot : DecentraBot) (conn : connection) (d : dict) :
  connect conn = None ->
  send_auth conn = None ->
  auth_recv conn = inr (JSON (VDict d)) ->
  dict_get d "type" VNone = VStr "error" ->
  let e := Exn "ConnectionError"
             ("Authentication failed: "
              +:+ py_str py_repr (dict_get d "message" VNone)) in
  let t := [ Log INFO "Connecting to %s ..." [AStr (_ws_url (bot_client bot))];
             WsConnect (_ws_url (bot_client bot));
             WsSend (VDict [ ("type", VStr "bot_auth");
                             ("token", VStr (token (bot_client bot))) ]);
             WsRecv (JSON (VDict d)) ] in
  _connect_ws py_repr bot conn = (t, Raise e)
  /\ attempt py_repr bot conn = (t, Raise e)
  /\ calls t = [] /\ requests t = [] /\ received t = [JSON (VDict d)]
  /\ exn_class e = "ConnectionError"
  /\ isinstance e "ConnectionError" = true
  /\ (forall m, dict_get d "message" VNone = VStr m ->
        exn_msg e = "Authentication failed: " +:+ m).
Proof.
  intros Hconnect Hsend Hauth Htype e t.
  assert (Hc : _connect_ws py_repr bot conn = (t, Raise e)).
  { unfold _connect_ws. rewrite Hconnect, Hsend, Hauth. cbn.
    rewrite Htype. reflexivity. }
  split; [exact Hc|]. split.
  - unfold attempt. rewrite (bind_raise _ _ e); by rewrite Hc.
  - repeat split. intros m Hm. cbn. by rewrite Hm.
Qed.

(** The theorem at a rejected handshake, with a frame waiting that is
    never read. *)
Lemma auth_error_raises_connection_error_witness :
  connect (rejected [JSON (VDict ping_envelope)]) = None
  /\ send_auth (rejected [JSON (VDict ping_envelope)]) = None
  /\ attempt demo_repr ping_bot (rejected [JSON (VDict ping_envelope)])
     = ([ Log INFO "Connecting to %s ..." [AStr "wss://chat.example/ws"];
          WsConnect "wss://chat.example/ws";
          WsSend (VDict [ ("type", VStr "bot_auth");
                          ("token", VStr "secret") ]);
          WsRecv auth_rejected ],
        Raise (Exn "ConnectionError" "Authentication failed: bad token")).
Proof.
  split; [reflexivity|]. split; [reflexivity|].
  exact (proj1 (proj2 (auth_error_raises_connection_error demo_repr ping_bot
                         (rejected [JSON (VDict ping_envelope)])
                         [ ("type", VStr "error");
                           ("message", VStr "bad token") ]
                         eq_refl eq_refl eq_refl eq_refl))).
Defined.

(** C1, as the claim states it, fails on the kind of the error: what is
    raised for the message ["bad token"] is a [ConnectionError], which is
    no instance of a class [AuthenticationError]. *)
Lemma auth_error_is_a_connection_error :
  result (_connect_ws demo_repr ping_bot (rejected []))
  = Raise (Exn "ConnectionError" "Authentication failed: bad token")
  /\ bases_of class_bases "ConnectionError" = ["OSError"; "Exception"]
  /\ isinstance (Exn "ConnectionError" "Authentication failed: bad token")
       "AuthenticationError" = false.
Proof. repeat split; vm_compute; reflexivity. Qed.

(** ** Exceptions of command handlers (claim C2) *)

(** A command handler that raises [e]: the dispatcher logs nothing and
    lets [e] through; the frame loop logs it with the exception as the only
    argument and goes on. *)
Lemma command_handler_exception bot envelope payload name h e rest :
  dict_get envelope "type" (VStr "") = VStr "bot_event" ->
  dict_get envelope "event" (VStr "") = VStr "slash_command" ->
  dict_get envelope "data" (VDict []) = VDict payload ->
  dict_get payload "command" (VStr "") = VStr name ->
  _slash_handlers bot !! name = Some h ->
  h_call h (ArgContext (make_context bot (VStr name) (inject envelope payload)))
  = Some e ->
  isinstance e "JSONDecodeError" = false ->
  let a := ArgContext (make_context bot (VStr name) (inject envelope payload)) in
  _dispatch_event bot (VDict envelope) = ([Invoke h a], Raise e)
  /\ stream bot (JSON (VDict envelope) :: rest)
     = (WsRecv (JSON (VDict envelope))
        :: Invoke h a
        :: Log ERROR "Error handling event: %s" [AExn e]
        :: trace (stream bot rest),
        Return tt).
Proof.
  intros Htype Hevent Hdata Hcmd Hh Hraise Hjson a.
  assert (Hc : _dispatch_event bot (VDict envelope) = ([Invoke h a], Raise e)).
  { rewrite (dispatch_command bot envelope payload name) by assumption.
    rewrite Hh, call_eq. subst a. by rewrite Hraise. }
  split; [exact Hc|].
  rewrite !stream_eq. cbn [flat_map trace fst]. unfold frame_effects.
  rewrite Hc. cbn [trace result fst snd]. by rewrite Hjson.
Qed.

(** C2 at a failing input: the [ping] handler raises; the error record of
    the frame loop carries the exception and nothing else, so the command
    name is not logged, while the record for an event handler that raises
    the same exception carries the event name. *)
Lemma command_error_logged_without_name :
  errors (trace (stream crashing_bot [JSON (VDict ping_envelope)]))
  = [("Error handling event: %s", [AExn boom])]
  /\ errors (trace (stream crashing_bot [JSON (VDict join_envelope)]))
     = [("Handler error for %s: %s", [AVal (VStr "member_join"); AExn boom])]
  /\ received (trace (stream crashing_bot
                        [JSON (VDict ping_envelope); JSON (VDict join_envelope)]))
     = [JSON (VDict ping_envelope); JSON (VDict join_envelope)].
Proof. repeat split; vm_compute; reflexivity. Qed.

(** ** Reconnection (claim C4) *)

Lemma timeline_app t1 t2 : timeline (t1 ++ t2) = timeline t1 ++ timeline t2.
Proof. apply flat_map_app. Qed.

Lemma timeline_handler_loop event_name a handlers :
  timeline (flat_map (handler_effects event_name a) handlers) = [].
Proof.
  induction handlers as [|h rest IH]; [reflexivity|].
  cbn [flat_map]. rewrite timeline_app, IH.
  unfold handler_effects. by destruct (h_call h a).
Qed.

Lemma timeline_dispatch bot data :
  timeline (trace (_dispatch_event bot data)) = [].
Proof.
  destruct data as [| | | | |envelope]; try reflexivity.
  unfold _dispatch_event.
  destruct (eq_str (dict_get envelope "type" (VStr "")) "bot_event");
    [| by destruct (eq_str _ "pong")].
  destruct (dict_get envelope "data" (VDict [])) as [| | | | |payload];
    try reflexivity.
  destruct (eq_str (dict_get envelope "event" (VStr "")) "slash_command").
  - unfold dispatch_slash_command.
    destruct (dict_get (inject envelope payload) "command" (VStr ""))
      as [| | |name| |]; try reflexivity.
    unfold hash_key, ret. cbn [bind mbind option_bind].
    destruct (_slash_handlers bot !! name) as [h|]; [|reflexivity].
    rewrite call_eq. by destruct (h_call h _).
  - rewrite trace_bind, timeline_app.
    destruct (dict_get envelope "event" (VStr "")); cbn;
      try reflexivity; rewrite call_handlers_eq; apply timeline_handler_loop.
Qed.

Lemma timeline_stream bot frames :
  timeline (trace (stream bot frames)) = [].
Proof.
  rewrite stream_eq. cbn [trace fst].
  induction frames as [|raw rest IH]; [reflexivity|].
  cbn [flat_map]. rewrite timeline_app, IH, app_nil_r.
  destruct raw as [text | why text | v]; [reflexivity | reflexivity |].
  unfold frame_effects. cbn [timeline flat_map]. cbn [app].
  change (timeline (trace (_dispatch_event bot v)
                    ++ match result (_dispatch_event bot v) with
                       | Return _ => []
                       | Raise e =>
                           if isinstance e "JSONDecodeError"
                           then [Log WARNING "Received non-JSON message" []]
                           else [Log ERROR "Error handling event: %s" [AExn e]]
                       end) = []).
  rewrite timeline_app, timeline_dispatch.
  destruct (result (_dispatch_event bot v)) as [[] | e]; [reflexivity|].
  by destruct (isinstance e "JSONDecodeError").
Qed.

Lemma timeline_api_request c method path json net :
  timeline (trace (_api_request c method path json net)) = [].
Proof.
  unfold _api_request, bind, emit, raise, ret.
  destruct net as [e | resp]; [reflexivity|].
  destruct (json_body resp) as [e | data]; [reflexivity|].
  by destruct (400 <=? status resp)%Z.
Qed.

Lemma timeline_connect py_repr bot conn :
  timeline (trace (_connect_ws py_repr bot conn))
  = [inl (_ws_url (bot_client bot))].
Proof.
  unfold _connect_ws.
  destruct (connect conn); [reflexivity|].
  destruct (send_auth conn); [reflexivity|].
  destruct (auth_recv conn) as [e | [text | why text | v]]; try reflexivity.
  destruct v as [| | | | |d]; try reflexivity. cbn.
  destruct (eq_str (dict_get d "type" VNone) "bot_auth_success");
    [reflexivity|].
  by destruct (eq_str (dict_get d "type" VNone) "error").
Qed.

Lemma timeline_attempt py_repr bot conn :
  timeline (trace (attempt py_repr bot conn))
  = [inl (_ws_url (bot_client bot))].
Proof.
  unfold attempt. rewrite trace_bind, timeline_app, timeline_connect.
  destruct (result (_connect_ws py_repr bot conn)) as [[] | e]; [|reflexivity].
  rewrite trace_bind, timeline_app.
  assert (Hreg : timeline
                   (trace
                      match _slash_definitions bot with
                      | [] => ret tt
                      | _ :: _ =>
                          result <- register_commands bot (commands_reply conn) ;;
                          emit (Log INFO "Registered %d slash commands: %s"
                                  [AInt (Z.of_nat (length (_slash_definitions bot)));
                                   AVal result])
                      end) = []).
  { unfold register_commands.
    destruct (_slash_definitions bot) as [|d ds]; [reflexivity|].
    rewrite trace_bind, timeline_app, timeline_api_request.
    by destruct (result (_api_request _ _ _ _ _)). }
  rewrite Hreg. cbn [app].
  destruct (result _) as [[] | e]; [|reflexivity].
  rewrite trace_bind, timeline_app, timeline_stream.
  destruct (result (stream bot (incoming conn))) as [[] | e]; [|reflexivity].
  by destruct (closing conn).
Qed.

Lemma timeline_recover r running :
  timeline (recover r running)
  = match r with
    | Raise e =>
        if negb (isinstance e "ConnectionClosed")
           && isinstance e "ConnectionError"
        then [inr 10%Z]
        else if running then [inr 5%Z] else []
    | Return _ => if running then [inr 5%Z] else []
    end.
Proof.
  destruct r as [[] | e]; cbn; [by destruct running|].
  destruct (isinstance e "ConnectionClosed"); cbn; [by destruct running|].
  destruct (isinstance e "ConnectionError"); cbn; [reflexivity|].
  by destruct running.
Qed.

Lemma set_running_true bot :
  _running bot = true -> set_running true bot = bot.
Proof. destruct bot. cbn. by intros ->. Qed.

Lemma ws_loop_stopped py_repr bot script :
  _running bot = false -> _ws_loop py_repr bot script = ([], Exited).
Proof. intros H. destruct script; cbn; by rewrite H. Qed.

Lemma ws_loop_turn py_repr bot r rest :
  _running bot = true ->
  _ws_loop py_repr bot (r :: rest)
  = (trace (attempt py_repr bot (rd_connection r))
     ++ recover (result (attempt py_repr bot (rd_connection r)))
          (negb (stop_during_attempt r))
     ++ fst (_ws_loop py_repr
               (set_running (negb (stop_during_attempt r)
                             && negb (stop_during_sleep r)) bot) rest),
     snd (_ws_loop py_repr
            (set_running (negb (stop_during_attempt r)
                          && negb (stop_during_sleep r)) bot) rest)).
Proof.
  intros H. cbn [_ws_loop]. rewrite H.
  by destruct (_ws_loop py_repr _ rest).
Qed.

Lemma ws_loop_unbounded py_repr bot script :
  _running bot = true ->
  Forall (fun r => stop_during_attempt r = false /\ stop_during_sleep r = false)
    script ->
  timeline (fst (_ws_loop py_repr bot script))
  = flat_map
      (fun r =>
         [ inl (_ws_url (bot_client bot));
           inr (backoff (result (attempt py_repr bot (rd_connection r)))) ])
      script
  /\ snd (_ws_loop py_repr bot script) = Reconnecting.
Proof.
  intros Hrun Hscript. induction Hscript as [|r rest [Ha Hs] _ IH].
  - cbn. by rewrite Hrun.
  - rewrite ws_loop_turn by exact Hrun. rewrite Ha, Hs. cbn [negb andb].
    rewrite set_running_true by exact Hrun.
    destruct IH as [IHt IHe]. cbn [fst snd]. split; [|exact IHe].
    rewrite !timeline_app, timeline_attempt, timeline_recover, IHt.
    cbn [flat_map app]. do 2 f_equal.
    destruct (result (attempt py_repr bot (rd_connection r))) as [[] | e];
      [reflexivity|]. cbn [backoff].
    destruct (isinstance e "ConnectionClosed"); [reflexivity|].
    by destruct (isinstance e "ConnectionError").
Qed.

Lemma ws_loop_exit py_repr bot script :
  snd (_ws_loop py_repr bot script) = Exited ->
  _running bot = false
  \/ Exists (fun r => stop_during_attempt r = true \/ stop_during_sleep r = true)
       script.
Proof.
  revert bot. induction script as [|r rest IH]; intros bot.
  - cbn. destruct (_running bot); [discriminate | by left].
  - destruct (_running bot) eqn:Hrun; [| by left].
    rewrite ws_loop_turn by exact Hrun. cbn [snd]. intros Hexit.
    right. apply IH in Hexit as [Hstop | Hlater].
    + cbn in Hstop. apply Exists_cons_hd.
      destruct (stop_during_attempt r); [by left|].
      destruct (stop_during_sleep r); [by right | discriminate].
    + by apply Exists_cons_tl.
Qed.

Lemma isinstance_bases cls bases msg c :
  In c bases -> isinstance (mkExn cls bases msg) c = true.
Proof.
  intros Hin. unfold isinstance. cbn [exn_class exn_bases].
  apply orb_true_iff. right. apply existsb_exists.
  exists c. split; [exact Hin | apply String.eqb_refl].
Qed.

Lemma isinstance_not cls bases msg c :
  ~ In c (cls :: bases) -> isinstance (mkExn cls bases msg) c = false.
Proof.
  intros Hnot. unfold isinstance. cbn [exn_class exn_bases].
  apply orb_false_iff. split.
  - apply String.eqb_neq. intros ->. apply Hnot. by left.
  - apply not_true_is_false. intros H. apply existsb_exists in H.
    destruct H as (c' & Hin & Heq). apply String.eqb_eq in Heq. subst c'.
    apply Hnot. by right.
Qed.

(** C4, as the code has it.  One turn of the loop is a connection attempt,
    which connects once and never sleeps, followed by the recovery.  The
    recovery sleeps 5 after a normal end of the stream, after a
    [ConnectionClosed] and after any exception that is neither that nor a
    [ConnectionError], and only when the client is still running; it sleeps
    10, running or not, after every [ConnectionError] -- the class the
    authentication failure is raised as, and also the class of a refused or
    reset transport connection, and an ancestor of classes that the
    libraries declare for themselves: what decides is the ancestry of the
    exception, whatever its class is called.  As long as nobody stops the
    client the loop
    makes one attempt per round without a bound, each followed by its wait;
    once stopped during a round it exits after that round, and it exits
    only if the client was stopped. *)
Theorem reconnect_backoff (py_repr : value -> string) (bot : DecentraBot) :
  (forall r rest,
     _running bot = true ->
     let c := attempt py_repr bot (rd_connection r) in
     let running := negb (stop_during_attempt r) in
     let next := _ws_loop py_repr
                   (set_running (running && negb (stop_during_sleep r)) bot)
                   rest in
     _ws_loop py_repr bot (r :: rest)
     = (trace c ++ recover (result c) running ++ fst next, snd next)
     /\ timeline (trace c) = [inl (_ws_url (bot_client bot))]
     /\ (stop_during_attempt r = true \/ stop_during_sleep r = true ->
         next = ([], Exited)))
  /\ (forall running,
        timeline (recover (Return tt) running)
        = if running then [inr 5%Z] else [])
  /\ (forall e running,
        isinstance e "ConnectionClosed" = true ->
        timeline (recover (Raise e) running)
        = if running then [inr 5%Z] else [])
  /\ (forall e running,
        isinstance e "ConnectionClosed" = false ->
        isinstance e "ConnectionError" = true ->
        timeline (recover (Raise e) running) = [inr 10%Z])
  /\ (forall msg running,
        timeline (recover (Raise (Exn "ConnectionError" msg)) running)
        = [inr 10%Z])
  /\ (forall cls bases msg running,
        In "ConnectionError" bases ->
        ~ In "ConnectionClosed" (cls :: bases) ->
        timeline (recover (Raise (mkExn cls bases msg)) running)
        = [inr 10%Z])
  /\ (forall cls bases msg running,
        ~ In "ConnectionError" (cls :: bases) ->
        timeline (recover (Raise (mkExn cls bases msg)) running)
        = if running then [inr 5%Z] else [])
  /\ (forall e running,
        isinstance e "ConnectionClosed" = false ->
        isinstance e "ConnectionError" = false ->
        timeline (recover (Raise e) running)
        = if running then [inr 5%Z] else [])
  /\ (forall script,
        _running bot = true ->
        Forall (fun r => stop_during_attempt r = false
                         /\ stop_during_sleep r = false) script ->
        timeline (fst (_ws_loop py_repr bot script))
        = flat_map
            (fun r =>
               [ inl (_ws_url (bot_client bot));
                 inr (backoff (result (attempt py_repr bot (rd_connection r)))) ])
            script
        /\ snd (_ws_loop py_repr bot script) = Reconnecting)
  /\ (forall script,
        snd (_ws_loop py_repr bot script) = Exited ->
        _running bot = false
        \/ Exists (fun r => stop_during_attempt r = true
                            \/ stop_during_sleep r = true) script).
Proof.
  split; [| repeat split].
  - intros r rest Hrun c running next. split; [| split].
    + subst c running next. by apply ws_loop_turn.
    + apply timeline_attempt.
    + intros Hstop. subst next running. apply ws_loop_stopped. cbn.
      destruct Hstop as [-> | ->]; [reflexivity | apply andb_false_r].
  - intros running. by rewrite timeline_recover.
  - intros e running Hclosed. by rewrite timeline_recover, Hclosed.
  - intros e running Hclosed Herror.
    by rewrite timeline_recover, Hclosed, Herror.
  - intros cls bases msg running Herror Hclosed.
    rewrite timeline_recover, (isinstance_bases _ _ _ _ Herror).
    by rewrite (isinstance_not _ _ _ _ Hclosed).
  - intros cls bases msg running Herror.
    rewrite timeline_recover, (isinstance_not _ _ _ _ Herror).
    by rewrite andb_false_r.
  - intros e running Hclosed Herror.
    by rewrite timeline_recover, Hclosed, Herror.
  - by apply ws_loop_unbounded.
  - by apply ws_loop_unbounded.
  - apply ws_loop_exit.
Qed.

(** The theorem at three normal closes in a row: three attempts, a wait of
    5 after each, and the client about to connect again. *)
Lemma reconnect_backoff_witness :
  _running running_bot = true
  /\ Forall (fun r => stop_during_attempt r = false
                      /\ stop_during_sleep r = false) three_closures
  /\ timeline (fst (_ws_loop demo_repr running_bot three_closures))
     = [ inl "wss://chat.example/ws"; inr 5%Z;
         inl "wss://chat.example/ws"; inr 5%Z;
         inl "wss://chat.example/ws"; inr 5%Z ]
  /\ snd (_ws_loop demo_repr running_bot three_closures) = Reconnecting.
Proof.
  assert (Hrun : _running running_bot = true) by reflexivity.
  assert (Hscript : Forall (fun r => stop_during_attempt r = false
                                     /\ stop_during_sleep r = false)
                      three_closures)
    by (repeat constructor).
  destruct (reconnect_backoff demo_repr running_bot)
    as (_ & _ & _ & _ & _ & _ & _ & _ & Hunbounded & _).
  destruct (Hunbounded three_closures Hrun Hscript) as [Htimeline Hend].
  split; [exact Hrun|]. split; [exact Hscript|].
  split; [rewrite Htimeline; reflexivity | exact Hend].
Defined.

(** C4, as the claim states it, fails for a failure that is neither a
    close of the transport nor an authentication error: when the server
    refuses the connection no frame is ever read, the exception is a
    [ConnectionRefusedError], and the client waits 10, not 5, before it
    connects again. *)
Lemma refused_connection_waits_ten :
  result (attempt demo_repr running_bot refused)
  = Raise (Exn "ConnectionRefusedError" "[Errno 111] Connect call failed")
  /\ received (trace (attempt demo_repr running_bot refused)) = []
  /\ isinstance (Exn "ConnectionRefusedError" "[Errno 111] Connect call failed")
       "ConnectionClosed" = false
  /\ timeline (fst (_ws_loop demo_repr running_bot
                      [ mkRound refused false false;
                        mkRound (healthy []) false false ]))
     = [ inl "wss://chat.example/ws"; inr 10%Z;
         inl "wss://chat.example/ws"; inr 5%Z ].
Proof. repeat split; vm_compute; reflexivity. Qed.

(** A connection that is reset while the commands are being registered:
    [aiohttp] raises a class of its own, which the [except ConnectionError]
    clause catches through its ancestry, and the wait is 10.  When the
    registration cannot connect at all, the class [aiohttp] raises derives
    from [OSError] but not from [ConnectionError], and the wait is 5. *)
Example reset_during_registration_waits_ten :
  result (attempt demo_repr running_bot reset_on_registration)
  = Raise (Exn "ClientConnectionResetError" "Cannot write to closing transport")
  /\ isinstance
       (Exn "ClientConnectionResetError" "Cannot write to closing transport")
       "ConnectionError" = true
  /\ timeline (fst (_ws_loop demo_repr running_bot
                      [mkRound reset_on_registration false false]))
     = [ inl "wss://chat.example/ws"; inr 10%Z ]
  /\ isinstance (Exn "ClientConnectorError" "Cannot connect to host")
       "ConnectionError" = false
  /\ timeline (fst (_ws_loop demo_repr running_bot
                      [mkRound (unregistered []) false false]))
     = [ inl "wss://chat.example/ws"; inr 5%Z ].
Proof. repeat split; vm_compute; reflexivity. Qed.

(** * Further properties of the client *)

(** ** The dispatcher and the frame loop *)

Lemma dispatch_effects_handler_loop event_name a handlers :
  Forall (fun x => dispatch_effect x = true)
    (flat_map (handler_effects event_name a) handlers).
Proof.
  induction handlers as [|h rest IH]; [constructor|].
  cbn [flat_map]. apply Forall_app. split; [|exact IH].
  unfold handler_effects. destruct (h_call h a); repeat constructor.
Qed.

Lemma dispatch_effects_only bot data :
  Forall (fun x => dispatch_effect x = true) (trace (_dispatch_event bot data)).
Proof.
  destruct data as [| | | | |envelope]; try constructor.
  unfold _dispatch_event.
  destruct (eq_str (dict_get envelope "type" (VStr "")) "bot_event");
    [| destruct (eq_str _ "pong"); repeat constructor].
  destruct (dict_get envelope "data" (VDict [])) as [| | | | |payload];
    try constructor.
  destruct (eq_str (dict_get envelope "event" (VStr "")) "slash_command").
  - unfold dispatch_slash_command.
    destruct (dict_get (inject envelope payload) "command" (VStr ""))
      as [| | |name| |]; try constructor.
    unfold hash_key, ret. cbn [bind mbind option_bind].
    destruct (_slash_handlers bot !! name) as [h|]; [|constructor].
    rewrite call_eq. repeat constructor.
  - rewrite trace_bind. apply Forall_app.
    destruct (dict_get envelope "event" (VStr "")); cbn;
      (split; [constructor|]); try constructor;
      rewrite call_handlers_eq; apply dispatch_effects_handler_loop.
Qed.

Lemma loop_effects_frame bot raw :
  Forall (fun x => loop_effect x = true) (frame_effects bot raw)
  /\ received (frame_effects bot raw) = [raw].
Proof.
  unfold frame_effects.
  destruct raw as [text | why text | v];
    [by repeat constructor | by repeat constructor |].
  assert (Hd := dispatch_effects_only bot v).
  set (t := trace (_dispatch_event bot v)) in *.
  set (tail := match result (_dispatch_event bot v) with
               | Return _ => []
               | Raise e =>
                   if isinstance e "JSONDecodeError"
                   then [Log WARNING "Received non-JSON message" []]
                   else [Log ERROR "Error handling event: %s" [AExn e]]
               end).
  assert (Htail : Forall (fun x => dispatch_effect x = true) tail).
  { subst tail. destruct (result _) as [[] | e]; [constructor|].
    destruct (isinstance e "JSONDecodeError"); repeat constructor. }
  assert (Hall : Forall (fun x => dispatch_effect x = true) (t ++ tail))
    by (apply Forall_app; by split).
  clearbody t tail. split.
  - constructor; [reflexivity|].
    eapply Forall_impl; [exact Hall|]. intros x Hx. by destruct x.
  - cbn [received flat_map app]. f_equal.
    induction Hall as [|x l Hx _ IH]; [reflexivity|].
    cbn [flat_map]. rewrite IH. by destruct x.
Qed.

Lemma stream_effects bot frames :
  Forall (fun x => loop_effect x = true) (trace (stream bot frames))
  /\ received (trace (stream bot frames)) = frames.
Proof.
  rewrite stream_eq. cbn [trace fst].
  induction frames as [|raw rest [IHall IHrecv]]; [by split|].
  destruct (loop_effects_frame bot raw) as [Hall Hrecv].
  cbn [flat_map]. split; [apply Forall_app; by split|].
  unfold received in *. by rewrite flat_map_app, Hrecv, IHrecv.
Qed.

Lemma loop_effects_quiet t :
  Forall (fun x => loop_effect x = true) t ->
  requests t = [] /\ timeline t = [].
Proof.
  induction 1 as [|x l Hx _ (IHr & IHt)]; [by split|].
  cbn [requests timeline flat_map]. fold (requests l) (timeline l).
  rewrite IHr, IHt. by destruct x.
Qed.

(** X1: the frame loop does not end on what a frame holds or on what a
    handler raises, as long as that derives from [Exception] -- the
    exceptions of this model; one that derives from [BaseException] alone
    passes both [except] clauses of the loop and is outside the theorem.
    The loop reads every frame that arrives, in order, and the only other
    things it does are handler calls and log records: it sends no request,
    writes nothing to the socket and does not sleep.  A text that is no
    JSON leaves the warning for a non-JSON message; a frame that
    [json.loads] cannot read for another reason leaves an error record with
    the [UnicodeDecodeError], [RecursionError] or [ValueError] it raised. *)
Theorem stream_reads_every_frame (bot : DecentraBot)
    (frames : list raw_message) :
  result (stream bot frames) = Return tt
  /\ received (trace (stream bot frames)) = frames
  /\ Forall (fun x => loop_effect x = true) (trace (stream bot frames))
  /\ requests (trace (stream bot frames)) = []
  /\ timeline (trace (stream bot frames)) = []
  /\ (forall text,
        stream bot (NotJSON text :: frames)
        = (WsRecv (NotJSON text)
           :: Log WARNING "Received non-JSON message" []
           :: trace (stream bot frames),
           Return tt))
  /\ (forall why text,
        stream bot (Unreadable why text :: frames)
        = (WsRecv (Unreadable why text)
           :: Log ERROR "Error handling event: %s"
                [AExn (Exn (failure_class why) text)]
           :: trace (stream bot frames),
           Return tt)
        /\ isinstance (Exn (failure_class why) text) "JSONDecodeError" = false).
Proof.
  destruct (stream_effects bot frames) as [Hall Hrecv].
  destruct (loop_effects_quiet _ Hall) as (Hreq & Htime).
  split; [by rewrite stream_eq|].
  do 4 (split; [assumption|]). split.
  - intros text. by rewrite !stream_eq.
  - intros why text. split; [by rewrite !stream_eq | by destruct why].
Qed.

Lemma call_trace_nonempty h a : trace (call h a) <> [].
Proof. by rewrite call_eq. Qed.

(** X2: the dispatcher raises without having called anybody exactly on the
    malformed frames, and what it raises then is a [TypeError] or an
    [AttributeError]; the frame loop logs that exception as one error
    record and goes on with the next frame. *)
Theorem dispatch_raises_unheard_iff_malformed (bot : DecentraBot)
    (data : value) :
  (malformed data = true
   <-> exists e, _dispatch_event bot data = ([], Raise e))
  /\ (forall e,
        _dispatch_event bot data = ([], Raise e) ->
        (exn_class e = "TypeError" \/ exn_class e = "AttributeError")
        /\ forall rest,
             stream bot (JSON data :: rest)
             = (WsRecv (JSON data)
                :: Log ERROR "Error handling event: %s" [AExn e]
                :: trace (stream bot rest),
                Return tt)).
Proof.
  assert (Hcases :
            (malformed data = true
             /\ exists e, _dispatch_event bot data = ([], Raise e)
                          /\ (exn_class e = "TypeError"
                              \/ exn_class e = "AttributeError")
                          /\ isinstance e "JSONDecodeError" = false)
            \/ (malformed data = false
                /\ forall e, _dispatch_event bot data <> ([], Raise e))).
  { destruct data as [| | | | |envelope];
      try (left; split; [reflexivity|]; eexists; split;
           [reflexivity | split; [by right | reflexivity]]).
    unfold malformed, _dispatch_event.
    destruct (eq_str (dict_get envelope "type" (VStr "")) "bot_event");
      [| right; split; [reflexivity|];
         destruct (eq_str _ "pong"); intros e; discriminate].
    cbn [andb].
    destruct (dict_get envelope "data" (VDict [])) as [| | | | |payload];
      try (left; split; [reflexivity|]; eexists; split;
           [reflexivity | split; [by left | reflexivity]]).
    destruct (eq_str (dict_get envelope "event" (VStr "")) "slash_command").
    - unfold dispatch_slash_command.
      rewrite inject_get_other by discriminate.
      destruct (dict_get payload "command" (VStr "")) as [| | |name| |];
        try (left; split; [reflexivity|]; eexists; split;
             [reflexivity | split; [by left | reflexivity]]);
        try (right; split; [reflexivity|]; intros e; discriminate).
      right. split; [reflexivity|]. intros e.
      unfold hash_key, ret. cbn [bind mbind option_bind].
      destruct (_slash_handlers bot !! name) as [h|]; [|discriminate].
      destruct (call h _) as [t r] eqn:Hcall.
      assert (Ht := call_trace_nonempty h
                      (ArgContext (make_context bot (VStr name)
                                     (inject envelope payload)))).
      rewrite Hcall in Ht. cbn in Ht.
      destruct r as [[]|e']; cbn; [discriminate|].
      intros Heq. inversion Heq. contradiction.
    - destruct (dict_get envelope "event" (VStr "")) as [| | |kind| |];
        try (left; split; [reflexivity|]; eexists; split;
             [reflexivity | split; [by left | reflexivity]]);
        (right; split; [reflexivity|]; intros e;
         unfold hash_key, ret, bind; rewrite call_handlers_eq; discriminate). }
  split.
  - destruct Hcases as [(Hm & e & He & _ & _) | (Hm & Hno)].
    + split; [intros _; by exists e | by intros _].
    + split; [by rewrite Hm | intros [e He]; by destruct (Hno e)].
  - intros e He. split.
    + destruct Hcases as [(_ & e' & He' & Hclass & _) | (_ & Hno)];
        [| by destruct (Hno e)].
      rewrite He in He'. by inversion He'.
    + intros rest. rewrite !stream_eq. cbn [flat_map trace fst].
      unfold frame_effects. rewrite He. cbn [trace result fst snd app].
      destruct Hcases as [(_ & e' & He' & _ & Hjson) | (_ & Hno)];
        [| by destruct (Hno e)].
      rewrite He in He'. inversion He'; subst e'.
      by rewrite Hjson.
Qed.

(** X3: the frame loop's [except json.JSONDecodeError] also covers the
    dispatch.  When a command handler raises a [JSONDecodeError] of its
    own, the loop records the warning for a frame that is no JSON and no
    error record at all; the same exception raised by an event handler is
    caught in the handler loop and recorded as a handler error. *)
Theorem command_json_error_logged_as_non_json (bot : DecentraBot)
    (envelope payload : dict) (name : string) (h : handler) (e : exn)
    (rest : list raw_message) :
  dict_get envelope "type" (VStr "") = VStr "bot_event" ->
  dict_get envelope "event" (VStr "") = VStr "slash_command" ->
  dict_get envelope "data" (VDict []) = VDict payload ->
  dict_get payload "command" (VStr "") = VStr name ->
  _slash_handlers bot !! name = Some h ->
  h_call h (ArgContext (make_context bot (VStr name) (inject envelope payload)))
  = Some e ->
  isinstance e "JSONDecodeError" = true ->
  let a := ArgContext (make_context bot (VStr name) (inject envelope payload)) in
  stream bot (JSON (VDict envelope) :: rest)
  = (WsRecv (JSON (VDict envelope))
     :: Invoke h a
     :: Log WARNING "Received non-JSON message" []
     :: trace (stream bot rest),
     Return tt)
  /\ errors (frame_effects bot (JSON (VDict envelope))) = []
  /\ (forall kind a' h',
        h_call h' a' = Some e ->
        errors (handler_effects (VStr kind) a' h')
        = [("Handler error for %s: %s", [AVal (VStr kind); AExn e])]).
Proof.
  intros Htype Hevent Hdata Hcmd Hh Hraise Hjson a.
  assert (Hc : _dispatch_event bot (VDict envelope) = ([Invoke h a], Raise e)).
  { rewrite (dispatch_command bot envelope payload name) by assumption.
    rewrite Hh, call_eq. subst a. by rewrite Hraise. }
  split; [| split].
  - rewrite !stream_eq. cbn [flat_map trace fst]. unfold frame_effects.
    rewrite Hc. cbn [trace result fst snd]. by rewrite Hjson.
  - unfold frame_effects. rewrite Hc. cbn [trace result fst snd].
    by rewrite Hjson.
  - intros kind a' h' Hh'. unfold handler_effects. by rewrite Hh'.
Qed.

(** The theorem at the [ping] command of a bot whose handlers raise a
    [JSONDecodeError]. *)
Lemma command_json_error_logged_as_non_json_witness :
  isinstance decode_error "JSONDecodeError" = true
  /\ stream parsing_bot [JSON (VDict ping_envelope)]
     = ([ WsRecv (JSON (VDict ping_envelope));
          Invoke (failing "ping" decode_error)
            (ArgContext (make_context parsing_bot (VStr "ping") ping_event_data));
          Log WARNING "Received non-JSON message" [] ],
        Return tt).
Proof.
  split; [reflexivity|].
  exact (proj1 (command_json_error_logged_as_non_json parsing_bot ping_envelope
                  _ "ping" (failing "ping" decode_error) decode_error []
                  eq_refl eq_refl eq_refl eq_refl eq_refl eq_refl eq_refl)).
Defined.

(** ** Connection attempts *)

Lemma bind_return {A B} (c : M A) (k : A -> M B) a :
  result c = Return a ->
  bind c k = (trace c ++ trace (k a), result (k a)).
Proof.
  destruct c as [t [a' | e]]; cbn; intros H; inversion H; subst.
  by destruct (k a).
Qed.

Lemma connect_accepted py_repr bot conn d :
  accepted conn d ->
  _connect_ws py_repr bot conn
  = (handshake_trace bot (JSON (VDict d))
     ++ [ if eq_str (dict_get d "type" VNone) "bot_auth_success"
          then Log INFO "✓ Authenticated as %s (bot_id=%s)"
                 [AVal (dict_get d "username" VNone);
                  AVal (dict_get d "bot_id" VNone)]
          else Log WARNING "Unexpected auth response: %s" [AVal (VDict d)] ],
     Return tt).
Proof.
  intros (Hconnect & Hsend & Hrecv & Herror). unfold _connect_ws.
  rewrite Hconnect, Hsend, Hrecv. cbn. rewrite Herror.
  by destruct (eq_str (dict_get d "type" VNone) "bot_auth_success").
Qed.

Lemma connect_garbled py_repr bot conn raw :
  garbled conn raw ->
  exists e,
    _connect_ws py_repr bot conn = (handshake_trace bot raw, Raise e)
    /\ exn_class e = garbled_class raw
    /\ isinstance e "ConnectionClosed" = false
    /\ isinstance e "ConnectionError" = false.
Proof.
  intros (Hconnect & Hsend & Hrecv & Hraw). unfold _connect_ws.
  rewrite Hconnect, Hsend, Hrecv.
  destruct raw as [text | why text | v].
  - eexists. split; [reflexivity | by repeat split].
  - eexists. split; [reflexivity | by destruct why].
  - destruct v; try contradiction; eexists;
      (split; [reflexivity | by repeat split]).
Qed.

(** X4: the handshake fails only on an answer of type [error].  Any other
    object -- [bot_auth_success], an unknown type, no type at all -- lets
    [_connect_ws] return: the first is logged with the identity the server
    gave, the others with a warning; and a client without commands then
    goes straight to the stream, reading every frame of the connection. *)
Theorem handshake_accepts_any_other_answer (py_repr : value -> string)
    (bot : DecentraBot) (conn : connection) (d : dict) :
  accepted conn d ->
  _connect_ws py_repr bot conn
  = (handshake_trace bot (JSON (VDict d))
     ++ [ if eq_str (dict_get d "type" VNone) "bot_auth_success"
          then Log INFO "✓ Authenticated as %s (bot_id=%s)"
                 [AVal (dict_get d "username" VNone);
                  AVal (dict_get d "bot_id" VNone)]
          else Log WARNING "Unexpected auth response: %s" [AVal (VDict d)] ],
     Return tt)
  /\ errors (trace (_connect_ws py_repr bot conn)) = []
  /\ (_slash_definitions bot = [] ->
      attempt py_repr bot conn
      = (trace (_connect_ws py_repr bot conn)
         ++ trace (stream bot (incoming conn)),
         ending conn)
      /\ received (trace (attempt py_repr bot conn))
         = JSON (VDict d) :: incoming conn).
Proof.
  intros Hacc. assert (Hc := connect_accepted py_repr bot conn d Hacc).
  split; [exact Hc|]. split.
  - rewrite Hc. cbn.
    by destruct (eq_str (dict_get d "type" VNone) "bot_auth_success").
  - intros Hdefs.
    assert (Ha : attempt py_repr bot conn
                 = (trace (_connect_ws py_repr bot conn)
                    ++ trace (stream bot (incoming conn)),
                    ending conn)).
    { unfold attempt. rewrite (bind_return _ _ tt) by by rewrite Hc.
      rewrite Hdefs. cbn [ret bind].
      rewrite stream_eq. cbn [trace result fst snd bind app].
      unfold ending, raise_if, raise, ret.
      destruct (closing conn); cbn; by rewrite app_nil_r. }
    split; [exact Ha|]. rewrite Ha. cbn [trace fst].
    unfold received. rewrite flat_map_app.
    fold (received (trace (stream bot (incoming conn)))).
    destruct (stream_effects bot (incoming conn)) as [_ ->].
    rewrite Hc. cbn.
    by destruct (eq_str (dict_get d "type" VNone) "bot_auth_success").
Qed.

(** The theorem at an answer of an unknown type. *)
Lemma handshake_accepts_any_other_answer_witness :
  accepted (greeted [JSON (VDict ping_envelope)]) [ ("type", VStr "welcome") ]
  /\ _connect_ws demo_repr message_bot (greeted [JSON (VDict ping_envelope)])
     = ([ Log INFO "Connecting to %s ..." [AStr "wss://chat.example/ws"];
          WsConnect "wss://chat.example/ws";
          WsSend (VDict [ ("type", VStr "bot_auth");
                          ("token", VStr "secret") ]);
          WsRecv (JSON (VDict [ ("type", VStr "welcome") ]));
          Log WARNING "Unexpected auth response: %s"
            [AVal (VDict [ ("type", VStr "welcome") ])] ],
        Return tt)
  /\ received (trace (attempt demo_repr message_bot
                        (greeted [JSON (VDict ping_envelope)])))
     = [ JSON (VDict [ ("type", VStr "welcome") ]);
         JSON (VDict ping_envelope) ].
Proof.
  assert (Hacc : accepted (greeted [JSON (VDict ping_envelope)])
                   [ ("type", VStr "welcome") ])
    by (repeat split).
  destruct (handshake_accepts_any_other_answer demo_repr message_bot _ _ Hacc)
    as (Hc & _ & Hattempt).
  destruct (Hattempt eq_refl) as [_ Hrecv].
  split; [exact Hacc|]. split; [exact Hc | exact Hrecv].
Defined.

(** X5: when the answer to the authentication frame cannot be decoded, or
    is decoded to something that is no object, the attempt ends with the
    exception of that step: the [JSONDecodeError] of a text that is no
    JSON, the [UnicodeDecodeError], [RecursionError] or [ValueError] of a
    frame [json.loads] cannot read otherwise, or the [AttributeError] of a
    value without [get].  Nothing is registered, no frame of the stream is
    read and no handler is called.  None of these exceptions is a
    [ConnectionError], so the supervisor takes the 5-second wait of the
    unexpected failures, not the 10-second one of a rejected handshake. *)
Theorem garbled_handshake_retries_after_five (py_repr : value -> string)
    (bot : DecentraBot) (conn : connection) (raw : raw_message) :
  garbled conn raw ->
  exists e,
    attempt py_repr bot conn = (handshake_trace bot raw, Raise e)
    /\ exn_class e = garbled_class raw
    /\ In (garbled_class raw)
         [ "JSONDecodeError"; "UnicodeDecodeError"; "RecursionError";
           "ValueError"; "AttributeError" ]
    /\ (garbled_class raw = "JSONDecodeError"
        <-> exists text, raw = NotJSON text)
    /\ isinstance e "ConnectionError" = false
    /\ received (trace (attempt py_repr bot conn)) = [raw]
    /\ requests (trace (attempt py_repr bot conn)) = []
    /\ calls (trace (attempt py_repr bot conn)) = []
    /\ (_running bot = true ->
        forall rest,
          timeline (fst (_ws_loop py_repr bot
                           (mkRound conn false false :: rest)))
          = inl (_ws_url (bot_client bot)) :: inr 5%Z
            :: timeline (fst (_ws_loop py_repr bot rest))).
Proof.
  intros Hg. destruct (connect_garbled py_repr bot conn raw Hg)
    as (e & Hc & Hclass & Hclosed & Herror).
  assert (Ha : attempt py_repr bot conn = (handshake_trace bot raw, Raise e)).
  { unfold attempt. rewrite (bind_raise _ _ e); by rewrite Hc. }
  exists e. split; [exact Ha|]. split; [exact Hclass|].
  split; [| split; [| split; [exact Herror|]]].
  - destruct raw as [text | [| |] text | v]; cbn; tauto.
  - split.
    + destruct raw as [text | [| |] text | v]; cbn; try discriminate.
      intros _. by exists text.
    + by intros [text ->].
  - rewrite Ha. cbn [trace fst]. repeat split.
    intros Hrun rest. rewrite ws_loop_turn by exact Hrun.
    cbn [rd_connection stop_during_attempt stop_during_sleep negb andb].
    rewrite set_running_true by exact Hrun. rewrite Ha.
    cbn [trace result fst snd]. rewrite !timeline_app, timeline_recover.
    rewrite Hclosed, Herror. reflexivity.
Qed.

(** The theorem at a binary answer that is no text. *)
Lemma garbled_handshake_retries_after_five_witness :
  garbled (binary [JSON (VDict ping_envelope)]) binary_frame
  /\ result (attempt demo_repr running_bot (binary [JSON (VDict ping_envelope)]))
     = Raise (Exn "UnicodeDecodeError"
                "'utf-8' codec can't decode byte 0xff in position 0: invalid start byte")
  /\ timeline (fst (_ws_loop demo_repr running_bot
                      [ mkRound (binary [JSON (VDict ping_envelope)])
                          false false ]))
     = [ inl "wss://chat.example/ws"; inr 5%Z ].
Proof.
  assert (Hg : garbled (binary [JSON (VDict ping_envelope)]) binary_frame)
    by (repeat split).
  destruct (garbled_handshake_retries_after_five demo_repr running_bot _ _ Hg)
    as (e & _ & _ & _ & _ & _ & _ & _ & _ & Hloop).
  split; [exact Hg|]. split; [reflexivity|]. exact (Hloop eq_refl []).
Defined.

(** X6: the registration of the commands is part of the attempt.  When the
    client has definitions and the handshake is accepted, one
    [POST /api/bot/commands] carrying all of them is sent before any frame
    of the stream is read; if that request fails in the network, or its
    answer cannot be parsed, the attempt ends with that exception and the
    stream is never read; if it is answered, whatever the status, every
    frame of the connection is read.  A client without definitions sends
    no request at all. *)
Theorem registration_precedes_streaming (py_repr : value -> string)
    (bot : DecentraBot) (conn : connection) (d : dict) :
  accepted conn d ->
  (_slash_definitions bot = [] ->
   requests (trace (attempt py_repr bot conn)) = [])
  /\ (_slash_definitions bot <> [] ->
      (forall e,
         commands_reply conn = inl e
         \/ (exists resp,
               commands_reply conn = inr resp /\ json_body resp = inl e) ->
         result (attempt py_repr bot conn) = Raise e
         /\ received (trace (attempt py_repr bot conn)) = [JSON (VDict d)]
         /\ calls (trace (attempt py_repr bot conn)) = [])
      /\ (forall resp data,
            commands_reply conn = inr resp ->
            json_body resp = inr data ->
            result (attempt py_repr bot conn) = ending conn
            /\ received (trace (attempt py_repr bot conn))
               = JSON (VDict d) :: incoming conn)
      /\ requests (trace (attempt py_repr bot conn))
         = [("POST", _api_url (bot_client bot) "/api/bot/commands",
             Some (VDict [("commands", VList (_slash_definitions bot))]))]).
Proof.
  intros Hacc. assert (Hc := connect_accepted py_repr bot conn d Hacc).
  set (t0 := trace (_connect_ws py_repr bot conn)).
  assert (Ht0 : received t0 = [JSON (VDict d)] /\ requests t0 = []
                /\ calls t0 = []).
  { subst t0. rewrite Hc. cbn.
    by destruct (eq_str (dict_get d "type" VNone) "bot_auth_success"). }
  destruct Ht0 as (Hrecv0 & Hreq0 & Hcalls0).
  destruct (stream_effects bot (incoming conn)) as [Hall Hrecv].
  destruct (loop_effects_quiet _ Hall) as [Hreq _].
  assert (Hs : stream bot (incoming conn)
               = (trace (stream bot (incoming conn)), Return tt))
    by (rewrite stream_eq; reflexivity).
  assert (Hstep : attempt py_repr bot conn
                  = bind (_connect_ws py_repr bot conn) (fun _ =>
                      bind match _slash_definitions bot with
                           | [] => ret tt
                           | _ :: _ =>
                               result <- register_commands bot
                                           (commands_reply conn) ;;
                               emit (Log INFO "Registered %d slash commands: %s"
                                       [AInt (Z.of_nat
                                                (length (_slash_definitions bot)));
                                        AVal result])
                           end (fun _ =>
                        bind (stream bot (incoming conn)) (fun _ =>
                          raise_if (closing conn)))))
    by reflexivity.
  rewrite (bind_return _ _ tt) in Hstep by by rewrite Hc. fold t0 in Hstep.
  assert (Htail : bind (stream bot (incoming conn))
                    (fun _ => raise_if (closing conn))
                  = (trace (stream bot (incoming conn)), ending conn)).
  { rewrite Hs. unfold ending, raise_if, raise, ret. cbn.
    destruct (closing conn); by rewrite app_nil_r. }
  split.
  - intros Hdefs. rewrite Hstep, Hdefs. cbn [ret bind].
    rewrite Htail. cbn [trace fst app].
    unfold requests in *. by rewrite flat_map_app, Hreq0, Hreq.
  - intros Hdefs.
    destruct (_slash_definitions bot) as [|def defs] eqn:Hd; [done|].
    unfold register_commands in Hstep. rewrite Hd in Hstep.
    set (body := Some (VDict [("commands", VList (def :: defs))])) in *.
    unfold _api_request in Hstep.
    split; [| split].
    + intros e Hfail.
      assert (Hattempt : attempt py_repr bot conn
                         = (t0 ++ [Request "POST"
                                     (_api_url (bot_client bot)
                                        "/api/bot/commands")
                                     (_headers (bot_client bot)) body],
                            Raise e)).
      { rewrite Hstep.
        destruct Hfail as [Hnet | (resp & Hnet & Hbody)]; rewrite Hnet.
        - reflexivity.
        - cbn. by rewrite Hbody. }
      rewrite Hattempt. cbn [trace result fst snd]. split; [reflexivity|].
      unfold received, calls in *.
      rewrite !flat_map_app, Hrecv0, Hcalls0. by split.
    + intros resp data Hnet Hbody. rewrite Hstep, Hnet.
      cbn [bind emit ret raise trace result fst snd]. rewrite Hbody.
      destruct (400 <=? status resp)%Z; cbn; rewrite Htail; cbn;
        (split; [reflexivity|]);
        unfold received in *; rewrite !flat_map_app, Hrecv0;
        cbn; by rewrite Hrecv.
    + rewrite Hstep.
      destruct (commands_reply conn) as [e | resp]; cbn.
      * unfold requests in *. rewrite flat_map_app, Hreq0. reflexivity.
      * destruct (json_body resp) as [e | data]; cbn.
        -- unfold requests in *. rewrite flat_map_app, Hreq0. reflexivity.
        -- destruct (400 <=? status resp)%Z; cbn; rewrite Htail; cbn;
             unfold requests in *; rewrite !flat_map_app, Hreq0; cbn;
             by rewrite Hreq.
Qed.

(** The theorem at a client with a command whose registration request
    cannot reach the server. *)
Lemma registration_precedes_streaming_witness :
  accepted (unregistered [JSON (VDict ping_envelope)])
    [ ("type", VStr "bot_auth_success");
      ("username", VStr "demo");
      ("bot_id", VStr "7") ]
  /\ _slash_definitions ping_bot <> []
  /\ result (attempt demo_repr ping_bot
               (unregistered [JSON (VDict ping_envelope)]))
     = Raise (Exn "ClientConnectorError" "Cannot connect to host")
  /\ received (trace (attempt demo_repr ping_bot
                        (unregistered [JSON (VDict ping_envelope)])))
     = [auth_ok].
Proof.
  assert (Hacc : accepted (unregistered [JSON (VDict ping_envelope)])
                   [ ("type", VStr "bot_auth_success");
                     ("username", VStr "demo");
                     ("bot_id", VStr "7") ])
    by (repeat split).
  assert (Hdefs : _slash_definitions ping_bot <> []) by discriminate.
  destruct (registration_precedes_streaming demo_repr ping_bot _ _ Hacc)
    as (_ & Hsome).
  destruct (Hsome Hdefs) as (Hfail & _).
  destruct (Hfail (Exn "ClientConnectorError" "Cannot connect to host")
              (or_introl eq_refl)) as (Hres & Hrecv & _).
  split; [exact Hacc|]. split; [exact Hdefs|]. split; assumption.
Defined.

(** ** The socket address *)

Lemma prefix_app old s : String.prefix old (old +:+ s) = true.
Proof.
  induction old as [|c old IH]; simpl; [by destruct s|].
  destruct (ascii_dec c c); [exact IH | contradiction].
Qed.

Lemma replace_from_skip old new t s :
  replace_from old new (String.length t) (t +:+ s)
  = replace_from old new 0 s.
Proof. induction t as [|c t IH]; [reflexivity | exact IH]. Qed.

Lemma replace_prefix c old new s :
  replace (String c old) new (String c old +:+ s)
  = new +:+ replace (String c old) new s.
Proof.
  unfold replace.
  change (String c old +:+ s) with (String c (old +:+ s)).
  cbn [replace_from].
  change (String c (old +:+ s)) with (String c old +:+ s).
  rewrite prefix_app. cbn [String.length].
  replace (S (String.length old) - 1) with (String.length old) by lia.
  by rewrite replace_from_skip.
Qed.

Lemma replace_absent old new s :
  occurs old s = false -> replace old new s = s.
Proof.
  unfold replace. induction s as [|c s IH]; [reflexivity|].
  cbn [occurs replace_from]. intros H.
  apply orb_false_iff in H as [Hp Ho]. rewrite Hp. by rewrite IH.
Qed.

(** X7: [_ws_url] turns the scheme of the instance address into the
    socket scheme and appends [/ws]: for an address [https://host] it is
    [wss://host/ws], for [http://host] it is [ws://host/ws], whenever
    neither scheme occurs again inside [host]; an address in which no
    scheme occurs is kept as it is. *)
Theorem ws_url_scheme (host tok : string) :
  occurs "http://" host = false ->
  occurs "https://" host = false ->
  _ws_url (mkClient ("https://" +:+ host) tok) = "wss://" +:+ host +:+ "/ws"
  /\ _ws_url (mkClient ("http://" +:+ host) tok) = "ws://" +:+ host +:+ "/ws"
  /\ _ws_url (mkClient host tok) = host +:+ "/ws".
Proof.
  intros Hhttp Hhttps. unfold _ws_url. cbn [instance_url].
  split; [| split].
  - rewrite (replace_absent "http://" "ws://" ("https://" +:+ host))
      by (cbn; exact Hhttp).
    rewrite (replace_prefix "h" "ttps://" "wss://" host).
    by rewrite (replace_absent "https://" "wss://" host).
  - rewrite (replace_prefix "h" "ttp://" "ws://" host).
    rewrite (replace_absent "http://" "ws://" host) by exact Hhttp.
    by rewrite (replace_absent "https://" "wss://" ("ws://" +:+ host))
      by (cbn; exact Hhttps).
  - rewrite (replace_absent "http://" "ws://" host) by exact Hhttp.
    by rewrite (replace_absent "https://" "wss://" host).
Qed.

(** The theorem at a host with a port. *)
Lemma ws_url_scheme_witness :
  occurs "http://" "chat.example:8443" = false
  /\ occurs "https://" "chat.example:8443" = false
  /\ _ws_url (mkClient "https://chat.example:8443" "secret")
     = "wss://chat.example:8443/ws".
Proof.
  split; [reflexivity|]. split; [reflexivity|].
  exact (proj1 (ws_url_scheme "chat.example:8443" "secret" eq_refl eq_refl)).
Defined.

(** ** The loop under stops *)

(** X8: a running client goes through the rounds of its script up to and
    including the first one in which [stop] is called, and through no
    other: the trace of the loop is what these rounds add, one after the
    other; the loop has exited if there is such a round and is about to
    connect again if there is none. *)
Theorem ws_loop_runs_until_stopped (py_repr : value -> string)
    (bot : DecentraBot) (script : list round) :
  _running bot = true ->
  fst (_ws_loop py_repr bot script)
  = flat_map (round_effects py_repr bot) (rounds_run script)
  /\ snd (_ws_loop py_repr bot script)
     = (if existsb stopping script then Exited else Reconnecting)
  /\ length (List.filter (fun x => match x with inl _ => true | inr _ => false end)
               (timeline (fst (_ws_loop py_repr bot script))))
     = length (rounds_run script).
Proof.
  intros Hrun.
  assert (Hloop : fst (_ws_loop py_repr bot script)
                  = flat_map (round_effects py_repr bot) (rounds_run script)
                  /\ snd (_ws_loop py_repr bot script)
                     = (if existsb stopping script then Exited
                        else Reconnecting)).
  { induction script as [|[conn sa ss] rest [IHt IHe]];
      [cbn; by rewrite Hrun|].
    rewrite ws_loop_turn by exact Hrun.
    cbn [fst snd rounds_run existsb flat_map]. unfold stopping at 1 3.
    unfold round_effects at 1.
    cbn [rd_connection stop_during_attempt stop_during_sleep].
    destruct sa, ss; cbn [negb andb orb];
      rewrite ?ws_loop_stopped by reflexivity;
      rewrite ?set_running_true by exact Hrun;
      cbn [fst snd flat_map]; rewrite ?app_nil_r;
      try (split; reflexivity).
    rewrite IHt, IHe. by rewrite <- app_assoc. }
  destruct Hloop as [Ht He]. split; [exact Ht|]. split; [exact He|].
  rewrite Ht. clear. induction (rounds_run script) as [|r rest IH];
    [reflexivity|].
  cbn [flat_map]. unfold round_effects at 1.
  rewrite !timeline_app, timeline_attempt, timeline_recover.
  cbn [app List.filter length]. f_equal. rewrite List.filter_app, length_app.
  rewrite IH.
  destruct (result (attempt py_repr bot (rd_connection r))) as [[] | e];
    [by destruct (negb (stop_during_attempt r))|].
  destruct (negb (isinstance e "ConnectionClosed")
            && isinstance e "ConnectionError"); [reflexivity|].
  by destruct (negb (stop_during_attempt r)).
Qed.

(** The theorem at a script of three rounds with a stop in the second. *)
Lemma ws_loop_runs_until_stopped_witness :
  _running running_bot = true
  /\ length (rounds_run stopped_in_second) = 2
  /\ snd (_ws_loop demo_repr running_bot stopped_in_second) = Exited
  /\ timeline (fst (_ws_loop demo_repr running_bot stopped_in_second))
     = [ inl "wss://chat.example/ws"; inr 5%Z; inl "wss://chat.example/ws" ].
Proof.
  assert (Hrun : _running running_bot = true) by reflexivity.
  destruct (ws_loop_runs_until_stopped demo_repr running_bot
              stopped_in_second Hrun) as (Ht & He & _).
  split; [exact Hrun|]. split; [reflexivity|]. split; [exact He|].
  rewrite Ht. reflexivity.
Defined.

(** ** Registration *)

Lemma subscribe_all_handlers subs bot kind :
  default [] (_event_handlers (subscribe_all subs bot) !! kind)
  = default [] (_event_handlers bot !! kind) ++ subscribed kind subs.
Proof.
  revert bot. induction subs as [|[k h] rest IH]; intros bot.
  - cbn. by rewrite app_nil_r.
  - change (subscribe_all ((k, h) :: rest) bot)
      with (subscribe_all rest (add_event_handler k h bot)).
    rewrite IH. unfold subscribed. cbn [List.filter fst snd].
    cbn [add_event_handler _event_handlers].
    destruct (String.eqb k kind) eqn:E.
    + apply String.eqb_eq in E. subst k. rewrite lookup_insert_eq.
      cbn. by rewrite <- app_assoc.
    + apply String.eqb_neq in E. by rewrite lookup_insert_ne.
Qed.

Lemma subscribe_all_frame subs bot :
  _slash_handlers (subscribe_all subs bot) = _slash_handlers bot
  /\ _slash_definitions (subscribe_all subs bot) = _slash_definitions bot
  /\ bot_client (subscribe_all subs bot) = bot_client bot
  /\ _running (subscribe_all subs bot) = _running bot.
Proof.
  revert bot. induction subs as [|[k h] rest IH]; intros bot; [done|].
  change (subscribe_all ((k, h) :: rest) bot)
    with (subscribe_all rest (add_event_handler k h bot)).
  destruct (IH (add_event_handler k h bot)) as (-> & -> & -> & ->).
  done.
Qed.

(** X9: after any sequence of [add_event_handler] calls the handlers of a
    kind are those the client had, followed by the ones the sequence
    subscribed to that kind, in the order of the calls; calls for other
    kinds do not show in the list, and the command table, the definitions
    and the configuration are left alone.  Dispatching an event of the
    kind whose data is an object calls exactly these handlers in that
    order -- unless the kind is [slash_command]: such an event goes to the
    command registry alone, whatever was subscribed to the kind, and the
    subscriptions make no difference to what the dispatcher does.  An event
    whose data is no object reaches no handler. *)
Theorem subscription_order (bot : DecentraBot)
    (subs : list (string * handler)) (kind : string) (envelope : dict) :
  dict_get envelope "type" (VStr "") = VStr "bot_event" ->
  dict_get envelope "event" (VStr "") = VStr kind ->
  let bot' := subscribe_all subs bot in
  default [] (_event_handlers bot' !! kind)
  = default [] (_event_handlers bot !! kind) ++ subscribed kind subs
  /\ _slash_handlers bot' = _slash_handlers bot
  /\ _slash_definitions bot' = _slash_definitions bot
  /\ bot_client bot' = bot_client bot
  /\ match dict_get envelope "data" (VDict []) with
     | VDict payload =>
         if String.eqb kind "slash_command" then
           _dispatch_event bot' (VDict envelope)
           = dispatch_slash_command bot (inject envelope payload)
           /\ _dispatch_event bot' (VDict envelope)
              = _dispatch_event bot (VDict envelope)
         else
           map fst (calls (trace (_dispatch_event bot' (VDict envelope))))
           = default [] (_event_handlers bot !! kind) ++ subscribed kind subs
     | _ => calls (trace (_dispatch_event bot' (VDict envelope))) = []
     end.
Proof.
  intros Htype Hevent bot'.
  destruct (subscribe_all_frame subs bot) as (Hh & Hd & Hc & _).
  split; [apply subscribe_all_handlers|].
  split; [exact Hh|]. split; [exact Hd|]. split; [exact Hc|].
  destruct (dict_get envelope "data" (VDict [])) as [| | | | |payload] eqn:Hdata;
    try (unfold _dispatch_event; rewrite Htype, Hdata; cbn [eq_str];
         rewrite String.eqb_refl; reflexivity).
  destruct (String.eqb kind "slash_command") eqn:Hkind.
  - apply String.eqb_eq in Hkind. subst kind.
    assert (Hslash : forall b,
              _dispatch_event b (VDict envelope)
              = dispatch_slash_command b (inject envelope payload)).
    { intros b. unfold _dispatch_event. rewrite Htype, Hevent, Hdata.
      cbn [eq_str]. by rewrite !String.eqb_refl. }
    assert (Hsame : dispatch_slash_command bot' (inject envelope payload)
                    = dispatch_slash_command bot (inject envelope payload)).
    { subst bot'. unfold dispatch_slash_command, make_context.
      by rewrite Hh, Hc. }
    split; [by rewrite Hslash | by rewrite !Hslash].
  - apply String.eqb_neq in Hkind.
    rewrite (dispatch_event_kind bot' kind envelope payload) by assumption.
    cbn [trace fst]. rewrite calls_handler_loop, map_map. cbn [fst].
    rewrite map_id. apply subscribe_all_handlers.
Qed.

(** The theorem at two subscriptions to [member_join] with one to another
    kind between them, and at a subscription to [slash_command]. *)
Lemma subscription_order_witness :
  map fst (calls (trace (_dispatch_event
                           (subscribe_all interleaved (new_bot demo_client))
                           (VDict join_envelope))))
  = [quiet "first"; quiet "second"]
  /\ _dispatch_event
       (subscribe_all [("slash_command", quiet "listener")] ping_bot)
       (VDict ping_envelope)
     = _dispatch_event ping_bot (VDict ping_envelope).
Proof.
  destruct (subscription_order (new_bot demo_client) interleaved "member_join"
              join_envelope eq_refl eq_refl)
    as (_ & _ & _ & _ & Hcalls).
  destruct (subscription_order ping_bot [("slash_command", quiet "listener")]
              "slash_command" ping_envelope eq_refl eq_refl)
    as (_ & _ & _ & _ & Hcommand).
  split; [exact Hcalls | exact (proj2 Hcommand)].
Defined.

(** X10: the two registries do not interfere.  Registering a command
    changes nothing in how a frame is dispatched unless the frame is a
    [slash_command] event, and subscribing a handler to a kind changes
    nothing unless the frame is an event of that kind. *)
Theorem registries_do_not_interfere (bot : DecentraBot)
    (name description : string) (parameters : list parameter)
    (h : handler) (kind : string) (h' : handler) (data : value) :
  (is_command_event data = false ->
   _dispatch_event (slash_command name description parameters h bot) data
   = _dispatch_event bot data)
  /\ (is_event_of kind data = false ->
      _dispatch_event (add_event_handler kind h' bot) data
      = _dispatch_event bot data).
Proof.
  destruct data as [| | | | |envelope]; try (split; reflexivity).
  unfold is_command_event, is_event_of, _dispatch_event.
  destruct (eq_str (dict_get envelope "type" (VStr "")) "bot_event");
    [| split; reflexivity].
  cbn [andb].
  destruct (dict_get envelope "data" (VDict [])) as [| | | | |payload];
    try (split; reflexivity).
  split.
  - intros ->. reflexivity.
  - intros Hkind.
    destruct (eq_str (dict_get envelope "event" (VStr "")) "slash_command");
      [reflexivity|].
    destruct (dict_get envelope "event" (VStr "")) as [| | |k| |];
      try reflexivity.
    cbn in Hkind. apply String.eqb_neq in Hkind.
    unfold hash_key, ret, bind. cbn [mbind option_bind add_event_handler
                                      _event_handlers].
    rewrite lookup_insert_ne by congruence. reflexivity.
Qed.

(** The theorem at a command registered on a client that listens for
    [member_join] events, and at a subscription to another kind. *)
Lemma registries_do_not_interfere_witness :
  is_command_event (VDict join_envelope) = false
  /\ _dispatch_event
       (slash_command "ping" "Replies with pong" [] (quiet "ping") listeners_bot)
       (VDict join_envelope)
     = _dispatch_event listeners_bot (VDict join_envelope)
  /\ is_event_of "member_leave" (VDict join_envelope) = false
  /\ _dispatch_event (add_event_handler "member_leave" (quiet "bye") listeners_bot)
       (VDict join_envelope)
     = _dispatch_event listeners_bot (VDict join_envelope).
Proof.
  destruct (registries_do_not_interfere listeners_bot "ping"
              "Replies with pong" [] (quiet "ping") "member_leave"
              (quiet "bye") (VDict join_envelope)) as [Hcmd Hsub].
  split; [reflexivity|]. split; [exact (Hcmd eq_refl)|].
  split; [reflexivity | exact (Hsub eq_refl)].
Defined.

(** ** Discovery and the decorators *)

Lemma discover_event_handlers m bot kind :
  default [] (_event_handlers (discover m bot) !! kind)
  = default [] (_event_handlers bot !! kind) ++ marked_for kind [m].
Proof.
  unfold discover, marked_for. cbn [List.filter map].
  assert (Hslash : forall b,
             _event_handlers
               match _decentra_slash_command m with
               | Some (name, description, parameters) =>
                   slash_command name description
                     (map ParamObject parameters) (m_func m) b
               | None => b
               end = _event_handlers b).
  { intros b. by destruct (_decentra_slash_command m) as [[[? ?] ?]|]. }
  rewrite Hslash.
  destruct (_decentra_event m) as [event|]; [| cbn; by rewrite app_nil_r].
  destruct (truthy (VStr event)); [| cbn; by rewrite app_nil_r].
  cbn [andb add_event_handler _event_handlers].
  destruct (String.eqb event kind) eqn:E.
  - apply String.eqb_eq in E. subst event. by rewrite lookup_insert_eq.
  - apply String.eqb_neq in E. rewrite lookup_insert_ne by exact E.
    cbn. by rewrite app_nil_r.
Qed.

Lemma discover_slash_handlers m bot name :
  _slash_handlers (discover m bot) !! name
  = match last_marked name [m] with
    | Some h => Some h
    | None => _slash_handlers bot !! name
    end.
Proof.
  unfold discover. cbn [last_marked].
  assert (Hevent : _slash_handlers
                     match _decentra_event m with
                     | Some event =>
                         if truthy (VStr event)
                         then add_event_handler event (m_func m) bot
                         else bot
                     | None => bot
                     end = _slash_handlers bot).
  { destruct (_decentra_event m) as [event|]; [|reflexivity].
    by destruct (truthy (VStr event)). }
  destruct (_decentra_slash_command m) as [[[name' description] parameters]|];
    [| by rewrite Hevent].
  cbn [slash_command _slash_handlers]. rewrite Hevent.
  destruct (String.eqb name' name) eqn:E.
  - apply String.eqb_eq in E. subst name'. apply lookup_insert_eq.
  - apply String.eqb_neq in E. by apply lookup_insert_ne.
Qed.

Lemma discover_client m bot : bot_client (discover m bot) = bot_client bot.
Proof.
  unfold discover.
  destruct (_decentra_slash_command m) as [[[? ?] ?]|];
    destruct (_decentra_event m) as [event|];
    try destruct (truthy (VStr event)); reflexivity.
Qed.

Lemma discover_handlers_client methods bot :
  bot_client (_discover_handlers methods bot) = bot_client bot.
Proof.
  revert bot. induction methods as [|m rest IH]; intros bot; [reflexivity|].
  change (_discover_handlers (m :: rest) bot)
    with (_discover_handlers rest (discover m bot)).
  by rewrite IH, discover_client.
Qed.

(** X11: discovery over the methods of a subclass subscribes, for each
    kind, the methods marked with that kind, in the order of the scan and
    after the handlers already there -- a marker that is the empty string
    subscribes nothing; it appends one definition per method marked as a
    command, in the same order; and it maps a command name to the last
    method marked with it. *)
Theorem discovery_registers_marked_methods (methods : list method)
    (bot : DecentraBot) (kind name : string) :
  let bot' := _discover_handlers methods bot in
  default [] (_event_handlers bot' !! kind)
  = default [] (_event_handlers bot !! kind) ++ marked_for kind methods
  /\ marked_for "" methods = []
  /\ _slash_definitions bot'
     = _slash_definitions bot ++ marked_definitions methods
  /\ _slash_handlers bot' !! name
     = match last_marked name methods with
       | Some h => Some h
       | None => _slash_handlers bot !! name
       end
  /\ bot_client bot' = bot_client bot.
Proof.
  cbv zeta. split; [| split; [| split; [| split]]].
  - revert bot. induction methods as [|m rest IH]; intros bot.
    + cbn. by rewrite app_nil_r.
    + change (_discover_handlers (m :: rest) bot)
        with (_discover_handlers rest (discover m bot)).
      rewrite IH, discover_event_handlers, <- app_assoc. f_equal.
      unfold marked_for. cbn [List.filter].
      destruct (match _decentra_event m with
                | Some event => truthy (VStr event) && String.eqb event kind
                | None => false
                end); reflexivity.
  - unfold marked_for. induction methods as [|m rest IH]; [reflexivity|].
    cbn [List.filter].
    destruct (_decentra_event m) as [event|]; [|exact IH].
    destruct event as [|c event]; [exact IH|].
    cbn. exact IH.
  - revert bot. induction methods as [|m rest IH]; intros bot.
    + cbn. by rewrite app_nil_r.
    + change (_discover_handlers (m :: rest) bot)
        with (_discover_handlers rest (discover m bot)).
      rewrite IH, discover_appends_definition, <- app_assoc. reflexivity.
  - revert bot. induction methods as [|m rest IH]; intros bot; [reflexivity|].
    change (_discover_handlers (m :: rest) bot)
      with (_discover_handlers rest (discover m bot)).
    rewrite IH. cbn [last_marked].
    destruct (last_marked name rest); [reflexivity|].
    apply discover_slash_handlers.
  - apply discover_handlers_client.
Qed.

(** X12: a function carries one event marker and one command marker.
    Decorating it for a second event replaces the first, so that
    discovery subscribes it to the outer decorator's kind only; the two
    kinds of marker do not disturb each other, in either order of the
    decorators, and a function marked with both is subscribed and
    registered as a command; an undecorated method is skipped. *)
Theorem decorators_stack (m : method) (first second : string)
    (name description : string) (parameters : list SlashCommandParam)
    (bot : DecentraBot) :
  events.on_event second (events.on_event first m) = events.on_event second m
  /\ commands.slash_command name description parameters
       (events.on_event first m)
     = events.on_event first
         (commands.slash_command name description parameters m)
  /\ (second <> "" ->
      first <> second ->
      let bot' :=
        discover (events.on_event second (events.on_event first m)) bot in
      default [] (_event_handlers bot' !! second)
      = default [] (_event_handlers bot !! second) ++ [m_func m]
      /\ default [] (_event_handlers bot' !! first)
         = default [] (_event_handlers bot !! first))
  /\ discover (commands.slash_command name description parameters
                 (events.on_message (unmarked (m_func m)))) bot
     = slash_command name description (map ParamObject parameters) (m_func m)
         (add_event_handler "message_create" (m_func m) bot)
  /\ discover (unmarked (m_func m)) bot = bot.
Proof.
  split; [reflexivity|]. split; [reflexivity|]. split; [| by split].
  intros Hsecond Hfirst bot'. subst bot'.
  rewrite !discover_event_handlers. unfold marked_for.
  cbn [List.filter events.on_event events.mark _decentra_event m_func map].
  assert (Htruthy : truthy (VStr second) = true)
    by (destruct second; [contradiction | reflexivity]).
  apply String.eqb_neq in Hfirst. rewrite String.eqb_sym in Hfirst.
  rewrite Htruthy, Hfirst, String.eqb_refl. cbn. by rewrite app_nil_r.
Qed.

(** Discovery on the methods of a subclass: the method decorated twice
    listens for [member_join] only, and the helper is skipped. *)
Example discovery_of_a_subclass :
  let bot := _discover_handlers subclass_methods (new_bot demo_client) in
  _event_handlers bot !! "message_create" = Some [quiet "handle"]
  /\ _event_handlers bot !! "member_join" = Some [quiet "greet"]
  /\ _slash_handlers bot !! "ping" = Some (quiet "ping")
  /\ _slash_definitions bot = [definition "ping" "Replies with pong" []].
Proof. repeat split. Qed.

(** ** The REST methods *)

Lemma api_request_sent c method path json net :
  sent (trace (_api_request c method path json net))
  = [(method, _api_url c path, _headers c, json)].
Proof.
  unfold _api_request, bind, emit, raise, ret.
  destruct net as [e | resp]; [reflexivity|].
  destruct (json_body resp) as [e | data]; [reflexivity|].
  by destruct (400 <=? status resp)%Z.
Qed.

Lemma bind_ret_l {A B} (a : A) (k : A -> M B) : bind (ret a) k = k a.
Proof. unfold bind, ret. by destruct (k a). Qed.

Lemma from_dicts_eq {A} (from_dict : dict -> A) items :
  match dicts_of items with
  | Some ds => from_dicts from_dict items = ([], Return (map from_dict ds))
  | None =>
      exists e, from_dicts from_dict items = ([], Raise e)
                /\ exn_class e = "AttributeError"
  end.
Proof.
  induction items as [|x rest IH]; [reflexivity|].
  cbn [dicts_of from_dicts].
  destruct x as [| | | | |d]; try (eexists; split; reflexivity).
  cbn [as_dict]. destruct (dicts_of rest) as [ds|].
  - unfold ret in *. cbn [bind]. by rewrite IH.
  - destruct IH as (e & -> & Hclass). exists e. by split.
Qed.

(** What the comprehension of a fetcher makes of the parsed body. *)
Lemma records_of_body {A} (from_dict : dict -> A) key data :
  match data with
  | VDict d =>
      match entries (dict_get d key (VList [])) with
      | Some ds =>
          (d' <- as_dict data ;;
           items <- iterate (dict_get d' key (VList [])) ;;
           from_dicts from_dict items)
          = ([], Return (map from_dict ds))
      | None =>
          exists e,
            (d' <- as_dict data ;;
             items <- iterate (dict_get d' key (VList [])) ;;
             from_dicts from_dict items)
            = ([], Raise e)
            /\ (exn_class e = "AttributeError" \/ exn_class e = "TypeError")
      end
  | _ =>
      exists e,
        (d' <- as_dict data ;;
         items <- iterate (dict_get d' key (VList [])) ;;
         from_dicts from_dict items)
        = ([], Raise e)
        /\ exn_class e = "AttributeError"
  end.
Proof.
  destruct data as [| | | | |d]; try (eexists; split; reflexivity).
  cbn [as_dict]. rewrite !bind_ret_l.
  destruct (dict_get d key (VList [])) as [| | |s|items|d'];
    cbn [entries iterate]; rewrite ?bind_ret_l;
    try (eexists; split; [reflexivity | by right]).
  - destruct s as [|ch s]; [reflexivity|].
    eexists. split; [reflexivity | by left].
  - assert (H := from_dicts_eq from_dict items).
    destruct (dicts_of items) as [ds|]; [exact H|].
    destruct H as (e & -> & Hclass). exists e. split; [reflexivity | by left].
  - destruct d' as [|[k v] d']; [reflexivity|].
    eexists. split; [reflexivity | by left].
Qed.

Lemma fetch_eq {A} c path key (from_dict : dict -> A) net :
  sent (trace (fetch c path key from_dict net))
  = [("GET", _api_url c path, _headers c, None)]
  /\ match net with
     | inl e => result (fetch c path key from_dict net) = Raise e
     | inr resp =>
         match json_body resp with
         | inl e => result (fetch c path key from_dict net) = Raise e
         | inr (VDict d) =>
             match entries (dict_get d key (VList [])) with
             | Some ds =>
                 result (fetch c path key from_dict net)
                 = Return (map from_dict ds)
             | None =>
                 exists e,
                   result (fetch c path key from_dict net) = Raise e
                   /\ (exn_class e = "AttributeError"
                       \/ exn_class e = "TypeError")
             end
         | inr _ =>
             exists e,
               result (fetch c path key from_dict net) = Raise e
               /\ exn_class e = "AttributeError"
         end
     end.
Proof.
  unfold fetch. rewrite trace_bind, result_bind.
  assert (Hsent := api_request_sent c "GET" path None net).
  destruct net as [e | resp].
  { split; [| reflexivity]. by rewrite app_nil_r. }
  destruct (json_body resp) as [e | data] eqn:Hbody.
  { assert (Hr : result (_api_request c "GET" path None (inr resp)) = Raise e).
    { unfold _api_request, bind, emit, raise, ret. by rewrite Hbody. }
    rewrite Hr. split; [by rewrite app_nil_r | reflexivity]. }
  assert (Hr : result (_api_request c "GET" path None (inr resp)) = Return data).
  { unfold _api_request, bind, emit, raise, ret. rewrite Hbody.
    by destruct (400 <=? status resp)%Z. }
  rewrite Hr. assert (H := records_of_body from_dict key data).
  destruct data as [| | | | |d];
    try (destruct H as (e & -> & Hclass); cbn [trace result fst snd];
         split; [unfold sent in *; by rewrite flat_map_app, Hsent
                | by exists e]).
  destruct (entries (dict_get d key (VList []))) as [ds|].
  - rewrite H. cbn [trace result fst snd].
    split; [unfold sent in *; by rewrite flat_map_app, Hsent | reflexivity].
  - destruct H as (e & -> & Hclass). cbn [trace result fst snd].
    split; [unfold sent in *; by rewrite flat_map_app, Hsent | by exists e].
Qed.




(** X14: a list fetcher whose answer is an object makes one record of
    every entry under its key, in the order of the answer, each keeping
    its entry in [raw]; when the key is missing the result is empty; and
    the status of the answer plays no part. *)
Theorem fetchers_return_one_record_per_entry (c : client) (resp : response)
    (d : dict) (server channel : string) (limit : Z) :
  json_body resp = inr (VDict d) ->
  (forall ds, entries (dict_get d "servers" (VList [])) = Some ds ->
     result (get_servers c (inr resp)) = Return (map Server_from_dict ds)
     /\ map srv_raw (map Server_from_dict ds) = ds)
  /\ (forall ds, entries (dict_get d "channels" (VList [])) = Some ds ->
        result (get_channels c server (inr resp))
        = Return (map Channel_from_dict ds)
        /\ map ch_raw (map Channel_from_dict ds) = ds)
  /\ (forall ds, entries (dict_get d "members" (VList [])) = Some ds ->
        result (get_members c server (inr resp))
        = Return (map Member_from_dict ds)
        /\ map mem_raw (map Member_from_dict ds) = ds)
  /\ (forall ds, entries (dict_get d "messages" (VList [])) = Some ds ->
        result (get_messages c server channel limit (inr resp))
        = Return (map from_event ds)
        /\ map msg_raw (map from_event ds) = ds)
  /\ (dict_lookup d "servers" = None ->
      result (get_servers c (inr resp)) = Return [])
  /\ (dict_lookup d "channels" = None ->
      result (get_channels c server (inr resp)) = Return [])
  /\ (dict_lookup d "members" = None ->
      result (get_members c server (inr resp)) = Return [])
  /\ (dict_lookup d "messages" = None ->
      result (get_messages c server channel limit (inr resp)) = Return []).
Proof.
  intros Hbody.
  assert (Hfetch : forall A path key (from_dict : dict -> A) ds,
             entries (dict_get d key (VList [])) = Some ds ->
             result (fetch c path key from_dict (inr resp))
             = Return (map from_dict ds)).
  { intros A path key from_dict ds Hds.
    destruct (fetch_eq c path key from_dict (inr resp)) as [_ H].
    by rewrite Hbody, Hds in H. }
  assert (Hmissing : forall A path key (from_dict : dict -> A),
             dict_lookup d key = None ->
             result (fetch c path key from_dict (inr resp)) = Return []).
  { intros A path key from_dict Hnone.
    apply (Hfetch A path key from_dict []). unfold dict_get.
    by rewrite Hnone. }
  assert (Hraw : forall A (from_dict : dict -> A) (raw : A -> dict) ds,
             (forall x, raw (from_dict x) = x) ->
             map raw (map from_dict ds) = ds).
  { intros A from_dict raw ds H. rewrite map_map.
    induction ds as [|x ds IH]; [reflexivity|]. cbn. by rewrite H, IH. }
  repeat split; try (by apply Hfetch); try (by apply Hmissing);
    by apply Hraw.
Qed.

(** The theorem at an answer with two channels. *)
Lemma fetchers_return_one_record_per_entry_witness :
  result (get_channels demo_client "s1"
            (inr (mkResponse 200 (inr (VDict channels_body)))))
  = Return [ Channel_from_dict
               [ ("channel_id", VStr "c1"); ("name", VStr "general") ];
             Channel_from_dict
               [ ("id", VStr "c2"); ("name", VStr "voice");
                 ("type", VStr "voice") ] ]
  /\ result (get_servers demo_client
               (inr (mkResponse 200 (inr (VDict channels_body)))))
     = Return [].
Proof.
  destruct (fetchers_return_one_record_per_entry demo_client
              (mkResponse 200 (inr (VDict channels_body))) channels_body
              "s1" "c1" 50 eq_refl)
    as (_ & Hchannels & _ & _ & Hservers & _).
  split; [exact (proj1 (Hchannels _ eq_refl)) | exact (Hservers eq_refl)].
Defined.

(** X15: a list fetcher returns only in the case of X14.  When the
    transport fails or the body cannot be parsed it raises that exception;
    when the body is no object, or what stands under the key cannot be
    iterated, or an element is no object, it raises an [AttributeError] or
    a [TypeError] and hands out no partial list.  The request has been
    sent in every one of these cases. *)
Theorem fetchers_raise_on_any_other_answer (c : client)
    (net : exn + response) (server : string) (rs : list Member) :
  (result (get_members c server net) = Return rs
   <-> exists resp d ds,
         net = inr resp
         /\ json_body resp = inr (VDict d)
         /\ entries (dict_get d "members" (VList [])) = Some ds
         /\ rs = map Member_from_dict ds)
  /\ (forall e, net = inl e -> result (get_members c server net) = Raise e)
  /\ (forall resp e,
        net = inr resp ->
        json_body resp = inl e ->
        result (get_members c server net) = Raise e)
  /\ (forall resp data,
        net = inr resp ->
        json_body resp = inr data ->
        match data with
        | VDict d => entries (dict_get d "members" (VList [])) = None
        | _ => True
        end ->
        exists e,
          result (get_members c server net) = Raise e
          /\ (exn_class e = "AttributeError" \/ exn_class e = "TypeError"))
  /\ sent (trace (get_members c server net))
     = [("GET", _api_url c ("/api/bot/servers/" +:+ server +:+ "/members"),
         _headers c, None)].
Proof.
  unfold get_members.
  destruct (fetch_eq c ("/api/bot/servers/" +:+ server +:+ "/members")
              "members" Member_from_dict net) as [Hsent H].
  split; [| split; [| split; [| split; [| exact Hsent]]]].
  - split.
    + intros Hret. destruct net as [e | resp]; [congruence|].
      destruct (json_body resp) as [e | data] eqn:Hbody; [congruence|].
      destruct data as [| | | | |d];
        try (destruct H as (e & He & _); congruence).
      destruct (entries (dict_get d "members" (VList []))) as [ds|] eqn:Hds;
        [| destruct H as (e & He & _); congruence].
      exists resp, d, ds. split; [reflexivity|]. split; [exact Hbody|].
      split; [exact Hds | congruence].
    + intros (resp & d & ds & -> & Hbody & Hds & ->).
      by rewrite Hbody, Hds in H.
  - intros e ->. exact H.
  - intros resp e -> Hbody. by rewrite Hbody in H.
  - intros resp data -> Hbody Hbad. rewrite Hbody in H.
    destruct data as [| | | | |d];
      try (destruct H as (e & He & Hclass); exists e; split;
           [exact He | by left]).
    by rewrite Hbad in H.
Qed.

(** ** The records of [models.py] *)

(** X16: [Channel.from_dict] reads the identifier from [channel_id] and
    falls back to [id] only when [channel_id] is absent, and likewise the
    type from [channel_type] before [type]: a value set under the first
    key is the field whatever stands under the second; a value set under
    the second key is the field exactly when the first key is absent; with
    both absent the fields are the empty string and [text]. *)
Theorem channel_keys_fall_back (d : dict) (v : value) :
  ch_channel_id (Channel_from_dict (dict_set d "channel_id" v)) = v
  /\ ch_channel_type (Channel_from_dict (dict_set d "channel_type" v)) = v
  /\ ch_channel_id (Channel_from_dict (dict_set d "id" v))
     = match dict_lookup d "channel_id" with Some w => w | None => v end
  /\ ch_channel_type (Channel_from_dict (dict_set d "type" v))
     = match dict_lookup d "channel_type" with Some w => w | None => v end
  /\ (dict_lookup d "channel_id" = None -> dict_lookup d "id" = None ->
      ch_channel_id (Channel_from_dict d) = VStr "")
  /\ (dict_lookup d "channel_type" = None -> dict_lookup d "type" = None ->
      ch_channel_type (Channel_from_dict d) = VStr "text")
  /\ ch_raw (Channel_from_dict (dict_set d "id" v)) = dict_set d "id" v.
Proof.
  unfold Channel_from_dict. cbn [ch_channel_id ch_channel_type ch_raw].
  split; [apply dict_get_set_eq|]. split; [apply dict_get_set_eq|].
  split; [| split; [| split; [| split; [| reflexivity]]]].
  - unfold dict_get. rewrite dict_lookup_set_ne by discriminate.
    rewrite dict_lookup_set_eq. reflexivity.
  - unfold dict_get. rewrite dict_lookup_set_ne by discriminate.
    rewrite dict_lookup_set_eq. reflexivity.
  - intros H1 H2. unfold dict_get. by rewrite H1, H2.
  - intros H1 H2. unfold dict_get. by rewrite H1, H2.
Qed.

(** X17: the named fields of a [Message] are independent views of the
    payload.  Setting one of the fourteen keys of the payload makes the
    field of that key the value set and leaves the thirteen other fields
    as they were; [raw] is the payload as set. *)
Theorem message_fields_follow_their_keys (d : dict) (v : value) :
  Forall
    (fun '(key, field) =>
       field (from_event (dict_set d key v)) = v
       /\ msg_raw (from_event (dict_set d key v)) = dict_set d key v
       /\ Forall
            (fun '(key', field') =>
               key' <> key ->
               field' (from_event (dict_set d key v)) = field' (from_event d))
            message_fields)
    message_fields.
Proof.
  unfold message_fields at 1.
  repeat (apply List.Forall_cons;
          [ split; [apply dict_get_set_eq|]; split; [reflexivity|];
            unfold message_fields;
            repeat (apply List.Forall_cons;
                    [ intros Hne; cbn;
                      first [ contradiction
                            | apply dict_get_set_ne; congruence ] |]);
            apply List.Forall_nil |]).
  apply List.Forall_nil.
Qed.

(** ** The constructor *)

Lemma rstrip_slash_no_trailing s : ends_with_slash (rstrip_slash s) = false.
Proof.
  induction s as [|c s IH]; [reflexivity|]. cbn [rstrip_slash].
  destruct (rstrip_slash s) as [|c' r].
  - destruct (Ascii.eqb c "/") eqn:E; [reflexivity|]. cbn. exact E.
  - exact IH.
Qed.

Lemma rstrip_slash_split s :
  exists n, s = rstrip_slash s +:+ slashes n.
Proof.
  induction s as [|c s [n IH]]; [by exists 0|]. cbn [rstrip_slash].
  destruct (rstrip_slash s) as [|c' r].
  - change (s = slashes n) in IH. destruct (Ascii.eqb c "/") eqn:E.
    + apply Ascii.eqb_eq in E. subst c. exists (S n).
      change (String "/" s = String "/" (slashes n)). by f_equal.
    + exists n. change (String c s = String c (slashes n)). by f_equal.
  - exists n. change (s = String c' (r +:+ slashes n)) in IH.
    change (String c s = String c (String c' (r +:+ slashes n))).
    by f_equal.
Qed.

(** X18: the constructor sets up logging before it checks anything, and
    what that raises -- a [ValueError] for a level name that is no level,
    for one -- leaves the constructor whatever the address and the token
    are.  When the set-up returns, the constructor succeeds exactly when,
    after the fall-back to the environment and the stripping of the
    trailing slashes, the address is not empty and the token is not empty;
    otherwise it raises a [ValueError], naming the address when both are
    missing.  An argument that is given and not empty wins over the
    environment, and the level is [INFO] when neither names one.  On
    success the address of the client is the one given without its
    trailing slashes -- it never ends in a slash -- and the registries hold
    what discovery found. *)
Theorem constructor_requires_address_and_token
    (address secret level : option string) (env : environment)
    (methods : list method) :
  let url :=
    rstrip_slash (or_getenv address (DECENTRA_INSTANCE_URL env) "") in
  let tok := or_getenv secret (DECENTRA_BOT_TOKEN env) "" in
  let name := or_getenv level (LOG_LEVEL env) "INFO" in
  (forall e,
     logging_basicConfig env name = Some e ->
     DecentraBot_init address secret level env methods = Raise e)
  /\ (logging_basicConfig env name = None -> url = "" ->
      DecentraBot_init address secret level env methods
      = Raise (Exn "ValueError" "DECENTRA_INSTANCE_URL is required"))
  /\ (logging_basicConfig env name = None -> url <> "" -> tok = "" ->
      DecentraBot_init address secret level env methods
      = Raise (Exn "ValueError" "DECENTRA_BOT_TOKEN is required"))
  /\ (logging_basicConfig env name = None -> url <> "" -> tok <> "" ->
      DecentraBot_init address secret level env methods
      = Return (_discover_handlers methods (new_bot (mkClient url tok))))
  /\ (forall bot,
        DecentraBot_init address secret level env methods = Return bot ->
        logging_basicConfig env name = None
        /\ ends_with_slash (instance_url (bot_client bot)) = false
        /\ instance_url (bot_client bot) <> ""
        /\ token (bot_client bot) <> ""
        /\ _running bot = false
        /\ exists n,
             or_getenv address (DECENTRA_INSTANCE_URL env) ""
             = instance_url (bot_client bot) +:+ slashes n)
  /\ (forall argument variable fallback c s,
        argument = Some (String c s) ->
        or_getenv argument variable fallback = String c s)
  /\ (forall argument variable fallback,
        argument = None \/ argument = Some "" ->
        or_getenv argument variable fallback = default fallback variable).
Proof.
  intros url tok name. unfold DecentraBot_init. fold url tok name.
  split; [intros e ->; reflexivity|].
  split; [intros -> ->; reflexivity|].
  split; [| split; [| split; [| split]]].
  - intros -> Hurl ->. apply String.eqb_neq in Hurl. by rewrite Hurl.
  - intros -> Hurl Htok. apply String.eqb_neq in Hurl, Htok.
    by rewrite Hurl, Htok.
  - intros bot.
    destruct (logging_basicConfig env name); [discriminate|].
    destruct (String.eqb url "") eqn:Hurl; [discriminate|].
    destruct (String.eqb tok "") eqn:Htok; [discriminate|].
    intros Hbot. injection Hbot as <-.
    rewrite discover_handlers_client. cbn [bot_client new_bot].
    cbn [instance_url token].
    split; [reflexivity|].
    split; [apply rstrip_slash_no_trailing|].
    split; [by apply String.eqb_neq|].
    split; [by apply String.eqb_neq|]. split.
    + clear. induction methods as [|m rest IH] using rev_ind; [reflexivity|].
      unfold _discover_handlers in *. rewrite fold_left_app. cbn [fold_left].
      unfold discover.
      destruct (_decentra_slash_command m) as [[[? ?] ?]|];
        destruct (_decentra_event m) as [event|];
        try destruct (truthy (VStr event)); exact IH.
    + apply rstrip_slash_split.
  - by intros argument variable fallback c s ->.
  - by intros argument variable fallback [-> | ->].
Qed.

(** The constructor on small inputs: trailing slashes go, the token comes
    from the environment, an address made of slashes counts as missing,
    and a level name that is no level stops the constructor before it
    looks at an address that is missing as well. *)
Example constructor_on_small_inputs :
  DecentraBot_init (Some "https://chat.example//") None None token_only []
  = Return (new_bot demo_client)
  /\ DecentraBot_init (Some "///") None None token_only []
     = Raise (Exn "ValueError" "DECENTRA_INSTANCE_URL is required")
  /\ DecentraBot_init (Some "https://chat.example") (Some "") None
       (mkEnvironment None None None (fun _ => None)) []
     = Raise (Exn "ValueError" "DECENTRA_BOT_TOKEN is required")
  /\ DecentraBot_init None None (Some "BASIC_FORMAT")
       (mkEnvironment None None None no_such_level) []
     = Raise (Exn "ValueError"
                "Unknown level: '%(levelname)s:%(name)s:%(message)s'")
  /\ DecentraBot_init (Some "https://chat.example") (Some "secret") None
       (mkEnvironment None None (Some "BASIC_FORMAT") no_such_level) []
     = Raise (Exn "ValueError"
                "Unknown level: '%(levelname)s:%(name)s:%(message)s'").
Proof. repeat split. Qed.

(** ** Sessions and shutdown *)

(** X19: [stop] can be called again.  After it the flag is cleared and
    neither the socket nor the session is open; a second call leaves that
    state as it is and closes no session, though it calls [close] on the
    stored socket once more.  [stop] closes the socket exactly when one
    was ever stored and the session exactly when one is open, it never
    makes a session, and on a client that never connected it only writes
    its log record. *)
Theorem stop_is_idempotent (r : resources) :
  let r1 := snd (stop r) in
  snd (stop r1) = r1
  /\ res_running r1 = false
  /\ res_ws r1 <> Some Open
  /\ res_session r1 <> Some Open
  /\ fst (stop r1)
     = match res_ws r with
       | Some _ => [CloseSocket; LogStopped]
       | None => [LogStopped]
       end
  /\ (In CloseSocket (fst (stop r)) <-> res_ws r <> None)
  /\ (In CloseSession (fst (stop r)) <-> res_session r = Some Open)
  /\ ~ In NewSession (fst (stop r))
  /\ (res_ws r = None -> res_session r = None ->
      fst (stop r) = [LogStopped]).
Proof.
  destruct r as [running [[|]|] [[|]|]]; cbn;
    repeat split; try discriminate; try reflexivity; intuition congruence.
Qed.

(** X20: [_ensure_session] leaves an open session behind, makes one
    exactly when there was none or a closed one, and touches nothing else;
    called again it makes nothing; called after [stop] it always makes a
    new one. *)
Theorem session_is_reused_until_closed (r : resources) :
  let r1 := snd (_ensure_session r) in
  res_session r1 = Some Open
  /\ _ensure_session r1 = ([], r1)
  /\ fst (_ensure_session r)
     = match res_session r with
       | Some Open => []
       | _ => [NewSession]
       end
  /\ res_ws r1 = res_ws r
  /\ res_running r1 = res_running r
  /\ fst (_ensure_session (snd (stop r))) = [NewSession]
  /\ fst (_ensure_session (snd (stop r1))) = [NewSession].
Proof.
  destruct r as [running ws [[|]|]]; cbn; repeat split.
Qed.
